(** * ESG evaluation dashboard: the filter, grouping and projection pipeline

    A shallow embedding of [app.js].  The dashboard loads a JSON array of
    indicator objects, filters it, groups it by department for the board
    view and projects every record to a card, a table row, a detail
    overlay and a CSV row.

    - A record is the object [JSON.parse] built, a finite map from property
      names to JavaScript values; its fields are dynamically typed, as in
      the program.
    - A string is its sequence of UTF-16 code units, so that [substring],
      [includes], [replace] and [trim] count what the program counts.
    - The DOM is not modelled: a rendering function is embedded as the
      payload it interpolates into its HTML template (texts and style
      classes), and the [TypeError] of a string method called on a value
      that is no string is [None].
    - A conversion of a value to text raises on an object with a
      [toString] key of its own.  The projections give the text when the
      conversion returns; the module [Strict] is the program with these
      exceptions, the loader has them built in.
    - [toLowerCase] and [localeCompare] are parameters; [Array.prototype.sort]
      is the stable insertion sort. *)

From Stdlib Require Import ZArith NArith List Bool Lia Sorted Permutation.
From stdpp Require Import gmap strings.
Import ListNotations.

Set Warnings "-register-all".

(** ** JavaScript values and strings *)

Module JS.

(** A JavaScript string is a sequence of UTF-16 code units. *)
Definition jsstring := list N.

(** The values a record parsed by [JSON.parse] can hold, and [undefined],
    which reading a missing property gives.  A number is modelled by its
    integer value (the score field of the dataset holds 0 or 1). *)
Inductive value : Type :=
| VUndefined
| VNull
| VBool (b : bool)
| VNum (n : Z)
| VStr (s : jsstring)
| VArr (l : list value)
| VObj (o : gmap string value).

(** *** Literals: UTF-8 source text to UTF-16 code units *)

Definition cont (b : N) : N := N.land b 63.

Fixpoint utf8_points (bs : list N) : list N :=
  match bs with
  | [] => []
  | b0 :: r0 =>
    if (b0 <? 128)%N then b0 :: utf8_points r0
    else if (b0 <? 224)%N then
      match r0 with
      | b1 :: r1 =>
        N.lor (N.shiftl (N.land b0 31) 6) (cont b1) :: utf8_points r1
      | _ => []
      end
    else if (b0 <? 240)%N then
      match r0 with
      | b1 :: b2 :: r2 =>
        N.lor (N.shiftl (N.land b0 15) 12)
              (N.lor (N.shiftl (cont b1) 6) (cont b2)) :: utf8_points r2
      | _ => []
      end
    else
      match r0 with
      | b1 :: b2 :: b3 :: r3 =>
        N.lor (N.shiftl (N.land b0 7) 18)
              (N.lor (N.shiftl (cont b1) 12)
                     (N.lor (N.shiftl (cont b2) 6) (cont b3)))
          :: utf8_points r3
      | _ => []
      end
  end.

Definition utf16_units (p : N) : list N :=
  if (p <? 65536)%N then [p]
  else let q := (p - 65536)%N in
       [(55296 + N.shiftr q 10)%N; (56320 + N.land q 1023)%N].

Definition utf16 (s : string) : jsstring :=
  flat_map utf16_units
    (utf8_points (map Ascii.N_of_ascii (String.list_ascii_of_string s))).

(** *** Truthiness, [||] and property access *)

Definition truthy (v : value) : bool :=
  match v with
  | VUndefined | VNull => false
  | VBool b => b
  | VNum n => negb (n =? 0)%Z
  | VStr s => match s with [] => false | _ => true end
  | VArr _ | VObj _ => true
  end.

(** [a || b] *)
Definition or_else (a b : value) : value := if truthy a then a else b.

(** [v.k] and [v?.k] for the keys the program reads ([error],
    [parse_error], [raw_response] and the suggestion's own fields): only an
    object parsed from JSON has them.  The program reads a property of a
    value only behind a truthiness guard, so [null] and [undefined] are
    never dereferenced. *)
Definition prop (v : value) (k : string) : value :=
  match v with
  | VObj o => default VUndefined (o !! k)
  | _ => VUndefined
  end.

(** *** Code-unit strings *)

Fixpoint str_eqb (a b : jsstring) : bool :=
  match a, b with
  | [], [] => true
  | x :: a', y :: b' => (x =? y)%N && str_eqb a' b'
  | _, _ => false
  end.

(** [v === s] for a string [s] *)
Definition strict_eq_str (v : value) (s : jsstring) : bool :=
  match v with VStr t => str_eqb t s | _ => false end.

(** [v === n] for a number [n] *)
Definition strict_eq_num (v : value) (n : Z) : bool :=
  match v with VNum m => (m =? n)%Z | _ => false end.

(** Strings joined by a separator. *)
Fixpoint join_str (sep : jsstring) (l : list jsstring) : jsstring :=
  match l with
  | [] => []
  | [s] => s
  | s :: l' => s ++ sep ++ join_str sep l'
  end.

Fixpoint uint_units (d : Decimal.uint) : jsstring :=
  match d with
  | Decimal.Nil => []
  | Decimal.D0 d => 48%N :: uint_units d
  | Decimal.D1 d => 49%N :: uint_units d
  | Decimal.D2 d => 50%N :: uint_units d
  | Decimal.D3 d => 51%N :: uint_units d
  | Decimal.D4 d => 52%N :: uint_units d
  | Decimal.D5 d => 53%N :: uint_units d
  | Decimal.D6 d => 54%N :: uint_units d
  | Decimal.D7 d => 55%N :: uint_units d
  | Decimal.D8 d => 56%N :: uint_units d
  | Decimal.D9 d => 57%N :: uint_units d
  end.

(** [Number.prototype.toString] on an integer, in decimal: what the
    program prints for the integers of magnitude below 10^21 that a
    double holds exactly.  A number with a fraction has no value here. *)
Definition num_to_string (n : Z) : jsstring :=
  match Z.to_int n with
  | Decimal.Pos d => uint_units d
  | Decimal.Neg d => 45%N :: uint_units d
  end.

Definition nullish (v : value) : bool :=
  match v with VUndefined | VNull => true | _ => false end.

(** The text of [String(v)], also of the conversion of a template literal
    [`${v}`], when the conversion returns: an array is its elements
    joined by a comma, [null] and [undefined] elements giving the empty
    string.  See [converts] for when it raises. *)
Fixpoint to_string (v : value) : jsstring :=
  match v with
  | VUndefined => utf16 "undefined"
  | VNull => utf16 "null"
  | VBool true => utf16 "true"
  | VBool false => utf16 "false"
  | VNum n => num_to_string n
  | VStr s => s
  | VArr l =>
    join_str [44%N]
      (map (fun x => if nullish x then [] else to_string x) l)
  | VObj _ => utf16 "[object Object]"
  end.

(** When the conversion returns.  An object parsed from JSON that has a
    key [toString] of its own holds under it a value that cannot be called,
    and the inherited [valueOf] gives the object back: [String], a
    template literal, [join] and [RegExp.prototype.test] raise a
    [TypeError] on it.  An array converts its elements, so it raises when
    one of them does.  Every other value converts. *)
Fixpoint converts (v : value) : bool :=
  match v with
  | VArr l => forallb converts l
  | VObj o => match o !! "toString" with Some _ => false | None => true end
  | _ => true
  end.

(** The conversion with its exception: [None] is the [TypeError], and
    [to_string] is the text when there is none. *)
Definition ToString (v : value) : option jsstring :=
  if converts v then Some (to_string v) else None.

(** [Array.prototype.filter] with a callback that may raise: the exception
    of a call ends the filter. *)
Fixpoint filterM {A} (f : A -> option bool) (l : list A) : option (list A) :=
  match l with
  | [] => Some []
  | x :: l' =>
    b ← f x; kept ← filterM f l'; Some (if b : bool then x :: kept else kept)
  end.

(** [Array.prototype.join] *)
Definition array_join (sep : jsstring) (l : list value) : jsstring :=
  join_str sep (map (fun x => if nullish x then [] else to_string x) l).

(** The receiver of a string method ([replace], [substring]): a value that
    is not a string has no such method and the call raises a [TypeError]. *)
Definition string_receiver (v : value) : option jsstring :=
  match v with VStr s => Some s | _ => None end.

(** [s.replace(/c/g, by)] for a one-unit pattern. *)
Definition replace_unit (c : N) (by_ : jsstring) (s : jsstring) : jsstring :=
  flat_map (fun x => if (x =? c)%N then by_ else [x]) s.

(** [s.substring(0, n)] *)
Definition substring0 (n : nat) (s : jsstring) : jsstring := firstn n s.

Fixpoint starts_with (p s : jsstring) : bool :=
  match p, s with
  | [], _ => true
  | x :: p', y :: s' => (x =? y)%N && starts_with p' s'
  | _ :: _, [] => false
  end.

(** [s.includes(sub)] *)
Fixpoint includes (s sub : jsstring) : bool :=
  starts_with sub s ||
  match s with
  | [] => false
  | _ :: s' => includes s' sub
  end.

(** The code units [String.prototype.trim] strips: WhiteSpace and
    LineTerminator of ECMAScript. *)
Definition is_space (c : N) : bool :=
  ((9 <=? c) && (c <=? 13) || (c =? 32) || (c =? 160) || (c =? 5760)
   || (8192 <=? c) && (c <=? 8202) || (c =? 8232) || (c =? 8233)
   || (c =? 8239) || (c =? 8287) || (c =? 12288) || (c =? 65279))%N.

Fixpoint trim_start (s : jsstring) : jsstring :=
  match s with
  | c :: s' => if is_space c then trim_start s' else s
  | [] => []
  end.

(** [s.trim()] *)
Definition trim (s : jsstring) : jsstring :=
  rev (trim_start (rev (trim_start s))).

(** [Array.prototype.sort] with a comparator: the sort is stable, and
    places [x] before [y] when [cmp x y <= 0] for [x] met first.  It is
    modelled as the stable insertion sort; like the engines' sorts it only
    compares elements at two different positions. *)
Fixpoint sort_insert {A} (cmp : A -> A -> Z) (x : A) (l : list A) : list A :=
  match l with
  | [] => [x]
  | y :: l' => if (cmp x y <=? 0)%Z then x :: l else y :: sort_insert cmp x l'
  end.

Fixpoint sort {A} (cmp : A -> A -> Z) (l : list A) : list A :=
  match l with
  | [] => []
  | x :: l' => sort_insert cmp x (sort cmp l')
  end.

(** [/^[ESG]-\d+$/.test(s)]: without the [m] flag [$] is the end of the
    input, and [\d] is an ASCII digit. *)
Definition is_ESG (c : N) : bool := ((c =? 69) || (c =? 83) || (c =? 71))%N.
Definition is_digit (c : N) : bool := ((48 <=? c) && (c <=? 57))%N.

Definition indicator_code_test (s : jsstring) : bool :=
  match s with
  | c :: h :: d :: ds => is_ESG c && (h =? 45)%N && forallb is_digit (d :: ds)
  | _ => false
  end.

(** A lower-casing of the Basic Latin letters and a code-unit order, to run
    the program on concrete inputs: on ASCII text they are what
    [toLowerCase] and a comparison of department names give. *)
Definition ascii_lower (s : jsstring) : jsstring :=
  map (fun c => if ((65 <=? c) && (c <=? 90))%N then (c + 32)%N else c) s.

Fixpoint unit_compare (a b : jsstring) : Z :=
  match a, b with
  | [], [] => 0
  | [], _ :: _ => -1
  | _ :: _, [] => 1
  | x :: a', y :: b' =>
    if (x <? y)%N then -1 else if (y <? x)%N then 1 else unit_compare a' b'
  end.

End JS.
Import JS.

(** ** The dashboard *)

(** An indicator record is the object [JSON.parse] built: a finite map from
    property names to values. *)
Abbreviation record := (gmap string value).

(** [d[k]]: a missing property reads as [undefined]. *)
Definition get (d : record) (k : string) : value :=
  default VUndefined (d !! k).

Notation "d .[ k ]" := (get d k)
  (at level 1, left associativity, format "d .[ k ]").

(** The string literals of the program. *)
Definition NEW_2026 : jsstring := Eval vm_compute in utf16 "New_2026".
Definition MODIFIED_2026 : jsstring := Eval vm_compute in utf16 "Modified_2026".
Definition UNASSIGNED : jsstring := Eval vm_compute in utf16 "待分配".
Definition FACE_E : jsstring := Eval vm_compute in utf16 "E".
Definition FACE_S : jsstring := Eval vm_compute in utf16 "S".
Definition FACE_G : jsstring := Eval vm_compute in utf16 "G".
Definition NA : jsstring := Eval vm_compute in utf16 "N/A".
Definition SPACE : jsstring := Eval vm_compute in utf16 " ".
Definition COMMA : jsstring := Eval vm_compute in utf16 ",".
Definition QUOTE : N := 34.
Definition NEWLINE : N := 10.
Definition BOM : jsstring := [65279%N].

(** The state of the four filter controls: the [value] of an input or a
    select element is a string, empty when nothing is chosen. *)
Record Controls := {
  filterFace : jsstring;
  filterStatus : jsstring;
  filterDept : jsstring;
  searchInput : jsstring
}.

(** The counters of the stats bar. *)
Record Stats := {
  stat_total : nat;
  stat_new : nat;
  stat_mod : nat;
  stat_ai : nat
}.

(** The payload of a board card. *)
Record Card := {
  card_id : jsstring;
  card_faceClass : jsstring;
  card_badge : jsstring;
  card_title : jsstring;
  card_type : jsstring;
  card_scoreClass : jsstring;
  card_score : jsstring;
  card_ai : bool
}.

(** The payload of a table row. *)
Record Row := {
  row_id : jsstring;
  row_badge : jsstring;
  row_faceLabel : jsstring;
  row_title : jsstring;
  row_type : jsstring;
  row_scoreColor : jsstring;
  row_score : jsstring;
  row_dept : jsstring
}.

(** The three renderings of the AI section of the detail overlay. *)
Inductive Actions :=
| Bullets (items : list jsstring)
| Plain (text : jsstring).

(** The raw dump is the raw response, or [JSON.stringify(ai, null, 2)],
    which is kept as the value it prints. *)
Inductive RawContent :=
| RawText (text : jsstring)
| Serialized (ai : value).

Inductive AISection :=
| AIStructured (core gap : jsstring) (actions : Actions)
               (refs assign : jsstring)
| AIRaw (rawContent : RawContent)
| AIPlaceholder.

(** The payload of the detail overlay. *)
Record Detail := {
  detail_badge : jsstring;
  detail_title : jsstring;
  detail_face : jsstring;
  detail_type : jsstring;
  detail_prevId : jsstring;
  detail_scoreClass : jsstring;
  detail_score : jsstring;
  detail_dept : jsstring;
  detail_description : jsstring;
  detail_basis : jsstring;
  detail_selfEval : option jsstring;
  detail_gaps : option jsstring;
  detail_ai : AISection
}.

(** A [Map] keyed by strings, in insertion order. *)
Definition Groups := list (jsstring * list record).

Fixpoint groups_has (g : Groups) (k : jsstring) : bool :=
  match g with
  | [] => false
  | (k', _) :: g' => str_eqb k' k || groups_has g' k
  end.

Fixpoint groups_get (g : Groups) (k : jsstring) : list record :=
  match g with
  | [] => []
  | (k', ds) :: g' => if str_eqb k' k then ds else groups_get g' k
  end.

(** [groups.get(k).push(d)], for a key the map has. *)
Fixpoint groups_push (g : Groups) (k : jsstring) (d : record) : Groups :=
  match g with
  | [] => []
  | (k', ds) :: g' =>
    if str_eqb k' k then (k', ds ++ [d]) :: g'
    else (k', ds) :: groups_push g' k d
  end.

(** [groups.set(k, [])] for a key the map does not have. *)
Definition groups_set_empty (g : Groups) (k : jsstring) : Groups :=
  g ++ [(k, [])].

Section Dashboard.

(** Two built-ins are kept abstract: the Unicode case mapping and the
    collation of the [zh-TW] locale. *)
Variable toLowerCase : jsstring -> jsstring.
Variable localeCompare : jsstring -> jsstring -> Z.

(** *** Data loading *)

(** [d['編號']] for an entry [d] of the parsed array: reading a property
    of [null] raises, and a value that is no object has no such property. *)
Definition entryId (d : value) : option value :=
  match d with
  | VUndefined | VNull => None
  | VObj o => Some o.["編號"]
  | _ => Some VUndefined
  end.

(** The callback [d => d['編號'] && /^[ESG]-\d+$/.test(d['編號'])]: the
    test converts the id to a string. *)
Definition isIndicator (d : value) : option bool :=
  id ← entryId d;
  if truthy id then s ← ToString id; Some (indicator_code_test s)
  else Some false.

(** Line 36: [allData.filter(...)]; [None] is an exception of the
    callback. *)
Definition loadData (payload : list value) : option (list value) :=
  filterM isIndicator payload.

(** Lines 33-43: what [allData] holds when the loader is done.  The parsed
    array is assigned first and the filtered one over it; when the
    callback raises, the [catch] leaves the parsed array in place. *)
Definition loadedData (payload : list value) : list value :=
  default payload (loadData payload).

(** The same filter on an array of objects. *)
Definition loadRecords (payload : list record) : option (list record) :=
  filterM (fun d => isIndicator (VObj d)) payload.

(** *** Filters *)

Definition haystack (d : record) : jsstring :=
  toLowerCase
    (array_join SPACE
       (List.filter truthy
          [d.["編號"]; d.["評鑑指標"]; d.["指標說明"];
           d.["114_自評來源及說明"]; d.["114_相關負責部門"]])).

Definition keep (c : Controls) (d : record) : bool :=
  let face := filterFace c in
  let status := filterStatus c in
  let dept := filterDept c in
  let search := trim (toLowerCase (searchInput c)) in
  if truthy (VStr face) && negb (strict_eq_str d.["構面"] face) then false
  else if truthy (VStr status) && negb (strict_eq_str d.["狀態標記"] status)
  then false
  else if truthy (VStr dept)
          && negb (strict_eq_str d.["114_相關負責部門"] dept)
  then false
  else if truthy (VStr search) then
    if negb (includes (haystack d) search) then false else true
  else true.

Definition applyFilters (allData : list record) (c : Controls)
  : list record :=
  List.filter (keep c) allData.

(** *** Stats bar *)

Definition countsAI (d : record) : bool :=
  truthy d.["ai_suggestion"]
  && negb (truthy (prop d.["ai_suggestion"] "error")).

Definition renderStats (filteredData : list record) : Stats :=
  {| stat_total := length filteredData;
     stat_new :=
       length (List.filter
                 (fun d => strict_eq_str d.["狀態標記"] NEW_2026)
                 filteredData);
     stat_mod :=
       length (List.filter
                 (fun d => strict_eq_str d.["狀態標記"] MODIFIED_2026)
                 filteredData);
     stat_ai := length (List.filter countsAI filteredData) |}.

(** *** Board *)

(** [d['114_相關負責部門'] || '待分配']: the key of the record's group.
    The department of the dataset is a string; a key of another type (the
    [Map] would compare objects by identity, and [localeCompare] is not a
    method of it) is [None]. *)
Definition deptKey (d : record) : option jsstring :=
  string_receiver (or_else d.["114_相關負責部門"] (VStr UNASSIGNED)).

Definition addToGroup (g : Groups) (k : jsstring) (d : record) : Groups :=
  let g := if negb (groups_has g k) then groups_set_empty g k else g in
  groups_push g k d.

Definition groupByDept (filteredData : list record) : option Groups :=
  fold_left
    (fun acc d => g ← acc; k ← deptKey d; Some (addToGroup g k d))
    filteredData (Some []).

(** The comparator of the key sort. *)
Definition keyOrder (a b : jsstring) : Z :=
  if str_eqb a UNASSIGNED then 1
  else if str_eqb b UNASSIGNED then -1
  else localeCompare a b.

Definition sortedKeys (g : Groups) : list jsstring :=
  sort keyOrder (map fst g).

(** The columns of the board, in order: title and items. *)
Definition renderKanban (filteredData : list record) : option Groups :=
  g ← groupByDept filteredData;
  Some (map (fun dept => (dept, groups_get g dept)) (sortedKeys g)).

(** *** Cards *)

(** Line 224: the flag behind the card's AI indicator. *)
Definition hasAI (item : record) : bool :=
  truthy item.["ai_suggestion"]
  && negb (truthy (prop item.["ai_suggestion"] "error"))
  && negb (truthy (prop item.["ai_suggestion"] "parse_error")).

(** Lines 226-230: the style class and the text of the score. *)
Definition cardScore (item : record) : option (jsstring * jsstring) :=
  let scoreVal := item.["114_得分數值"] in
  let scoreText := or_else item.["114_自評得分"] (VStr []) in
  if strict_eq_num scoreVal 1 then Some (utf16 "pass", utf16 "1分")
  else if strict_eq_num scoreVal 0 then Some (utf16 "fail", utf16 "0分")
  else if truthy scoreText then
    s ← string_receiver scoreText; Some (utf16 "pass", substring0 6 s)
  else Some (utf16 "na", utf16 "--").

(** [(item['評鑑指標'] || '').replace(/\n/g, ' ')] *)
Definition flatTitle (item : record) : option jsstring :=
  t ← string_receiver (or_else item.["評鑑指標"] (VStr []));
  Some (replace_unit NEWLINE SPACE t).

Definition createCard (item : record) : option Card :=
  let id := or_else item.["編號"] (VStr []) in
  let face := or_else item.["構面"] (VStr []) in
  let faceClass :=
    if strict_eq_str face FACE_E then utf16 "env"
    else if strict_eq_str face FACE_S then utf16 "soc"
    else utf16 "gov" in
  let isNew := strict_eq_str item.["狀態標記"] NEW_2026 in
  score ← cardScore item;
  title ← flatTitle item;
  Some {| card_id := to_string id;
          card_faceClass := faceClass;
          card_badge := if isNew then utf16 "NEW" else utf16 "MOD";
          card_title := substring0 100 title;
          card_type := to_string (or_else item.["題型"] (VStr []));
          card_scoreClass := fst score;
          card_score := if isNew then utf16 "(新增)" else snd score;
          card_ai := hasAI item |}.

(** *** Table *)

Definition tableRow (item : record) : option Row :=
  let isNew := strict_eq_str item.["狀態標記"] NEW_2026 in
  let scoreVal := item.["114_得分數值"] in
  let scoreBadge :=
    if isNew then (utf16 "var(--new-color)", utf16 "(新增)")
    else if strict_eq_num scoreVal 1
    then (utf16 "var(--score-pass)", utf16 "1分")
    else if strict_eq_num scoreVal 0
    then (utf16 "var(--score-fail)", utf16 "0分")
    else ([], utf16 "--") in
  let face := or_else item.["構面"] (VStr []) in
  let faceLabel :=
    if strict_eq_str face FACE_E then VStr (utf16 "環境")
    else if strict_eq_str face FACE_S then VStr (utf16 "社會")
    else if strict_eq_str face FACE_G then VStr (utf16 "治理")
    else face in
  title ← flatTitle item;
  Some {| row_id := to_string (or_else item.["編號"] (VStr []));
          row_badge := if isNew then utf16 "NEW" else utf16 "MOD";
          row_faceLabel := to_string faceLabel;
          row_title := title;
          row_type := to_string (or_else item.["題型"] (VStr []));
          row_scoreColor := fst scoreBadge;
          row_score := snd scoreBadge;
          row_dept :=
            to_string
              (or_else item.["114_相關負責部門"] (VStr UNASSIGNED)) |}.

Definition renderTable (filteredData : list record) : option (list Row) :=
  mapM tableRow filteredData.

(** *** Detail overlay *)

(** Lines 374-420: the AI section. *)
Definition aiSection (ai : value) : AISection :=
  if truthy ai && negb (truthy (prop ai "error"))
     && negb (truthy (prop ai "parse_error"))
  then
    AIStructured
      (to_string
         (or_else (or_else (prop ai "核心要求白話文") (prop ai "核心要求"))
                  (VStr NA)))
      (to_string
         (or_else (or_else (prop ai "差異分析或現況診斷") (prop ai "差異分析"))
                  (VStr NA)))
      (match prop ai "具體行動與揭露清單" with
       | VArr l => Bullets (map to_string l)
       | v => Plain (to_string (or_else v (VStr NA)))
       end)
      (to_string (or_else (prop ai "官方參考與較佳案例") (VStr NA)))
      (to_string (or_else (prop ai "分派建議") (VStr NA)))
  else if truthy ai
          && (truthy (prop ai "raw_response")
              || truthy (prop ai "parse_error"))
  then
    AIRaw
      (if truthy (prop ai "raw_response")
       then RawText (to_string (prop ai "raw_response"))
       else Serialized ai)
  else AIPlaceholder.

(** Lines 357-363: the gap notes that are present, each under its label. *)
Definition gapNotes (item : record) : list jsstring :=
  flat_map
    (fun '(label, key) =>
       if truthy item.[key] then [utf16 label ++ to_string item.[key]]
       else [])
    [("官網: ", "114_公司官網有缺"); ("年報: ", "114_年報有缺");
     ("113年: ", "114_113年未得分"); ("修正型態: ", "114_修正型態")].

Definition openModal (item : record) : option Detail :=
  let isNew := strict_eq_str item.["狀態標記"] NEW_2026 in
  title ← flatTitle item;
  let scoreVal := item.["114_得分數值"] in
  let scoreHtml :=
    if isNew then ([], utf16 "(新增題)")
    else if strict_eq_num scoreVal 1 then (utf16 "pass", utf16 "✓ 得分")
    else if strict_eq_num scoreVal 0 then (utf16 "fail", utf16 "✗ 未得分")
    else (utf16 "pass", to_string (or_else item.["114_自評得分"] (VStr NA))) in
  let gaps := gapNotes item in
  Some {| detail_badge :=
            if isNew then utf16 "NEW 2026 新增指標"
            else utf16 "MOD 2026 修正指標";
          detail_title := to_string item.["編號"] ++ utf16 " — " ++ title;
          detail_face :=
            if strict_eq_str item.["構面"] FACE_E then utf16 "環境面 (E)"
            else if strict_eq_str item.["構面"] FACE_S then utf16 "社會面 (S)"
            else utf16 "公司治理面 (G)";
          detail_type := to_string (or_else item.["題型"] (VStr NA));
          detail_prevId :=
            to_string (or_else item.["前屆編號"] (VStr (utf16 "(新增)")));
          detail_scoreClass := fst scoreHtml;
          detail_score := snd scoreHtml;
          detail_dept :=
            to_string (or_else item.["114_相關負責部門"] (VStr UNASSIGNED));
          detail_description :=
            to_string (or_else item.["指標說明"] (VStr NA));
          detail_basis := to_string (or_else item.["評鑑資訊依據"] (VStr NA));
          detail_selfEval :=
            if negb isNew && truthy item.["114_自評來源及說明"]
            then Some (to_string item.["114_自評來源及說明"]) else None;
          detail_gaps :=
            if negb isNew && negb (Nat.eqb (length gaps) 0)
            then Some (join_str [NEWLINE] gaps) else None;
          detail_ai := aiSection item.["ai_suggestion"] |}.

(** *** Export *)

Definition headers : list string :=
  ["編號"; "狀態標記"; "構面"; "評鑑指標"; "題型";
   "114_自評得分"; "114_相關負責部門"; "114_自評來源及說明"].

Definition csvCell (d : record) (h : string) : jsstring :=
  let val := or_else d.[h] (VStr []) in
  let val :=
    replace_unit NEWLINE SPACE
      (replace_unit QUOTE [QUOTE; QUOTE] (to_string val)) in
  [QUOTE] ++ val ++ [QUOTE].

Definition exportCSV (filteredData : list record) : jsstring :=
  fold_left
    (fun csv d =>
       csv ++ join_str COMMA (map (csvCell d) headers) ++ [NEWLINE])
    filteredData
    (BOM ++ join_str COMMA (map utf16 headers) ++ [NEWLINE]).


(** *** The properties, in the words of the specification *)

(** [sub] occurs in [s]. *)
Definition is_substring (sub s : jsstring) : Prop :=
  exists pre post, s = pre ++ sub ++ post.

(** A field is absent when the program's [||] and [filter(Boolean)] pass it
    over: missing, [null] or empty (and, outside the documented shape of a
    record, [0] and [false]). *)
Definition absent (v : value) : Prop := truthy v = false.

(** A field holds text: it is a string, or it is absent.  The documented
    fields of a record other than the numeric score and the AI suggestion
    are of this kind; a string method called on anything else raises. *)
Definition textual (v : value) : bool :=
  negb (truthy v) || match v with VStr _ => true | _ => false end.

(** The text of a field, absent as the empty string. *)
Definition fieldText (v : value) : jsstring :=
  if truthy v then to_string v else [].

(** The texts of the searched fields, an absent field contributing
    nothing, joined by a space and lower-cased. *)
Definition searchedText (d : record) : jsstring :=
  toLowerCase
    (join_str SPACE
       (flat_map (fun v => if truthy v then [to_string v] else [])
          [d.["編號"]; d.["評鑑指標"]; d.["指標說明"];
           d.["114_自評來源及說明"]; d.["114_相關負責部門"]])).

(** A criterion left empty is a no-op; one that is given matches by
    equality. *)
Definition criterion (given : jsstring) (v : value) : Prop :=
  given <> [] -> v = VStr given.

(** The search as the claim words it: the lower-cased search text. *)
Definition searchStated (c : Controls) (d : record) : Prop :=
  searchInput c <> [] ->
  is_substring (toLowerCase (searchInput c)) (searchedText d).

(** The search as the program runs it: the search text is lower-cased and
    then trimmed, and what is left, when not empty, is looked for. *)
Definition searchTrimmed (c : Controls) (d : record) : Prop :=
  trim (toLowerCase (searchInput c)) <> [] ->
  is_substring (trim (toLowerCase (searchInput c))) (searchedText d).

Definition matchesCriteria (c : Controls) (d : record) : Prop :=
  criterion (filterFace c) d.["構面"]
  /\ criterion (filterStatus c) d.["狀態標記"]
  /\ criterion (filterDept c) d.["114_相關負責部門"]
  /\ searchTrimmed c d.

(** The indicator code pattern: a letter of E, S, G, a hyphen, one or more
    digits. *)
Definition indicatorCode (s : jsstring) : Prop :=
  exists c ds,
    s = c :: 45%N :: ds
    /\ (c = 69%N \/ c = 83%N \/ c = 71%N)
    /\ ds <> []
    /\ Forall (fun x => (48 <= x <= 57)%N) ds.

(** The id of an entry of the payload; an entry that is no object has
    none. *)
Definition idOf (d : value) : value :=
  match d with VObj o => o.["編號"] | _ => VUndefined end.

(** An entry the filter can test: it is not [null], and its id is not an
    object with a [toString] key of its own, nor an array that holds
    one. *)
Definition testable (d : value) : bool :=
  match d with
  | VUndefined | VNull => false
  | _ => converts (idOf d)
  end.

(** The test that decides which entries are kept. *)
Definition carriesCode (d : value) : bool :=
  truthy (idOf d) && indicator_code_test (to_string (idOf d)).

(** A value carries a marker when the property is there and truthy. *)
Definition carries (ai : value) (marker : string) : Prop :=
  truthy (prop ai marker) = true.

(** A CSV cell: quotes doubled, newlines turned into a space, the whole
    wrapped in quotes. *)
Definition escapeUnit (x : N) : jsstring :=
  if (x =? QUOTE)%N then [QUOTE; QUOTE]
  else if (x =? NEWLINE)%N then SPACE
  else [x].

Definition quotedCell (text : jsstring) : jsstring :=
  [QUOTE] ++ flat_map escapeUnit text ++ [QUOTE].

Definition csvRow (d : record) : jsstring :=
  join_str COMMA (map (fun h => quotedCell (fieldText d.[h])) headers).

Definition csvHeader : jsstring := join_str COMMA (map utf16 headers).

(** The eight columns of the export artifact, as its interface lists
    them: identifier, status tag, face, title, question type, current-year
    score text, department, current-year self-evaluation note. *)
Definition columnNames : list string :=
  ["編號"; "狀態標記"; "構面"; "評鑑指標"; "題型";
   "114_自評得分"; "114_相關負責部門"; "114_自評來源及說明"].





(** The order of two department names under the collation. *)
Definition collates (a b : jsstring) : Prop := (localeCompare a b <= 0)%Z.

(** The key of the unassigned group. *)
Definition isUnassigned (k : jsstring) : bool := str_eqb k UNASSIGNED.

(** The total number of members of the groups. *)
Definition memberCount (g : Groups) : nat :=
  list_sum (map (fun kv => length (snd kv)) g).

(** The records of [l] whose group key is [k]. *)
Definition withKey (k : jsstring) (l : list record) : list record :=
  List.filter
    (fun d => match deptKey d with Some k' => str_eqb k' k | None => false end)
    l.

(** What holds of the map after the records [seen] were added. *)
Definition grouped (g : Groups) (seen : list record) : Prop :=
  List.NoDup (map fst g)
  /\ memberCount g = length seen
  /\ (forall k, groups_get g k = withKey k seen)
  /\ (forall k, In k (map fst g) <-> exists d, In d seen /\ deptKey d = Some k).

End Dashboard.

(** *** Records to run the program on *)

(** A new indicator of the environmental face, scored 0 the year before. *)
Definition sampleNew : record :=
  {[ "編號" := VStr (utf16 "E-1");
     "狀態標記" := VStr NEW_2026;
     "構面" := VStr FACE_E;
     "評鑑指標" := VStr (utf16 "Energy policy");
     "114_得分數值" := VNum 0;
     "114_相關負責部門" := VStr (utf16 "永續辦") ]}.

(** A revised indicator with no department and no face, whose title has a
    quote and a newline and whose AI suggestion failed to parse. *)
Definition sampleModified : record :=
  {[ "編號" := VStr (utf16 "G-12");
     "狀態標記" := VStr MODIFIED_2026;
     "評鑑指標" := VStr (utf16 "Board" ++ [QUOTE] ++ utf16 "size" ++ [NEWLINE]
                            ++ utf16 "rule");
     "114_自評得分" := VStr (utf16 "partial credit");
     "ai_suggestion" := VObj {[ "parse_error" := VBool true ]} ]}.

(** A revised indicator whose AI suggestion is a bare raw response. *)
Definition sampleRaw : record :=
  {[ "編號" := VStr (utf16 "S-3");
     "狀態標記" := VStr MODIFIED_2026;
     "構面" := VStr FACE_S;
     "評鑑指標" := VStr (utf16 "Training hours");
     "114_得分數值" := VNum 1;
     "114_相關負責部門" := VStr (utf16 "人資");
     "ai_suggestion" := VObj {[ "raw_response" := VStr (utf16 "xyz") ]} ]}.

(** A revised indicator with a structured AI suggestion: an alternate key
    for the core requirement, a list of actions, an assignment. *)
Definition sampleStructured : record :=
  {[ "編號" := VStr (utf16 "E-4");
     "狀態標記" := VStr MODIFIED_2026;
     "評鑑指標" := VStr (utf16 "Water use");
     "ai_suggestion" :=
       VObj {[ "核心要求" := VStr (utf16 "Disclose");
               "具體行動與揭露清單" :=
                 VArr [VStr (utf16 "Measure"); VStr (utf16 "Report")];
               "分派建議" := VStr (utf16 "HR") ]} ]}.

(** An object with a [toString] key of its own, as [JSON.parse] builds it
    from [{"toString": 1}]. *)
Definition sampleOverride : value := VObj {[ "toString" := VNum 1 ]}.

(** A section header: its id is no indicator code. *)
Definition sampleHeader : record :=
  {[ "編號" := VStr (utf16 "一、環境") ]}.

(** A parsed array: a header, two indicators, a bare string, an entry
    with no id and an entry whose id has no digit. *)
Definition samplePayload : list value :=
  [ VObj sampleHeader; VObj sampleNew; VStr (utf16 "note");
    VObj {[ "評鑑指標" := VStr (utf16 "note") ]}; VObj sampleRaw;
    VObj {[ "編號" := VStr (utf16 "E-") ]} ].


(** A record of the documented shape whose question type is an object
    with a [toString] key of its own. *)
Definition sampleOddType : record :=
  <[ "題型" := sampleOverride ]> sampleNew.

(** A search typed with a leading space. *)
Definition searchLeadingSpace : Controls :=
  {| filterFace := []; filterStatus := []; filterDept := [];
     searchInput := utf16 " E-1" |}.

(** ** The rest of the program *)

(** *** Department options *)

(** The equality of a [Set]: strings, numbers and booleans are compared by
    value; an object or an array is equal to itself only, and each one
    that [JSON.parse] built is a new one. *)
Definition same_value (a b : value) : bool :=
  match a, b with
  | VUndefined, VUndefined | VNull, VNull => true
  | VBool x, VBool y => Bool.eqb x y
  | VNum m, VNum n => (m =? n)%Z
  | VStr s, VStr t => str_eqb s t
  | _, _ => false
  end.

(** [depts.add(dept)], in insertion order. *)
Definition set_add (s : list value) (x : value) : list value :=
  if existsb (same_value x) s then s else s ++ [x].

(** Lines 49-53: the departments that are truthy, of whatever type. *)
Definition collectDepts (allData : list record) : list value :=
  fold_left
    (fun depts d =>
       let dept := d.["114_相關負責部門"] in
       if truthy dept then set_add depts dept else depts)
    allData [].

(** The comparator of [sort()] without an argument: the elements are
    compared as strings, by code units. *)
Definition defaultOrder (a b : value) : Z :=
  unit_compare (to_string a) (to_string b).

(** Lines 55-61: the departments are sorted and one option per department
    is appended to the options the select has, its value and its text
    being the department as a string.  The sort and the two assignments
    convert the department: [None] is their exception, raised before an
    option is appended. *)
Definition populateDeptFilter (sel : list jsstring) (allData : list record)
  : option (list jsstring) :=
  let depts := collectDepts allData in
  if forallb converts depts
  then Some (sel ++ map to_string (sort defaultOrder depts))
  else None.

(** *** Columns *)

(** The payload of a column of the board. *)
Record Column := {
  col_title : jsstring;
  col_color : jsstring;
  col_count : nat;
  col_cards : list Card
}.

Definition colorMap : list (jsstring * jsstring) :=
  [ (utf16 "永續辦", utf16 "var(--env-color)");
    (utf16 "董秘", utf16 "var(--gov-color)");
    (utf16 "財務", utf16 "var(--accent-blue)");
    (utf16 "人資", utf16 "var(--soc-color)");
    (utf16 "法務", utf16 "var(--accent-orange)");
    (UNASSIGNED, utf16 "var(--text-muted)") ].

(** Lines 189-192: the colour of the first keyword the title includes. *)
Fixpoint pickColor (title : jsstring) (entries : list (jsstring * jsstring))
  : jsstring :=
  match entries with
  | [] => utf16 "var(--accent-cyan)"
  | (key, color) :: rest =>
    if includes title key then color else pickColor title rest
  end.

Definition createColumn (title : jsstring) (items : list record)
  : option Column :=
  cards ← mapM createCard items;
  Some {| col_title := title;
          col_color := pickColor title colorMap;
          col_count := length items;
          col_cards := cards |}.

(** Lines 168-172: the columns appended to the board. *)
Definition renderKanbanColumns (localeCompare : jsstring -> jsstring -> Z)
           (filteredData : list record) : option (list Column) :=
  columns ← renderKanban localeCompare filteredData;
  mapM (fun '(dept, items) => createColumn dept items) columns.

(** *** Reading the export back *)

(** A reader of one line of quoted, comma-separated cells: a cell opens
    with a quote, a doubled quote inside it is one quote, a single quote
    closes it, and a comma starts the next cell. *)
Inductive ReadMode := CellStart | InCell | QuoteSeen.

Fixpoint readRow (m : ReadMode) (cell : jsstring) (line : jsstring)
  : option (list jsstring) :=
  match line with
  | [] => match m with QuoteSeen => Some [cell] | _ => None end
  | c :: rest =>
    match m with
    | CellStart =>
      if (c =? QUOTE)%N then readRow InCell [] rest else None
    | InCell =>
      if (c =? QUOTE)%N then readRow QuoteSeen cell rest
      else readRow InCell (cell ++ [c]) rest
    | QuoteSeen =>
      if (c =? QUOTE)%N then readRow InCell (cell ++ [QUOTE]) rest
      else if (c =? 44)%N
           then cells ← readRow CellStart [] rest; Some (cell :: cells)
           else None
    end
  end.

(** *** Debounce *)

(** [debounce(fn, ms)]: the closure keeps one timer.  [Invoke args] is a call
    of the debounced function ([clearTimeout] then [setTimeout]); [Elapse]
    is the timer running its callback, which calls [fn] with the arguments
    of the call that set it.  The state is the timer still to run. *)
Inductive DebounceEvent (A : Type) :=
| Invoke (args : A)
| Elapse.

Arguments Invoke {A} args.
Arguments Elapse {A}.

(** The calls of [fn] an event makes, and the timer left. *)
Definition debounceStep {A} (timer : option A) (ev : DebounceEvent A)
  : list A * option A :=
  match ev with
  | Invoke args => ([], Some args)
  | Elapse =>
    match timer with
    | Some args => ([args], None)
    | None => ([], None)
    end
  end.

Fixpoint debounceRun {A} (timer : option A) (evs : list (DebounceEvent A))
  : list A * option A :=
  match evs with
  | [] => ([], timer)
  | ev :: evs' =>
    let '(calls, timer') := debounceStep timer ev in
    let '(calls', timer'') := debounceRun timer' evs' in
    (calls ++ calls', timer'')
  end.

(** *** The view controller *)

Inductive View := Kanban | Table.

(** What the board element holds: the columns, or the notice of a failed
    load. *)
Inductive Board :=
| BoardColumns (columns : list Column)
| BoardNotice (text : jsstring).

Definition LOAD_FAILED : jsstring :=
  Eval vm_compute in
    utf16 "Failed to load data.json or suggestions_output.json".

Definition OVERFLOW_HIDDEN : jsstring := Eval vm_compute in utf16 "hidden".

(** The module variables and the part of the page the program writes. *)
Record UI := {
  ui_allData : list record;
  ui_filteredData : list record;
  ui_currentView : View;
  ui_controls : Controls;
  ui_deptOptions : list jsstring;
  ui_stats : Stats;
  ui_board : Board;
  ui_tableBody : list Row;
  ui_btnKanbanActive : bool;
  ui_btnTableActive : bool;
  ui_kanbanHidden : bool;
  ui_tableHidden : bool;
  ui_modalHidden : bool;
  ui_modalBody : option Detail;
  ui_bodyOverflow : jsstring
}.

(** The outcome of a [fetch]: rejected, or a response with its [ok] flag
    and what [resp.json()] gives ([None] when it rejects).  A payload is an
    array of objects. *)
Inductive Fetch :=
| FetchRejected
| Response (ok : bool) (json : option (list record)).

(** What the user and the timers do. *)
Inductive Event :=
| SetControls (c : Controls)
| FiltersChanged
| ClickKanban
| ClickTable
| ClickCard (item : record)
| ClickClose
| ClickOverlay (onBackground : bool)
| KeyDown (key : jsstring).

Section Controller.

Variable toLowerCase : jsstring -> jsstring.
Variable localeCompare : jsstring -> jsstring -> Z.

Definition renderKanbanStep (s : UI) : option UI :=
  columns ← renderKanbanColumns localeCompare (ui_filteredData s);
  Some {| ui_allData := ui_allData s;
          ui_filteredData := ui_filteredData s;
          ui_currentView := ui_currentView s;
          ui_controls := ui_controls s;
          ui_deptOptions := ui_deptOptions s;
          ui_stats := ui_stats s;
          ui_board := BoardColumns columns;
          ui_tableBody := ui_tableBody s;
          ui_btnKanbanActive := ui_btnKanbanActive s;
          ui_btnTableActive := ui_btnTableActive s;
          ui_kanbanHidden := ui_kanbanHidden s;
          ui_tableHidden := ui_tableHidden s;
          ui_modalHidden := ui_modalHidden s;
          ui_modalBody := ui_modalBody s;
          ui_bodyOverflow := ui_bodyOverflow s |}.

Definition renderTableStep (s : UI) : option UI :=
  rows ← renderTable (ui_filteredData s);
  Some {| ui_allData := ui_allData s;
          ui_filteredData := ui_filteredData s;
          ui_currentView := ui_currentView s;
          ui_controls := ui_controls s;
          ui_deptOptions := ui_deptOptions s;
          ui_stats := ui_stats s;
          ui_board := ui_board s;
          ui_tableBody := rows;
          ui_btnKanbanActive := ui_btnKanbanActive s;
          ui_btnTableActive := ui_btnTableActive s;
          ui_kanbanHidden := ui_kanbanHidden s;
          ui_tableHidden := ui_tableHidden s;
          ui_modalHidden := ui_modalHidden s;
          ui_modalBody := ui_modalBody s;
          ui_bodyOverflow := ui_bodyOverflow s |}.

Definition renderViewStep (view : View) (s : UI) : option UI :=
  match view with
  | Kanban => renderKanbanStep s
  | Table => renderTableStep s
  end.

(** Lines 64-87, on the state. *)
Definition applyFiltersStep (s : UI) : option UI :=
  let filtered := applyFilters toLowerCase (ui_allData s) (ui_controls s) in
  renderViewStep (ui_currentView s)
    {| ui_allData := ui_allData s;
       ui_filteredData := filtered;
       ui_currentView := ui_currentView s;
       ui_controls := ui_controls s;
       ui_deptOptions := ui_deptOptions s;
       ui_stats := renderStats filtered;
       ui_board := ui_board s;
       ui_tableBody := ui_tableBody s;
       ui_btnKanbanActive := ui_btnKanbanActive s;
       ui_btnTableActive := ui_btnTableActive s;
       ui_kanbanHidden := ui_kanbanHidden s;
       ui_tableHidden := ui_tableHidden s;
       ui_modalHidden := ui_modalHidden s;
       ui_modalBody := ui_modalBody s;
       ui_bodyOverflow := ui_bodyOverflow s |}.

Definition is_kanban (view : View) : bool :=
  match view with Kanban => true | Table => false end.

(** Lines 135-144. *)
Definition switchView (view : View) (s : UI) : option UI :=
  renderViewStep view
    {| ui_allData := ui_allData s;
       ui_filteredData := ui_filteredData s;
       ui_currentView := view;
       ui_controls := ui_controls s;
       ui_deptOptions := ui_deptOptions s;
       ui_stats := ui_stats s;
       ui_board := ui_board s;
       ui_tableBody := ui_tableBody s;
       ui_btnKanbanActive := is_kanban view;
       ui_btnTableActive := negb (is_kanban view);
       ui_kanbanHidden := negb (is_kanban view);
       ui_tableHidden := is_kanban view;
       ui_modalHidden := ui_modalHidden s;
       ui_modalBody := ui_modalBody s;
       ui_bodyOverflow := ui_bodyOverflow s |}.

(** Lines 285-425, on the state. *)
Definition openModalStep (item : record) (s : UI) : option UI :=
  detail ← openModal item;
  Some {| ui_allData := ui_allData s;
          ui_filteredData := ui_filteredData s;
          ui_currentView := ui_currentView s;
          ui_controls := ui_controls s;
          ui_deptOptions := ui_deptOptions s;
          ui_stats := ui_stats s;
          ui_board := ui_board s;
          ui_tableBody := ui_tableBody s;
          ui_btnKanbanActive := ui_btnKanbanActive s;
          ui_btnTableActive := ui_btnTableActive s;
          ui_kanbanHidden := ui_kanbanHidden s;
          ui_tableHidden := ui_tableHidden s;
          ui_modalHidden := false;
          ui_modalBody := Some detail;
          ui_bodyOverflow := OVERFLOW_HIDDEN |}.

(** Lines 427-430. *)
Definition closeModal (s : UI) : UI :=
  {| ui_allData := ui_allData s;
     ui_filteredData := ui_filteredData s;
     ui_currentView := ui_currentView s;
     ui_controls := ui_controls s;
     ui_deptOptions := ui_deptOptions s;
     ui_stats := ui_stats s;
     ui_board := ui_board s;
     ui_tableBody := ui_tableBody s;
     ui_btnKanbanActive := ui_btnKanbanActive s;
     ui_btnTableActive := ui_btnTableActive s;
     ui_kanbanHidden := ui_kanbanHidden s;
     ui_tableHidden := ui_tableHidden s;
     ui_modalHidden := true;
     ui_modalBody := ui_modalBody s;
     ui_bodyOverflow := [] |}.

(** The user edits a control: only the value of the control changes. *)
Definition setControls (c : Controls) (s : UI) : UI :=
  {| ui_allData := ui_allData s;
     ui_filteredData := ui_filteredData s;
     ui_currentView := ui_currentView s;
     ui_controls := c;
     ui_deptOptions := ui_deptOptions s;
     ui_stats := ui_stats s;
     ui_board := ui_board s;
     ui_tableBody := ui_tableBody s;
     ui_btnKanbanActive := ui_btnKanbanActive s;
     ui_btnTableActive := ui_btnTableActive s;
     ui_kanbanHidden := ui_kanbanHidden s;
     ui_tableHidden := ui_tableHidden s;
     ui_modalHidden := ui_modalHidden s;
     ui_modalBody := ui_modalBody s;
     ui_bodyOverflow := ui_bodyOverflow s |}.

(** Lines 115-133: the listeners.  [None] is a handler that raises. *)
Definition step (s : UI) (ev : Event) : option UI :=
  match ev with
  | SetControls c => Some (setControls c s)
  | FiltersChanged => applyFiltersStep s
  | ClickKanban => switchView Kanban s
  | ClickTable => switchView Table s
  | ClickCard item => openModalStep item s
  | ClickClose => Some (closeModal s)
  | ClickOverlay onBackground =>
    if onBackground then Some (closeModal s) else Some s
  | KeyDown key =>
    if str_eqb key (utf16 "Escape") then Some (closeModal s) else Some s
  end.

Fixpoint run (s : UI) (evs : list Event) : option UI :=
  match evs with
  | [] => Some s
  | ev :: evs' => s' ← step s ev; run s' evs'
  end.

(** Lines 26-32: the response the loader reads. *)
Definition fetchData (primary fallback : Fetch) : Fetch :=
  match primary with
  | Response true _ => primary
  | _ => fallback
  end.

(** The [catch] of the loader: the notice is written to the board;
    [allData] holds what was assigned to it before the exception. *)
Definition loadFailed (allData : list record) (s : UI) : UI :=
  {| ui_allData := allData;
     ui_filteredData := ui_filteredData s;
     ui_currentView := ui_currentView s;
     ui_controls := ui_controls s;
     ui_deptOptions := ui_deptOptions s;
     ui_stats := ui_stats s;
     ui_board := BoardNotice LOAD_FAILED;
     ui_tableBody := ui_tableBody s;
     ui_btnKanbanActive := ui_btnKanbanActive s;
     ui_btnTableActive := ui_btnTableActive s;
     ui_kanbanHidden := ui_kanbanHidden s;
     ui_tableHidden := ui_tableHidden s;
     ui_modalHidden := ui_modalHidden s;
     ui_modalBody := ui_modalBody s;
     ui_bodyOverflow := ui_bodyOverflow s |}.

(** Lines 23-45, on the state.  Whatever is raised inside the [try] is
    caught, so the loader always returns: a rejected fetch or an
    unreadable response leaves [allData] as it was, an exception of the
    filter leaves the parsed array in it, and an exception of the
    department options leaves the filtered array in it. *)
Definition loadDataStep (primary fallback : Fetch) (s : UI) : option UI :=
  match fetchData primary fallback with
  | Response _ (Some payload) =>
    match loadRecords payload with
    | Some loaded =>
      match populateDeptFilter (ui_deptOptions s) loaded with
      | Some options =>
        Some {| ui_allData := loaded;
                ui_filteredData := ui_filteredData s;
                ui_currentView := ui_currentView s;
                ui_controls := ui_controls s;
                ui_deptOptions := options;
                ui_stats := renderStats (ui_filteredData s);
                ui_board := ui_board s;
                ui_tableBody := ui_tableBody s;
                ui_btnKanbanActive := ui_btnKanbanActive s;
                ui_btnTableActive := ui_btnTableActive s;
                ui_kanbanHidden := ui_kanbanHidden s;
                ui_tableHidden := ui_tableHidden s;
                ui_modalHidden := ui_modalHidden s;
                ui_modalBody := ui_modalBody s;
                ui_bodyOverflow := ui_bodyOverflow s |}
      | None => Some (loadFailed loaded s)
      end
    | None => Some (loadFailed payload s)
    end
  | _ => Some (loadFailed (ui_allData s) s)
  end.

(** Lines 16-20: the page is loaded. *)
Definition init (primary fallback : Fetch) (s : UI) : option UI :=
  s' ← loadDataStep primary fallback s;
  applyFiltersStep s'.

End Controller.

(** ** The exceptions of the conversions

    The projections above give what a view shows, every conversion of a
    value to text taken to return.  A conversion raises on an object with a
    [toString] key of its own (see [converts]); this part is the program
    with these exceptions: a function of the same name that is [None]
    when one of the conversions it makes raises, and the function above
    otherwise.  As above, [None] is also a title or a score text that is
    no string, and a department that is no string. *)
Module Strict.

(** Lines 374-420, the AI section: each sub-item is converted by the
    template, an element of the list of actions by the template of its
    bullet, and the raw response by the template of the dump. *)
Definition aiSection (ai : value) : option AISection :=
  if truthy ai && negb (truthy (prop ai "error"))
     && negb (truthy (prop ai "parse_error"))
  then
    core ← ToString
             (or_else
                (or_else (prop ai "核心要求白話文") (prop ai "核心要求"))
                (VStr NA));
    gap ← ToString
            (or_else
               (or_else (prop ai "差異分析或現況診斷") (prop ai "差異分析"))
               (VStr NA));
    actions ← match prop ai "具體行動與揭露清單" with
              | VArr l => items ← mapM ToString l; Some (Bullets items)
              | v => text ← ToString (or_else v (VStr NA)); Some (Plain text)
              end;
    refs ← ToString (or_else (prop ai "官方參考與較佳案例") (VStr NA));
    assign ← ToString (or_else (prop ai "分派建議") (VStr NA));
    Some (AIStructured core gap actions refs assign)
  else if truthy ai
          && (truthy (prop ai "raw_response")
              || truthy (prop ai "parse_error"))
  then
    if truthy (prop ai "raw_response")
    then text ← ToString (prop ai "raw_response"); Some (AIRaw (RawText text))
    else Some (AIRaw (Serialized ai))
  else Some AIPlaceholder.

(** Lines 234-245: the template of a card converts the id and the question
    type; its other parts are strings of the program or results of string
    methods. *)
Definition cardConverts (item : record) : bool :=
  converts (or_else item.["編號"] (VStr []))
  && converts (or_else item.["題型"] (VStr [])).

Definition createCard (item : record) : option Card :=
  if cardConverts item then createCard item else None.

(** Lines 269-278: the template of a row converts the id, the face label
    (the face itself when it is not E, S or G), the question type and the
    department. *)
Definition rowConverts (item : record) : bool :=
  converts (or_else item.["編號"] (VStr []))
  && converts (or_else item.["構面"] (VStr []))
  && converts (or_else item.["題型"] (VStr []))
  && converts (or_else item.["114_相關負責部門"] (VStr UNASSIGNED)).

Definition tableRow (item : record) : option Row :=
  if rowConverts item then tableRow item else None.

(** Lines 295-371: the templates of the overlay convert the id, the score
    text of a record that is not New and has no score of 1 or 0, the
    question type, the prior id, the department, the description and the
    basis, and, for a record that is not New, the self-evaluation note and
    the gap notes that are there. *)
Definition detailConverts (item : record) : bool :=
  let isNew := strict_eq_str item.["狀態標記"] NEW_2026 in
  let scoreVal := item.["114_得分數值"] in
  converts item.["編號"]
  && (isNew || strict_eq_num scoreVal 1 || strict_eq_num scoreVal 0
      || converts (or_else item.["114_自評得分"] (VStr NA)))
  && converts (or_else item.["題型"] (VStr NA))
  && converts (or_else item.["前屆編號"] (VStr (utf16 "(新增)")))
  && converts (or_else item.["114_相關負責部門"] (VStr UNASSIGNED))
  && converts (or_else item.["指標說明"] (VStr NA))
  && converts (or_else item.["評鑑資訊依據"] (VStr NA))
  && (isNew
      || converts item.["114_自評來源及說明"]
         && converts item.["114_公司官網有缺"]
         && converts item.["114_年報有缺"]
         && converts item.["114_113年未得分"]
         && converts item.["114_修正型態"]).

Definition openModal (item : record) : option Detail :=
  detail ← openModal item;
  if detailConverts item
  then _ ← aiSection item.["ai_suggestion"]; Some detail
  else None.

(** Lines 441-445: [String(val)] of each cell. *)
Definition exportConverts (d : record) : bool :=
  forallb (fun h => converts (or_else d.[h] (VStr []))) headers.

Definition exportCSV (filteredData : list record) : option jsstring :=
  if forallb exportConverts filteredData
  then Some (exportCSV filteredData) else None.

Section Handlers.

Variable toLowerCase : jsstring -> jsstring.
Variable localeCompare : jsstring -> jsstring -> Z.

(** Lines 75-78: [join] converts the fields that [filter(Boolean)]
    keeps. *)
Definition haystack (d : record) : option jsstring :=
  if forallb converts
       (List.filter truthy
          [d.["編號"]; d.["評鑑指標"]; d.["指標說明"];
           d.["114_自評來源及說明"]; d.["114_相關負責部門"]])
  then Some (haystack toLowerCase d) else None.

(** Lines 70-82: the callback of the filter; the haystack is built only
    for a record that passes the three selects, and only when there is a
    search. *)
Definition keep (c : Controls) (d : record) : option bool :=
  let face := filterFace c in
  let status := filterStatus c in
  let dept := filterDept c in
  let search := trim (toLowerCase (searchInput c)) in
  if truthy (VStr face) && negb (strict_eq_str d.["構面"] face)
  then Some false
  else if truthy (VStr status) && negb (strict_eq_str d.["狀態標記"] status)
  then Some false
  else if truthy (VStr dept)
          && negb (strict_eq_str d.["114_相關負責部門"] dept)
  then Some false
  else if truthy (VStr search) then
    h ← haystack d; Some (if negb (includes h search) then false else true)
  else Some true.

Definition applyFilters (allData : list record) (c : Controls)
  : option (list record) :=
  filterM (keep c) allData.

(** The conversions of the view that is rendered. *)
Definition viewConverts (view : View) (filteredData : list record) : bool :=
  match view with
  | Kanban => forallb cardConverts filteredData
  | Table => forallb rowConverts filteredData
  end.

(** Lines 115-133: the listeners.  [None] is a handler that raises. *)
Definition step (s : UI) (ev : Event) : option UI :=
  match ev with
  | FiltersChanged =>
    filtered ← applyFilters (ui_allData s) (ui_controls s);
    if viewConverts (ui_currentView s) filtered
    then step toLowerCase localeCompare s ev else None
  | ClickKanban =>
    if viewConverts Kanban (ui_filteredData s)
    then step toLowerCase localeCompare s ev else None
  | ClickTable =>
    if viewConverts Table (ui_filteredData s)
    then step toLowerCase localeCompare s ev else None
  | ClickCard item =>
    _ ← openModal item; step toLowerCase localeCompare s ev
  | _ => step toLowerCase localeCompare s ev
  end.

Fixpoint run (s : UI) (evs : list Event) : option UI :=
  match evs with
  | [] => Some s
  | ev :: evs' => s' ← step s ev; run s' evs'
  end.

(** Lines 16-20: the page is loaded. *)
Definition init (primary fallback : Fetch) (s : UI) : option UI :=
  s' ← loadDataStep primary fallback s;
  step s' FiltersChanged.

End Handlers.

End Strict.

(** The page as the script finds it: the module variables at their initial
    values, the elements as the document has them. *)
Definition freshPage (s : UI) : Prop :=
  ui_allData s = [] /\ ui_filteredData s = [] /\ ui_currentView s = Kanban.

(** A record of the documented shape: the fields the string methods are
    called on hold text. *)
Definition shaped (d : record) : bool :=
  textual d.["評鑑指標"] && textual d.["114_自評得分"]
  && textual d.["114_相關負責部門"].

(** The status of a record is one the stats bar counts. *)
Definition statusCounted (d : record) : Prop :=
  d.["狀態標記"] = VStr NEW_2026 \/ d.["狀態標記"] = VStr MODIFIED_2026.



(** A column and the key it was built for. *)
Definition columnOf (filteredData : list record) (k : jsstring)
           (col : Column) : Prop :=
  col_title col = k
  /\ mapM createCard (withKey k filteredData) = Some (col_cards col)
  /\ col_count col = length (col_cards col)
  /\ col_count col = length (withKey k filteredData)
  /\ 1 <= col_count col.

(** What holds of the set after the records [seen] were read. *)
Definition collected (depts : list jsstring) (seen : list record) : Prop :=
  List.NoDup depts
  /\ forall k,
       In k depts
       <-> k <> [] /\ exists d, In d seen /\ d.["114_相關負責部門"] = VStr k.

(** The view the user sees is the current one, and its button is lit. *)
Definition viewShown (s : UI) : Prop :=
  ui_kanbanHidden s = negb (is_kanban (ui_currentView s))
  /\ ui_tableHidden s = is_kanban (ui_currentView s)
  /\ ui_btnKanbanActive s = is_kanban (ui_currentView s)
  /\ ui_btnTableActive s = negb (is_kanban (ui_currentView s)).

(** The current view holds the rendering of the filtered set, the stats bar
    its counts, and the filtered set is drawn from the loaded data. *)
Definition inSync (localeCompare : jsstring -> jsstring -> Z) (s : UI)
  : Prop :=
  sublist (ui_filteredData s) (ui_allData s)
  /\ ui_stats s = renderStats (ui_filteredData s)
  /\ match ui_currentView s with
     | Kanban =>
       exists columns,
         renderKanbanColumns localeCompare (ui_filteredData s) = Some columns
         /\ ui_board s = BoardColumns columns
     | Table => renderTable (ui_filteredData s) = Some (ui_tableBody s)
     end.

(** The page scrolls exactly when the overlay is hidden. *)
Definition modalConsistent (s : UI) : Prop :=
  (ui_modalHidden s = true /\ ui_bodyOverflow s = [])
  \/ (ui_modalHidden s = false /\ ui_bodyOverflow s = OVERFLOW_HIDDEN).

(** A record none of whose conversions raises: it has the documented
    shape, and no field of it, and no property of its AI suggestion, is an
    object with a [toString] key of its own or an array that holds one. *)
Definition plain (d : record) : Prop :=
  shaped d = true
  /\ (forall k, converts d.[k] = true)
  /\ (forall k, converts (prop d.["ai_suggestion"] k) = true).

(** The properties of a suggestion that the AI section may show: the five
    sub-items, the alternate keys of the first two, and the raw
    response. *)
Definition subItems : list string :=
  ["核心要求白話文"; "核心要求"; "差異分析或現況診斷"; "差異分析";
   "具體行動與揭露清單"; "官方參考與較佳案例"; "分派建議"; "raw_response"].

(** A suggestion whose sub-items convert: none of them is an object with a
    [toString] key of its own, or an array that holds one. *)
Definition subItemsConvert (ai : value) : Prop :=
  Forall (fun k => converts (prop ai k) = true) subItems.

(** The text a sub-item shows: the text of the first of its fields that
    is present, or "N/A" when none is. *)
Fixpoint shown (fields : list value) : jsstring :=
  match fields with
  | [] => NA
  | v :: rest => if truthy v then to_string v else shown rest
  end.

(** A rule of the accents: a title in which [key] occurs, and none of the
    keywords written before it, gets [color]. *)
Definition accentRule (title : jsstring) (earlier : list jsstring)
           (key color : jsstring) (col : Column) : Prop :=
  is_substring key title ->
  (forall k, In k earlier -> ~ is_substring k title) ->
  col_color col = color.

(** The cards clicked are cards of loaded records. *)
Definition clicksWithin (allData : list record) (evs : list Event) : Prop :=
  forall item, In (ClickCard item) evs -> In item allData.


(** A fetch that did not answer with [ok]. *)
Definition notOk (f : Fetch) : Prop :=
  f = FetchRejected \/ exists json, f = Response false json.

(** A fetch whose body cannot be read. *)
Definition unreadable (f : Fetch) : Prop :=
  f = FetchRejected \/ exists ok, f = Response ok None.

(** The two fetches leave the loader without a payload. *)
Definition loadFails (primary fallback : Fetch) : Prop :=
  primary = Response true None \/ (notOk primary /\ unreadable fallback).

(** The two fetches hand [payload] to the loader. *)
Definition loadReads (primary fallback : Fetch) (payload : list record)
  : Prop :=
  primary = Response true (Some payload)
  \/ (notOk primary /\ exists ok, fallback = Response ok (Some payload)).

(** *** Pages to run the program on *)

(** Three indicator records. *)
Definition sampleRecords : list record :=
  [sampleNew; sampleRaw; sampleModified].

(** A search box that holds two spaces, nothing chosen. *)
Definition blankControls : Controls :=
  {| filterFace := []; filterStatus := []; filterDept := [];
     searchInput := SPACE ++ SPACE |}.

(** The department of [sampleRaw] chosen. *)
Definition deptControls : Controls :=
  {| filterFace := []; filterStatus := []; filterDept := utf16 "人資";
     searchInput := [] |}.

(** The page before the script runs: the board view shown, one option in
    the department select, the overlay hidden. *)
Definition samplePage : UI :=
  {| ui_allData := [];
     ui_filteredData := [];
     ui_currentView := Kanban;
     ui_controls := blankControls;
     ui_deptOptions := [[]];
     ui_stats := renderStats [];
     ui_board := BoardColumns [];
     ui_tableBody := [];
     ui_btnKanbanActive := true;
     ui_btnTableActive := false;
     ui_kanbanHidden := false;
     ui_tableHidden := true;
     ui_modalHidden := true;
     ui_modalBody := None;
     ui_bodyOverflow := [] |}.

(** The page with [allData] and [filteredData] set. *)
Definition pageWith (allData filteredData : list record) : UI :=
  {| ui_allData := allData;
     ui_filteredData := filteredData;
     ui_currentView := Kanban;
     ui_controls := blankControls;
     ui_deptOptions := [[]];
     ui_stats := renderStats [];
     ui_board := BoardColumns [];
     ui_tableBody := [];
     ui_btnKanbanActive := true;
     ui_btnTableActive := false;
     ui_kanbanHidden := false;
     ui_tableHidden := true;
     ui_modalHidden := true;
     ui_modalBody := None;
     ui_bodyOverflow := [] |}.

(** A session: a department is chosen, the filters run, the table is
    shown, a card is opened and closed with the Escape key. *)
Definition sampleSession : list Event :=
  [SetControls deptControls; FiltersChanged; ClickTable;
   ClickCard sampleRaw; KeyDown (utf16 "Escape")].

(** ** Facts about the JavaScript primitives *)

Lemma str_eqb_eq (a b : jsstring) : str_eqb a b = true <-> a = b.
Proof.
  revert b; induction a as [|x a IH]; intros [|y b]; simpl;
    try (split; [discriminate | congruence]); try tauto.
  rewrite andb_true_iff, N.eqb_eq, IH. split.
  - intros [-> ->]; reflexivity.
  - intros H; injection H; auto.
Qed.

Lemma str_eqb_refl (a : jsstring) : str_eqb a a = true.
Proof. apply str_eqb_eq; reflexivity. Qed.

Lemma str_eqb_neq (a b : jsstring) : str_eqb a b = false <-> a <> b.
Proof.
  rewrite <- not_true_iff_false, str_eqb_eq. tauto.
Qed.

Lemma strict_eq_str_spec (v : value) (s : jsstring) :
  strict_eq_str v s = true <-> v = VStr s.
Proof.
  destruct v; simpl; try (split; [discriminate | congruence]).
  rewrite str_eqb_eq. split; congruence.
Qed.

Lemma strict_eq_str_false (v : value) (s : jsstring) :
  strict_eq_str v s = false <-> v <> VStr s.
Proof.
  rewrite <- not_true_iff_false, strict_eq_str_spec. tauto.
Qed.

Lemma strict_eq_num_spec (v : value) (n : Z) :
  strict_eq_num v n = true <-> v = VNum n.
Proof.
  destruct v; simpl; try (split; [discriminate | congruence]).
  rewrite Z.eqb_eq. split; congruence.
Qed.

Lemma strict_eq_num_false (v : value) (n : Z) :
  strict_eq_num v n = false <-> v <> VNum n.
Proof.
  rewrite <- not_true_iff_false, strict_eq_num_spec. tauto.
Qed.

Lemma starts_with_spec (p s : jsstring) :
  starts_with p s = true <-> exists t, s = p ++ t.
Proof.
  revert s; induction p as [|x p IH]; intros s; simpl.
  - split; eauto.
  - destruct s as [|y s].
    + split; [discriminate | intros [t Ht]; discriminate].
    + rewrite andb_true_iff, N.eqb_eq, IH. split.
      * intros [-> [t ->]]. eauto.
      * intros [t Ht]. injection Ht as -> ->. eauto.
Qed.

Lemma includes_spec (s sub : jsstring) :
  includes s sub = true <-> is_substring sub s.
Proof.
  unfold is_substring. induction s as [|y s IH].
  - simpl. rewrite orb_false_r, starts_with_spec. split.
    + intros [t Ht]. exists [], t. exact Ht.
    + intros [pre [post H]]. destruct pre; [eauto | discriminate].
  - cbn [includes]. rewrite orb_true_iff, starts_with_spec, IH. split.
    + intros [[t Ht] | [pre [post H]]].
      * exists [], t. exact Ht.
      * exists (y :: pre), post. rewrite H. reflexivity.
    + intros [[|z pre] [post H]].
      * left. eauto.
      * right. injection H as _ H. eauto.
Qed.

Lemma array_join_truthy (sep : jsstring) (l : list value) :
  array_join sep (List.filter truthy l)
  = join_str sep
      (flat_map (fun v => if truthy v then [to_string v] else []) l).
Proof.
  unfold array_join. f_equal.
  induction l as [|v l IH]; simpl; [reflexivity|].
  destruct (truthy v) eqn:E; simpl; [|exact IH].
  rewrite IH. destruct v; simpl in *; try discriminate; reflexivity.
Qed.

Lemma replace_quote_newline (s : jsstring) :
  replace_unit NEWLINE SPACE (replace_unit QUOTE [QUOTE; QUOTE] s)
  = flat_map escapeUnit s.
Proof.
  unfold replace_unit. induction s as [|x s IH]; simpl; [reflexivity|].
  rewrite flat_map_app, IH. f_equal.
  unfold escapeUnit. destruct (x =? QUOTE)%N eqn:E; simpl.
  - reflexivity.
  - rewrite app_nil_r. reflexivity.
Qed.


Lemma lfilter_sublist {A} (f : A -> bool) (l : list A) :
  sublist (List.filter f l) l.
Proof.
  induction l as [|x l IH]; simpl.
  - constructor.
  - destruct (f x); constructor; exact IH.
Qed.

Lemma is_ESG_spec (c : N) :
  is_ESG c = true <-> c = 69%N \/ c = 83%N \/ c = 71%N.
Proof.
  unfold is_ESG. rewrite !orb_true_iff, !N.eqb_eq. tauto.
Qed.

Lemma is_digit_spec (c : N) : is_digit c = true <-> (48 <= c <= 57)%N.
Proof.
  unfold is_digit. rewrite andb_true_iff, !N.leb_le. tauto.
Qed.

Lemma all_digits_spec (ds : jsstring) :
  forallb is_digit ds = true <-> Forall (fun x => (48 <= x <= 57)%N) ds.
Proof.
  rewrite forallb_forall, List.Forall_forall. split; intros H x Hx.
  - apply is_digit_spec, H, Hx.
  - apply is_digit_spec, H, Hx.
Qed.

Lemma indicator_code_test_spec (s : jsstring) :
  indicator_code_test s = true <-> indicatorCode s.
Proof.
  unfold indicatorCode. split.
  - destruct s as [|c [|h [|d ds]]]; simpl; try discriminate.
    rewrite !andb_true_iff, N.eqb_eq.
    intros [[Hc ->] Hd]. exists c, (d :: ds). split; [reflexivity|].
    split; [apply is_ESG_spec, Hc|]. split; [discriminate|].
    apply all_digits_spec. simpl. rewrite andb_true_iff. exact Hd.
  - intros [c [ds [-> [Hc [Hne Hd]]]]].
    destruct ds as [|d ds]; [congruence|].
    apply all_digits_spec in Hd. apply is_ESG_spec in Hc.
    cbn [indicator_code_test]. rewrite Hc, Hd. reflexivity.
Qed.

Lemma falsy_converts (v : value) : truthy v = false -> converts v = true.
Proof. destruct v; simpl; try reflexivity; discriminate. Qed.

Lemma ToString_converts (v : value) :
  converts v = true -> ToString v = Some (to_string v).
Proof. unfold ToString. intros ->. reflexivity. Qed.

Lemma ToString_raises (v : value) :
  converts v = false -> ToString v = None.
Proof. unfold ToString. intros ->. reflexivity. Qed.

Lemma carriesCode_spec (d : value) :
  carriesCode d = true
  <-> ~ absent (idOf d) /\ indicatorCode (to_string (idOf d)).
Proof.
  unfold carriesCode, absent.
  rewrite andb_true_iff, indicator_code_test_spec, not_false_iff_true.
  tauto.
Qed.

Lemma isIndicator_spec (d : value) :
  testable d = true -> isIndicator d = Some (carriesCode d).
Proof.
  unfold isIndicator, carriesCode, testable.
  destruct d as [| | | | | |o]; try discriminate; try reflexivity.
  cbn [entryId idOf mbind option_bind]. intros Hc.
  destruct (truthy o.["編號"]); [|reflexivity].
  rewrite (ToString_converts _ Hc). reflexivity.
Qed.

Lemma isIndicator_raises (d : value) :
  testable d = false -> isIndicator d = None.
Proof.
  unfold isIndicator, testable.
  destruct d as [| | | | | |o]; try discriminate; try reflexivity.
  cbn [entryId idOf mbind option_bind]. intros Hc.
  destruct (truthy o.["編號"]) eqn:Et.
  - rewrite (ToString_raises _ Hc). reflexivity.
  - rewrite (falsy_converts _ Et) in Hc. discriminate.
Qed.

Lemma filterM_total {A} (f : A -> option bool) (g : A -> bool)
      (l : list A) :
  (forall x, In x l -> f x = Some (g x)) ->
  filterM f l = Some (List.filter g l).
Proof.
  induction l as [|x l IH]; intros H; [reflexivity|].
  cbn [filterM List.filter]. rewrite (H x (or_introl eq_refl)).
  cbn [mbind option_bind].
  rewrite IH by (intros y Hy; apply H; right; exact Hy).
  cbn [mbind option_bind]. destruct (g x); reflexivity.
Qed.

Lemma filterM_raises {A} (f : A -> option bool) (l : list A) (x : A) :
  In x l -> f x = None -> filterM f l = None.
Proof.
  induction l as [|y l IH]; intros Hin Hx; [destruct Hin|].
  cbn [filterM]. destruct Hin as [-> | Hin].
  - rewrite Hx. reflexivity.
  - destruct (f y); [|reflexivity]. cbn [mbind option_bind].
    rewrite (IH Hin Hx). reflexivity.
Qed.

Lemma haystack_searchedText (toLowerCase : jsstring -> jsstring)
      (d : record) :
  haystack toLowerCase d = searchedText toLowerCase d.
Proof.
  unfold haystack, searchedText. rewrite array_join_truthy. reflexivity.
Qed.

Lemma criterion_spec (given : jsstring) (v : value) :
  truthy (VStr given) && negb (strict_eq_str v given) = false
  <-> criterion given v.
Proof.
  unfold criterion. destruct given as [|x given]; simpl.
  - split; [congruence | reflexivity].
  - rewrite negb_false_iff, strict_eq_str_spec. split.
    + intros H _. exact H.
    + intros H. apply H. discriminate.
Qed.

Lemma keep_spec (toLowerCase : jsstring -> jsstring) (c : Controls)
      (d : record) :
  keep toLowerCase c d = true <-> matchesCriteria toLowerCase c d.
Proof.
  unfold keep, matchesCriteria, searchTrimmed.
  rewrite <- !criterion_spec, <- haystack_searchedText.
  destruct (truthy (VStr (filterFace c))
            && negb (strict_eq_str d.["構面"] (filterFace c)));
    [split; [discriminate | intros [H _]; discriminate]|].
  destruct (truthy (VStr (filterStatus c))
            && negb (strict_eq_str d.["狀態標記"] (filterStatus c)));
    [split; [discriminate | intros [_ [H _]]; discriminate]|].
  destruct (truthy (VStr (filterDept c))
            && negb (strict_eq_str d.["114_相關負責部門"] (filterDept c)));
    [split; [discriminate | intros [_ [_ [H _]]]; discriminate]|].
  rewrite <- includes_spec.
  destruct (trim (toLowerCase (searchInput c))) as [|x q] eqn:Eq; simpl.
  - split; [|reflexivity]. intros _. repeat split. congruence.
  - destruct (includes (haystack toLowerCase d) (x :: q)); simpl.
    + split; [|reflexivity]. intros _. repeat split.
    + split; [discriminate|]. intros [_ [_ [_ H]]]. apply H. discriminate.
Qed.

Lemma textual_cases (v : value) :
  textual v = true ->
  truthy v = false \/ exists x s, v = VStr (x :: s).
Proof.
  unfold textual. destruct (truthy v) eqn:E; simpl; [|auto].
  destruct v as [| | | |[|x s]| |]; try discriminate. eauto.
Qed.

Lemma or_else_absent (v w : value) : truthy v = false -> or_else v w = w.
Proof. unfold or_else. intros ->. reflexivity. Qed.

Lemma to_string_or_empty (v : value) :
  to_string (or_else v (VStr [])) = fieldText v.
Proof. unfold or_else, fieldText. destruct (truthy v); reflexivity. Qed.

Lemma strict_eq_or_empty (v : value) (x : N) (s : jsstring) :
  strict_eq_str (or_else v (VStr [])) (x :: s) = strict_eq_str v (x :: s).
Proof.
  unfold or_else. destruct (truthy v) eqn:E; [reflexivity|].
  destruct v as [| | | |[|y t]| |]; simpl in *; try reflexivity.
  discriminate.
Qed.

Lemma flatTitle_total (item : record) :
  textual item.["評鑑指標"] = true -> exists t, flatTitle item = Some t.
Proof.
  intros H. unfold flatTitle.
  destruct (textual_cases _ H) as [E | [x [s E]]].
  - rewrite (or_else_absent _ _ E). simpl. eauto.
  - rewrite E. simpl. eauto.
Qed.

Lemma cardScore_total (item : record) :
  textual item.["114_自評得分"] = true -> exists sc, cardScore item = Some sc.
Proof.
  intros H. unfold cardScore.
  destruct (strict_eq_num item.["114_得分數值"] 1); [eauto|].
  destruct (strict_eq_num item.["114_得分數值"] 0); [eauto|].
  destruct (textual_cases _ H) as [E | [x [s E]]].
  - rewrite (or_else_absent _ _ E). simpl. eauto.
  - rewrite E. simpl. eauto.
Qed.

Lemma createCard_total (item : record) :
  textual item.["評鑑指標"] = true ->
  textual item.["114_自評得分"] = true ->
  exists sc t,
    cardScore item = Some sc /\ flatTitle item = Some t
    /\ createCard item
       = Some {| card_id := fieldText item.["編號"];
                 card_faceClass :=
                   if strict_eq_str item.["構面"] FACE_E then utf16 "env"
                   else if strict_eq_str item.["構面"] FACE_S
                        then utf16 "soc"
                        else utf16 "gov";
                 card_badge :=
                   if strict_eq_str item.["狀態標記"] NEW_2026
                   then utf16 "NEW" else utf16 "MOD";
                 card_title := substring0 100 t;
                 card_type := fieldText item.["題型"];
                 card_scoreClass := fst sc;
                 card_score :=
                   if strict_eq_str item.["狀態標記"] NEW_2026
                   then utf16 "(新增)" else snd sc;
                 card_ai := hasAI item |}.
Proof.
  intros Ht Hs.
  destruct (cardScore_total item Hs) as [sc Esc].
  destruct (flatTitle_total item Ht) as [t Et].
  exists sc, t. split; [exact Esc|]. split; [exact Et|].
  unfold createCard. rewrite Esc, Et.
  unfold FACE_E, FACE_S. rewrite !strict_eq_or_empty, !to_string_or_empty.
  reflexivity.
Qed.

Lemma hasAI_spec (item : record) :
  hasAI item = true
  <-> ~ absent item.["ai_suggestion"]
      /\ ~ carries item.["ai_suggestion"] "error"
      /\ ~ carries item.["ai_suggestion"] "parse_error".
Proof.
  unfold hasAI, absent, carries.
  rewrite !andb_true_iff, !negb_true_iff, !not_true_iff_false,
    not_false_iff_true.
  tauto.
Qed.

Lemma countsAI_spec (d : record) :
  countsAI d = true
  <-> ~ absent d.["ai_suggestion"] /\ ~ carries d.["ai_suggestion"] "error".
Proof.
  unfold countsAI, absent, carries.
  rewrite !andb_true_iff, !negb_true_iff, !not_true_iff_false,
    not_false_iff_true.
  tauto.
Qed.

Lemma tableRow_total (item : record) :
  textual item.["評鑑指標"] = true ->
  exists t row,
    flatTitle item = Some t /\ tableRow item = Some row
    /\ row_faceLabel row
       = if strict_eq_str item.["構面"] FACE_E then utf16 "環境"
         else if strict_eq_str item.["構面"] FACE_S then utf16 "社會"
         else if strict_eq_str item.["構面"] FACE_G then utf16 "治理"
         else fieldText item.["構面"].
Proof.
  intros Ht. destruct (flatTitle_total item Ht) as [t Et].
  exists t. unfold tableRow. rewrite Et. eexists.
  split; [reflexivity|]. split; [reflexivity|]. cbn [row_faceLabel].
  unfold FACE_E, FACE_S, FACE_G. rewrite !strict_eq_or_empty.
  destruct (strict_eq_str item.["構面"] [69%N]); [reflexivity|].
  destruct (strict_eq_str item.["構面"] [83%N]); [reflexivity|].
  destruct (strict_eq_str item.["構面"] [71%N]); [reflexivity|].
  apply to_string_or_empty.
Qed.

Lemma openModal_total (item : record) :
  textual item.["評鑑指標"] = true ->
  exists det,
    openModal item = Some det
    /\ detail_ai det = aiSection item.["ai_suggestion"]
    /\ detail_face det
       = if strict_eq_str item.["構面"] FACE_E then utf16 "環境面 (E)"
         else if strict_eq_str item.["構面"] FACE_S then utf16 "社會面 (S)"
         else utf16 "公司治理面 (G)".
Proof.
  intros Ht. destruct (flatTitle_total item Ht) as [t Et].
  unfold openModal. rewrite Et. eexists.
  split; [reflexivity|]. split; reflexivity.
Qed.

(** *** The CSV text *)

Lemma csvCell_spec (d : record) (h : string) :
  csvCell d h = quotedCell (fieldText d.[h]).
Proof.
  unfold csvCell, quotedCell.
  rewrite to_string_or_empty, replace_quote_newline. reflexivity.
Qed.

Lemma fold_left_append {A} (f : A -> jsstring) (l : list A) (acc : jsstring) :
  fold_left (fun csv d => csv ++ f d) l acc = acc ++ concat (map f l).
Proof.
  revert acc; induction l as [|x l IH]; intros acc; simpl.
  - rewrite app_nil_r. reflexivity.
  - rewrite IH, <- app_assoc. reflexivity.
Qed.

Lemma join_lines (sep : jsstring) (x : jsstring) (l : list jsstring) :
  join_str sep (x :: l) ++ sep = concat (map (fun r => r ++ sep) (x :: l)).
Proof.
  revert x; induction l as [|y l IH]; intros x.
  - simpl. rewrite app_nil_r. reflexivity.
  - change (join_str sep (x :: y :: l))
      with (x ++ sep ++ join_str sep (y :: l)).
    rewrite <- !app_assoc, IH. simpl. rewrite <- !app_assoc. reflexivity.
Qed.

Lemma csv_rows_text (filteredData : list record) :
  concat
    (map (fun d => join_str COMMA (map (csvCell d) headers) ++ [NEWLINE])
       filteredData)
  = concat (map (fun r => r ++ [NEWLINE]) (map csvRow filteredData)).
Proof.
  rewrite map_map. f_equal. apply map_ext. intros d.
  unfold csvRow. do 2 f_equal. apply map_ext. intros h. apply csvCell_spec.
Qed.

(** *** The groups of the board *)

Lemma groups_has_spec (g : Groups) (k : jsstring) :
  groups_has g k = true <-> In k (map fst g).
Proof.
  induction g as [|[k' ds] g IH]; simpl.
  - split; [discriminate | tauto].
  - rewrite orb_true_iff, str_eqb_eq, IH. tauto.
Qed.

Lemma groups_has_false (g : Groups) (k : jsstring) :
  groups_has g k = false <-> ~ In k (map fst g).
Proof. rewrite <- not_true_iff_false, groups_has_spec. tauto. Qed.

Lemma groups_get_In (g : Groups) (k : jsstring) (ds : list record) :
  List.NoDup (map fst g) -> In (k, ds) g -> groups_get g k = ds.
Proof.
  induction g as [|[k' ds'] g IH]; simpl; [tauto|].
  intros Hnd [E | Hin]; inversion Hnd as [|? ? Hk Hnd']; subst.
  - injection E as -> ->. rewrite str_eqb_refl. reflexivity.
  - destruct (str_eqb k' k) eqn:Ek.
    + apply str_eqb_eq in Ek. subst k'. exfalso. apply Hk.
      apply (in_map fst) in Hin. exact Hin.
    + apply IH; assumption.
Qed.

Lemma groups_push_keys (g : Groups) (k : jsstring) (d : record) :
  map fst (groups_push g k d) = map fst g.
Proof.
  induction g as [|[k' ds] g IH]; simpl; [reflexivity|].
  destruct (str_eqb k' k); simpl; [reflexivity|]. rewrite IH. reflexivity.
Qed.

Lemma groups_push_get (g : Groups) (k k' : jsstring) (d : record) :
  groups_has g k = true ->
  groups_get (groups_push g k d) k'
  = if str_eqb k k' then groups_get g k' ++ [d] else groups_get g k'.
Proof.
  induction g as [|[k0 ds] g IH]; simpl; [discriminate|].
  destruct (str_eqb k0 k) eqn:E0; simpl.
  - intros _. apply str_eqb_eq in E0. subst k0.
    destruct (str_eqb k k'); reflexivity.
  - intros H. destruct (str_eqb k0 k') eqn:E1.
    + apply str_eqb_eq in E1. subst k0.
      apply str_eqb_neq in E0.
      destruct (str_eqb k k') eqn:E2; [|reflexivity].
      apply str_eqb_eq in E2. congruence.
    + apply IH, H.
Qed.

Lemma groups_push_count (g : Groups) (k : jsstring) (d : record) :
  groups_has g k = true ->
  memberCount (groups_push g k d) = S (memberCount g).
Proof.
  unfold memberCount.
  induction g as [|[k0 ds] g IH]; simpl; [discriminate|].
  destruct (str_eqb k0 k); simpl.
  - intros _. rewrite length_app. simpl. lia.
  - intros H. rewrite (IH H). lia.
Qed.

Lemma groups_set_empty_has (g : Groups) (k : jsstring) :
  groups_has (groups_set_empty g k) k = true.
Proof.
  apply groups_has_spec. unfold groups_set_empty.
  rewrite map_app, in_app_iff. right. left. reflexivity.
Qed.

Lemma groups_set_empty_get (g : Groups) (k k' : jsstring) :
  groups_get (groups_set_empty g k) k' = groups_get g k'.
Proof.
  unfold groups_set_empty.
  induction g as [|[k0 ds] g IH]; simpl.
  - destruct (str_eqb k k'); reflexivity.
  - destruct (str_eqb k0 k'); [reflexivity | exact IH].
Qed.

Lemma groups_set_empty_count (g : Groups) (k : jsstring) :
  memberCount (groups_set_empty g k) = memberCount g.
Proof.
  unfold memberCount, groups_set_empty.
  rewrite map_app, list_sum_app. simpl. lia.
Qed.

Lemma addToGroup_keys (g : Groups) (k : jsstring) (d : record) :
  map fst (addToGroup g k d)
  = if groups_has g k then map fst g else map fst g ++ [k].
Proof.
  unfold addToGroup. rewrite groups_push_keys.
  destruct (groups_has g k); simpl; [reflexivity|].
  unfold groups_set_empty. rewrite map_app. reflexivity.
Qed.

Lemma addToGroup_get (g : Groups) (k k' : jsstring) (d : record) :
  groups_get (addToGroup g k d) k'
  = if str_eqb k k' then groups_get g k' ++ [d] else groups_get g k'.
Proof.
  unfold addToGroup. destruct (groups_has g k) eqn:E; simpl.
  - apply groups_push_get, E.
  - rewrite groups_push_get by apply groups_set_empty_has.
    rewrite groups_set_empty_get. reflexivity.
Qed.

Lemma addToGroup_count (g : Groups) (k : jsstring) (d : record) :
  memberCount (addToGroup g k d) = S (memberCount g).
Proof.
  unfold addToGroup. destruct (groups_has g k) eqn:E; simpl.
  - apply groups_push_count, E.
  - rewrite groups_push_count by apply groups_set_empty_has.
    rewrite groups_set_empty_count. reflexivity.
Qed.

Lemma deptKey_textual (d : record) :
  textual d.["114_相關負責部門"] = true ->
  exists k,
    deptKey d = Some k
    /\ (absent d.["114_相關負責部門"] -> k = UNASSIGNED)
    /\ (forall s, d.["114_相關負責部門"] = VStr s -> s <> [] -> k = s).
Proof.
  intros H. unfold deptKey, absent.
  destruct (textual_cases _ H) as [E | [x [s E]]].
  - rewrite (or_else_absent _ _ E). exists UNASSIGNED.
    split; [reflexivity|]. split; [reflexivity|].
    intros s Es Hne. rewrite Es in E. destruct s; [congruence|discriminate].
  - rewrite E. exists (x :: s). split; [reflexivity|].
    split; [discriminate|]. intros s' Es _. congruence.
Qed.

Lemma withKey_snoc (k k' : jsstring) (l : list record) (d : record) :
  deptKey d = Some k' ->
  withKey k (l ++ [d])
  = if str_eqb k' k then withKey k l ++ [d] else withKey k l.
Proof.
  intros E. unfold withKey. rewrite List.filter_app. simpl. rewrite E.
  destruct (str_eqb k' k); [reflexivity | apply app_nil_r].
Qed.

Lemma withKey_In (k : jsstring) (l : list record) (d : record) :
  In d (withKey k l) <-> In d l /\ deptKey d = Some k.
Proof.
  unfold withKey. rewrite filter_In.
  destruct (deptKey d) as [k'|].
  - rewrite str_eqb_eq. split; intros [H E]; split; congruence.
  - split; intros [H E]; discriminate.
Qed.

Lemma grouped_empty : grouped [] [].
Proof.
  split; [constructor|]. split; [reflexivity|]. split; [reflexivity|].
  intros k. simpl. split; [tauto|]. intros [d [[] _]].
Qed.

Lemma grouped_add (g : Groups) (seen : list record) (d : record)
      (k : jsstring) :
  grouped g seen -> deptKey d = Some k ->
  grouped (addToGroup g k d) (seen ++ [d]).
Proof.
  intros [Hnd [Hc [Hg Hk]]] E. split; [|split; [|split]].
  - rewrite addToGroup_keys. destruct (groups_has g k) eqn:Eh; [exact Hnd|].
    apply groups_has_false in Eh.
    apply List.NoDup_app; [exact Hnd | |].
    + repeat constructor. intros [].
    + intros x Hx [<- | []]. apply Eh, Hx.
  - rewrite addToGroup_count, Hc, length_app. simpl. lia.
  - intros k'. rewrite addToGroup_get, (withKey_snoc k' k _ _ E), Hg.
    reflexivity.
  - intros k'. rewrite addToGroup_keys. split.
    + intros Hin.
      assert (Hor : In k' (map fst g) \/ k' = k).
      { destruct (groups_has g k); [left; exact Hin|].
        apply in_app_iff in Hin. destruct Hin as [H | [H | []]]; auto. }
      destruct Hor as [H | ->].
      * apply Hk in H. destruct H as [d' [Hd' Ed']].
        exists d'. rewrite in_app_iff. auto.
      * exists d. rewrite in_app_iff. simpl. auto.
    + intros [d' [Hd' Ed']]. apply in_app_iff in Hd'.
      destruct Hd' as [Hd' | [<- | []]].
      * assert (H : In k' (map fst g)) by (apply Hk; eauto).
        destruct (groups_has g k); [exact H|]. apply in_app_iff. auto.
      * assert (k' = k) by congruence. subst k'.
        destruct (groups_has g k) eqn:Eh.
        -- apply groups_has_spec, Eh.
        -- apply in_app_iff. right. left. reflexivity.
Qed.

Lemma groupByDept_from (rest seen : list record) (g : Groups) :
  grouped g seen ->
  Forall (fun d => textual d.["114_相關負責部門"] = true) rest ->
  exists g',
    fold_left
      (fun acc d => g ← acc; k ← deptKey d; Some (addToGroup g k d))
      rest (Some g) = Some g'
    /\ grouped g' (seen ++ rest).
Proof.
  revert seen g; induction rest as [|d rest IH]; intros seen g Hg Hall.
  - exists g. rewrite app_nil_r. split; [reflexivity | exact Hg].
  - inversion Hall as [|? ? Hd Hrest]; subst.
    destruct (deptKey_textual d Hd) as [k [Ek _]].
    simpl. rewrite Ek. simpl.
    destruct (IH (seen ++ [d]) (addToGroup g k d)) as [g' [Ef Hg']].
    + apply grouped_add; assumption.
    + exact Hrest.
    + exists g'. split; [exact Ef|]. rewrite <- app_assoc in Hg'. exact Hg'.
Qed.

Lemma groupByDept_grouped (filteredData : list record) :
  Forall (fun d => textual d.["114_相關負責部門"] = true) filteredData ->
  exists g, groupByDept filteredData = Some g /\ grouped g filteredData.
Proof.
  intros Hall. apply (groupByDept_from filteredData [] []); [|exact Hall].
  apply grouped_empty.
Qed.

(** ** The claims *)

(** C8, as amended.  For a parsed array with no [null] entry and no id
    that is an object with a [toString] key of its own (or an array holding
    one), the filter of the loader returns, and the record set it leaves
    holds, in their order, exactly the entries whose id is present and,
    read as a string, is an indicator code: one of E, S, G, a hyphen, one
    or more digits.  For an id that is a string the test is on the string
    itself.  Every entry kept is an object, and every other entry is
    discarded: the record set is the array filtered by a test that decides
    the property. *)
Theorem loadData_keeps_indicator_codes (payload : list value) :
  Forall (fun d => testable d = true) payload ->
  exists kept,
    loadData payload = Some kept
    /\ loadedData payload = kept
    /\ sublist kept payload
    /\ (forall d,
          In d kept
          <-> In d payload
              /\ ~ absent (idOf d) /\ indicatorCode (to_string (idOf d)))
    /\ (forall d s,
          idOf d = VStr s ->
          (In d kept <-> In d payload /\ indicatorCode s))
    /\ (forall d, In d kept -> exists o, d = VObj o)
    /\ (exists test : value -> bool,
          (forall d,
             test d = true
             <-> ~ absent (idOf d) /\ indicatorCode (to_string (idOf d)))
          /\ kept = List.filter test payload).
Proof.
  intros H. exists (List.filter carriesCode payload).
  assert (E : loadData payload = Some (List.filter carriesCode payload)).
  { apply filterM_total. intros d Hd. apply isIndicator_spec.
    rewrite List.Forall_forall in H. apply H, Hd. }
  assert (Hin : forall d,
             In d (List.filter carriesCode payload)
             <-> In d payload
                 /\ ~ absent (idOf d)
                 /\ indicatorCode (to_string (idOf d))).
  { intros d. rewrite filter_In, carriesCode_spec. reflexivity. }
  split; [exact E|]. split; [unfold loadedData; rewrite E; reflexivity|].
  split; [apply lfilter_sublist|]. split; [exact Hin|].
  split; [|split].
  - intros d s Hs. rewrite Hin, Hs. simpl. unfold absent. split.
    + intros [Hd [_ Hc]]. split; assumption.
    + intros [Hd Hc]. split; [assumption|]. split; [|assumption].
      destruct Hc as [c [ds [-> _]]]. simpl. discriminate.
  - intros d Hd. apply Hin in Hd. destruct Hd as [_ [Hp _]].
    destruct d as [| | | | | |o]; try (exfalso; apply Hp; reflexivity).
    exists o. reflexivity.
  - exists carriesCode. split; [apply carriesCode_spec | reflexivity].
Qed.

(** C1, as amended.  The filtered set is a subsequence of the full set, in
    its order, and holds exactly the records that match every given
    criterion by equality and, when the search text lower-cased and then
    trimmed is not empty, have it as a substring of the lower-cased,
    space-joined texts of the id, title, description, prior-year note and
    department, absent fields contributing nothing. *)
Theorem applyFilters_trimmed_search (toLowerCase : jsstring -> jsstring)
        (allData : list record) (c : Controls) :
  sublist (applyFilters toLowerCase allData c) allData
  /\ (forall d,
        In d (applyFilters toLowerCase allData c)
        <-> In d allData /\ matchesCriteria toLowerCase c d)
  /\ (exists kept : record -> bool,
        (forall d, kept d = true <-> matchesCriteria toLowerCase c d)
        /\ applyFilters toLowerCase allData c = List.filter kept allData).
Proof.
  split; [apply lfilter_sublist|]. split.
  - intros d. unfold applyFilters. rewrite filter_In, keep_spec.
    reflexivity.
  - exists (keep toLowerCase c). split; [apply keep_spec | reflexivity].
Qed.


(** C2. The score badge of a card, for a record whose title and score text
    hold text.  A New record reads "(新增)" whatever its score.  Otherwise a
    numeric score of 1 gives the pass style and "1分", a numeric score of 0
    gives the fail style and "0分", else a score text that is present gives
    the pass style and its first six characters, and else the placeholder
    "--" is shown in the neutral style. *)
Theorem createCard_score_badge (item : record) :
  textual item.["評鑑指標"] = true ->
  textual item.["114_自評得分"] = true ->
  exists card,
    createCard item = Some card
    /\ (item.["狀態標記"] = VStr NEW_2026 ->
        card_score card = utf16 "(新增)")
    /\ (item.["狀態標記"] <> VStr NEW_2026 ->
        (item.["114_得分數值"] = VNum 1 ->
         card_scoreClass card = utf16 "pass"
         /\ card_score card = utf16 "1分")
        /\ (item.["114_得分數值"] = VNum 0 ->
            card_scoreClass card = utf16 "fail"
            /\ card_score card = utf16 "0分")
        /\ (item.["114_得分數值"] <> VNum 1 ->
            item.["114_得分數值"] <> VNum 0 ->
            (forall s,
               item.["114_自評得分"] = VStr s -> s <> [] ->
               card_scoreClass card = utf16 "pass"
               /\ card_score card = firstn 6 s)
            /\ (absent item.["114_自評得分"] ->
                card_scoreClass card = utf16 "na"
                /\ card_score card = utf16 "--"))).
Proof.
  intros Ht Hs.
  destruct (createCard_total item Ht Hs) as [sc [t [Esc [_ Ec]]]].
  eexists. split; [exact Ec|]. cbn [card_score card_scoreClass].
  split.
  - intros E. apply strict_eq_str_spec in E. rewrite E. reflexivity.
  - intros E. apply strict_eq_str_false in E. rewrite E.
    unfold cardScore in Esc. split; [|split].
    + intros H1. rewrite H1 in Esc. injection Esc as <-.
      split; reflexivity.
    + intros H0. rewrite H0 in Esc. injection Esc as <-.
      split; reflexivity.
    + intros H1 H0. apply strict_eq_num_false in H1, H0.
      rewrite H1, H0 in Esc. split.
      * intros [|x s] Es Hne; [congruence|]. rewrite Es in Esc.
        injection Esc as <-. split; reflexivity.
      * intros Ha. rewrite (or_else_absent _ _ Ha) in Esc.
        injection Esc as <-. split; reflexivity.
Qed.

(** C7. The AI flag of a card, for a record whose title and score text
    hold text: it is true exactly when the AI suggestion is present and
    carries neither an error marker nor a parse-error marker (for a
    suggestion that is an object: exactly when it carries neither marker);
    it is false when the record has no AI suggestion. *)
Theorem createCard_ai_flag (item : record) :
  textual item.["評鑑指標"] = true ->
  textual item.["114_自評得分"] = true ->
  exists card,
    createCard item = Some card
    /\ (card_ai card = true
        <-> ~ absent item.["ai_suggestion"]
            /\ ~ carries item.["ai_suggestion"] "error"
            /\ ~ carries item.["ai_suggestion"] "parse_error")
    /\ (forall o,
          item.["ai_suggestion"] = VObj o ->
          (card_ai card = true
           <-> ~ carries (VObj o) "error"
               /\ ~ carries (VObj o) "parse_error"))
    /\ (item !! "ai_suggestion" = None -> card_ai card = false).
Proof.
  intros Ht Hs.
  destruct (createCard_total item Ht Hs) as [sc [t [_ [_ Ec]]]].
  eexists. split; [exact Ec|]. cbn [card_ai]. split; [|split].
  - apply hasAI_spec.
  - intros o E. rewrite hasAI_spec, E. unfold absent. simpl. split.
    + intros [_ H]. exact H.
    + intros H. split; [discriminate | exact H].
  - intros E. unfold hasAI, get. rewrite E. reflexivity.
Qed.


(** C10. The stats bar and the card use different predicates.  The AI
    count of the stats bar is the number of filtered records whose AI
    suggestion is present and carries no error marker, whatever its
    parse-error marker.  A filtered record whose AI suggestion is
    [{parse_error: true}] is therefore counted, while its card (the title
    and the score text holding text) shows no AI indicator. *)
Theorem stats_count_ignores_parse_error (filteredData : list record) :
  stat_ai (renderStats filteredData)
  = length (List.filter countsAI filteredData)
  /\ (forall d,
        In d (List.filter countsAI filteredData)
        <-> In d filteredData
            /\ ~ absent d.["ai_suggestion"]
            /\ ~ carries d.["ai_suggestion"] "error")
  /\ (forall item,
        In item filteredData ->
        item.["ai_suggestion"] = VObj {[ "parse_error" := VBool true ]} ->
        textual item.["評鑑指標"] = true ->
        textual item.["114_自評得分"] = true ->
        In item (List.filter countsAI filteredData)
        /\ 1 <= stat_ai (renderStats filteredData)
        /\ exists card, createCard item = Some card /\ card_ai card = false).
Proof.
  split; [reflexivity|]. split.
  - intros d. rewrite filter_In, countsAI_spec. reflexivity.
  - intros item Hin Hai Ht Hs.
    assert (Hc : In item (List.filter countsAI filteredData)).
    { apply filter_In. split; [exact Hin|].
      unfold countsAI. rewrite Hai. reflexivity. }
    split; [exact Hc|]. split.
    + cbn [stat_ai renderStats].
      destruct (List.filter countsAI filteredData); [destruct Hc|].
      simpl. lia.
    + destruct (createCard_total item Ht Hs) as [sc [t [_ [_ Ec]]]].
      eexists. split; [exact Ec|]. cbn [card_ai].
      unfold hasAI. rewrite Hai. reflexivity.
Qed.

(** C5, as amended.  For a record whose title and score text hold text and
    whose face is neither E nor S, absent included: the card takes the
    governance style class and the detail overlay shows the governance
    long label; the table row shows the governance label when the face is
    G, and otherwise the face value itself, which is the empty text when
    the face is absent. *)
Theorem face_fallback_by_view (item : record) :
  textual item.["評鑑指標"] = true ->
  textual item.["114_自評得分"] = true ->
  item.["構面"] <> VStr FACE_E ->
  item.["構面"] <> VStr FACE_S ->
  (exists card,
     createCard item = Some card /\ card_faceClass card = utf16 "gov")
  /\ (exists det,
        openModal item = Some det
        /\ detail_face det = utf16 "公司治理面 (G)")
  /\ (exists row,
        tableRow item = Some row
        /\ (item.["構面"] = VStr FACE_G ->
            row_faceLabel row = utf16 "治理")
        /\ (item.["構面"] <> VStr FACE_G ->
            row_faceLabel row = fieldText item.["構面"])
        /\ (absent item.["構面"] -> row_faceLabel row = [])).
Proof.
  intros Ht Hs HE HS.
  apply strict_eq_str_false in HE, HS. split; [|split].
  - destruct (createCard_total item Ht Hs) as [sc [t [_ [_ Ec]]]].
    eexists. split; [exact Ec|]. cbn [card_faceClass].
    rewrite HE, HS. reflexivity.
  - destruct (openModal_total item Ht) as [det [Ed [_ Ef]]].
    exists det. split; [exact Ed|]. rewrite Ef, HE, HS. reflexivity.
  - destruct (tableRow_total item Ht) as [t [row [_ [Er El]]]].
    exists row. split; [exact Er|]. rewrite El, HE, HS.
    split; [|split].
    + intros HG. apply strict_eq_str_spec in HG. rewrite HG. reflexivity.
    + intros HG. apply strict_eq_str_false in HG. rewrite HG. reflexivity.
    + intros Ha. unfold fieldText. rewrite Ha.
      destruct item.["構面"] as [| | | |[|x s]| |]; try discriminate;
        reflexivity.
Qed.

Lemma or_else_converts (a b : value) :
  converts a = true -> converts b = true -> converts (or_else a b) = true.
Proof. unfold or_else. destruct (truthy a); auto. Qed.

Lemma converts_or_else (v : value) (d : jsstring) :
  converts (or_else v (VStr d)) = converts v.
Proof.
  unfold or_else. destruct (truthy v) eqn:E; [reflexivity|].
  rewrite (falsy_converts _ E). reflexivity.
Qed.

(** The templates of the overlay convert fields of the record only. *)
Lemma fields_detailConverts (item : record) :
  (forall k, converts item.[k] = true) ->
  Strict.detailConverts item = true.
Proof.
  intros H. unfold Strict.detailConverts.
  rewrite !converts_or_else, !H. rewrite !orb_true_r. reflexivity.
Qed.

Lemma shown_or_else (a b : value) :
  to_string (or_else (or_else a b) (VStr NA)) = shown [a; b].
Proof.
  unfold or_else. cbn [shown].
  destruct (truthy a) eqn:Ea; [rewrite Ea; reflexivity|].
  destruct (truthy b) eqn:Eb; rewrite ?Eb; reflexivity.
Qed.

Lemma shown_or_else1 (a : value) :
  to_string (or_else a (VStr NA)) = shown [a].
Proof. unfold or_else. cbn [shown]. destruct (truthy a); reflexivity. Qed.

Lemma mapM_ToString (l : list value) :
  forallb converts l = true -> mapM ToString l = Some (map to_string l).
Proof.
  induction l as [|v l IH]; [reflexivity|].
  cbn [forallb]. rewrite andb_true_iff. intros [Hv Hl].
  cbn [mapM map]. rewrite (ToString_converts _ Hv), (IH Hl). reflexivity.
Qed.

(** The AI section with its exceptions returns when the properties of the
    suggestion convert, and returns the section of the overlay. *)
Lemma aiSection_returns (ai : value) :
  subItemsConvert ai ->
  Strict.aiSection ai = Some (aiSection ai).
Proof.
  intros Hs.
  assert (H : forall k, In k subItems -> converts (prop ai k) = true).
  { apply List.Forall_forall, Hs. }
  unfold Strict.aiSection, aiSection.
  assert (Hd : forall v d,
             converts v = true ->
             ToString (or_else v (VStr d))
             = Some (to_string (or_else v (VStr d)))).
  { intros v d Hv. apply ToString_converts, or_else_converts;
      [exact Hv | reflexivity]. }
  destruct (truthy ai && negb (truthy (prop ai "error"))
            && negb (truthy (prop ai "parse_error"))).
  - rewrite (Hd (or_else (prop ai "核心要求白話文") (prop ai "核心要求")) NA),
      (Hd (or_else (prop ai "差異分析或現況診斷") (prop ai "差異分析")) NA)
      by (apply or_else_converts; apply H; simpl; tauto).
    rewrite !Hd by (apply H; simpl; tauto).
    cbn [mbind option_bind].
    assert (Hl : converts (prop ai "具體行動與揭露清單") = true)
      by (apply H; simpl; tauto).
    destruct (prop ai "具體行動與揭露清單") as [| | | | |l|o] eqn:El;
      cbv beta iota;
      try (match goal with
           | |- context [ToString (or_else ?v (VStr ?d))] =>
             rewrite (Hd v d Hl)
           end;
           reflexivity).
    cbn [converts] in Hl. rewrite (mapM_ToString _ Hl). reflexivity.
  - destruct (truthy ai
              && (truthy (prop ai "raw_response")
                  || truthy (prop ai "parse_error"))); [|reflexivity].
    destruct (truthy (prop ai "raw_response")); [|reflexivity].
    rewrite (ToString_converts (prop ai "raw_response"))
      by (apply H; simpl; tauto).
    reflexivity.
Qed.

(** C3, as amended.  For a suggestion none of whose sub-items is an
    object with a [toString] key of its own, or an array holding one, the
    AI section of the overlay is produced without an exception, and it
    is one of three renderings, chosen in this order.  A suggestion that
    is present and carries neither an error nor a parse-error marker
    gives the five structured items, whether or not a raw response is
    there: each item is the text of its field, the alternate field
    standing in for an absent first one, and "N/A" when they are absent;
    the actions are one bullet per element when the field is an array.
    Otherwise a suggestion that is present and carries a raw response or
    a parse-error marker gives the raw dump: the raw response as it is, or
    the serialization of the whole suggestion when there is none.
    Otherwise (no suggestion, or an error marker with neither a raw
    response nor a parse-error marker) the placeholder is shown.  The
    overlay of a record whose title holds text carries that section, and
    is produced without an exception when the fields of the record
    convert too. *)
Theorem openModal_ai_branches (item : record) :
  textual item.["評鑑指標"] = true ->
  subItemsConvert item.["ai_suggestion"] ->
  exists det section,
    openModal item = Some det
    /\ Strict.aiSection item.["ai_suggestion"] = Some section
    /\ detail_ai det = section
    /\ ((forall k, converts item.[k] = true) ->
        Strict.openModal item = Some det)
    /\ let ai := item.["ai_suggestion"] in
       (absent ai -> section = AIPlaceholder)
       /\ (~ absent ai -> ~ carries ai "error" ->
           ~ carries ai "parse_error" ->
           exists actions,
             section
             = AIStructured
                 (shown [prop ai "核心要求白話文"; prop ai "核心要求"])
                 (shown [prop ai "差異分析或現況診斷"; prop ai "差異分析"])
                 actions
                 (shown [prop ai "官方參考與較佳案例"])
                 (shown [prop ai "分派建議"])
             /\ (forall l,
                   prop ai "具體行動與揭露清單" = VArr l ->
                   actions = Bullets (map to_string l))
             /\ ((forall l, prop ai "具體行動與揭露清單" <> VArr l) ->
                 actions = Plain (shown [prop ai "具體行動與揭露清單"])))
       /\ (~ absent ai ->
           carries ai "error" \/ carries ai "parse_error" ->
           (carries ai "raw_response" ->
            section = AIRaw (RawText (to_string (prop ai "raw_response"))))
           /\ (~ carries ai "raw_response" -> carries ai "parse_error" ->
               section = AIRaw (Serialized ai))
           /\ (~ carries ai "raw_response" -> ~ carries ai "parse_error" ->
               section = AIPlaceholder)).
Proof.
  intros Ht Hc. destruct (openModal_total item Ht) as [det [Ed [Ea _]]].
  exists det, (aiSection item.["ai_suggestion"]).
  split; [exact Ed|]. split; [apply aiSection_returns, Hc|].
  split; [exact Ea|]. split.
  { intros Hf. unfold Strict.openModal.
    rewrite Ed, (fields_detailConverts _ Hf), (aiSection_returns _ Hc).
    reflexivity. }
  cbv zeta.
  generalize (item.["ai_suggestion"]). clear. intros ai.
  unfold absent, carries, aiSection.
  rewrite !not_true_iff_false, not_false_iff_true.
  split; [|split].
  - intros ->. reflexivity.
  - intros -> -> ->. cbn [andb negb].
    rewrite !shown_or_else, !shown_or_else1.
    eexists. split; [reflexivity|]. split.
    + intros l ->. reflexivity.
    + intros Hn.
      destruct (prop ai "具體行動與揭露清單") as [| | | | |l|o] eqn:El;
        try (rewrite <- shown_or_else1; reflexivity).
      exfalso. apply (Hn l). reflexivity.
  - intros -> Hm. cbn [andb].
    assert (Hb : negb (truthy (prop ai "error"))
                 && negb (truthy (prop ai "parse_error")) = false).
    { destruct Hm as [-> | ->]; [reflexivity|].
      apply andb_false_r. }
    rewrite Hb. split; [|split].
    + intros ->. reflexivity.
    + intros -> ->. reflexivity.
    + intros -> ->. reflexivity.
Qed.





(** C9. The groups of the board partition the filtered set, for records
    whose department holds text.  The member counts add up to the length of
    the set; no key names two groups; a group holds exactly the filtered
    records of its key, in their order, and is not empty; and every
    filtered record is in the group of its key, which is its department,
    or the unassigned sentinel when the department is absent. *)
Theorem groupByDept_partition (filteredData : list record) :
  Forall (fun d => textual d.["114_相關負責部門"] = true) filteredData ->
  exists g,
    groupByDept filteredData = Some g
    /\ memberCount g = length filteredData
    /\ List.NoDup (map fst g)
    /\ (forall k members,
          In (k, members) g ->
          members = withKey k filteredData
          /\ members <> []
          /\ (forall d,
                In d members
                <-> In d filteredData /\ deptKey d = Some k))
    /\ (forall d,
          In d filteredData ->
          exists k,
            deptKey d = Some k
            /\ In (k, groups_get g k) g
            /\ In d (groups_get g k)
            /\ (absent d.["114_相關負責部門"] -> k = UNASSIGNED)
            /\ (forall s,
                  d.["114_相關負責部門"] = VStr s -> s <> [] -> k = s)).
Proof.
  intros Hall.
  destruct (groupByDept_grouped filteredData Hall) as [g [Eg Hg]].
  destruct Hg as [Hnd [Hc [Hget Hkeys]]].
  exists g. split; [exact Eg|]. split; [exact Hc|]. split; [exact Hnd|].
  split.
  - intros k members Hin.
    assert (Em : members = withKey k filteredData).
    { rewrite <- Hget. symmetry. apply groups_get_In; assumption. }
    split; [exact Em|]. split.
    + assert (Hk : In k (map fst g)).
      { apply (in_map fst) in Hin. exact Hin. }
      apply Hkeys in Hk. destruct Hk as [d [Hd Ed]].
      intros En. assert (Hd' : In d members).
      { rewrite Em. apply withKey_In. auto. }
      rewrite En in Hd'. destruct Hd'.
    + intros d. rewrite Em. apply withKey_In.
  - intros d Hd.
    rewrite List.Forall_forall in Hall.
    destruct (deptKey_textual d (Hall d Hd)) as [k [Ek [Ha Hs]]].
    exists k. split; [exact Ek|].
    assert (Hk : In k (map fst g)) by (apply Hkeys; eauto).
    split.
    + apply in_map_iff in Hk. destruct Hk as [[k' ds] [Ekk Hin]].
      simpl in Ekk. subst k'.
      rewrite (groups_get_In g k ds Hnd Hin). exact Hin.
    + split; [|split; assumption].
      rewrite Hget. apply withKey_In. auto.
Qed.


(** *** The order of the columns *)

Lemma sort_insert_perm {A} (cmp : A -> A -> Z) (x : A) (l : list A) :
  Permutation (sort_insert cmp x l) (x :: l).
Proof.
  induction l as [|y l IH]; simpl; [reflexivity|].
  destruct (cmp x y <=? 0)%Z; [reflexivity|].
  rewrite IH. apply perm_swap.
Qed.

Lemma sort_perm {A} (cmp : A -> A -> Z) (l : list A) :
  Permutation (sort cmp l) l.
Proof.
  induction l as [|x l IH]; simpl; [reflexivity|].
  rewrite sort_insert_perm, IH. reflexivity.
Qed.

Section ColumnOrder.

(** The collation is a total preorder. *)
Variable localeCompare : jsstring -> jsstring -> Z.

Hypothesis collation_total :
  forall a b, collates localeCompare a b \/ collates localeCompare b a.

Hypothesis collation_trans :
  forall a b c,
    collates localeCompare a b -> collates localeCompare b c ->
    collates localeCompare a c.

Lemma sort_insert_sorted (x : jsstring) (l : list jsstring) :
  StronglySorted (collates localeCompare) l ->
  StronglySorted (collates localeCompare) (sort_insert localeCompare x l).
Proof.
  induction 1 as [|y l Hs IH Hy]; simpl.
  - repeat constructor.
  - destruct (localeCompare x y <=? 0)%Z eqn:E.
    + apply Z.leb_le in E. constructor.
      * constructor; assumption.
      * constructor; [exact E|].
        eapply List.Forall_impl; [|exact Hy]. intros z Hz.
        apply (collation_trans x y z); assumption.
    + apply Z.leb_gt in E. constructor; [exact IH|].
      assert (Hyx : collates localeCompare y x).
      { destruct (collation_total x y) as [H | H]; [|exact H].
        unfold collates in H. lia. }
      rewrite (sort_insert_perm localeCompare x l).
      constructor; assumption.
Qed.

Lemma sort_sorted (l : list jsstring) :
  StronglySorted (collates localeCompare) (sort localeCompare l).
Proof.
  induction l as [|x l IH]; simpl.
  - constructor.
  - apply sort_insert_sorted, IH.
Qed.

Lemma keyOrder_unassigned (y : jsstring) :
  keyOrder localeCompare UNASSIGNED y = 1%Z.
Proof. reflexivity. Qed.

Lemma keyOrder_named (x y : jsstring) :
  isUnassigned x = false ->
  keyOrder localeCompare x y
  = if isUnassigned y then (-1)%Z else localeCompare x y.
Proof.
  unfold keyOrder, isUnassigned. intros ->. reflexivity.
Qed.

Lemma sort_insert_unassigned (l : list jsstring) :
  sort_insert (keyOrder localeCompare) UNASSIGNED l = l ++ [UNASSIGNED].
Proof.
  induction l as [|y l IH]; [reflexivity|].
  cbn [sort_insert]. rewrite keyOrder_unassigned, IH. reflexivity.
Qed.

Lemma sort_insert_named (x : jsstring) (named rest : list jsstring) :
  isUnassigned x = false ->
  Forall (fun k => isUnassigned k = false) named ->
  Forall (fun k => k = UNASSIGNED) rest ->
  sort_insert (keyOrder localeCompare) x (named ++ rest)
  = sort_insert localeCompare x named ++ rest.
Proof.
  intros Hx Hn Hr. induction Hn as [|y named Hy Hn IH]; simpl.
  - destruct Hr as [|y rest -> Hr]; [reflexivity|].
    cbn [sort_insert]. rewrite (keyOrder_named _ _ Hx). reflexivity.
  - rewrite (keyOrder_named _ _ Hx), Hy.
    destruct (localeCompare x y <=? 0)%Z; [reflexivity|].
    rewrite IH. reflexivity.
Qed.

Lemma all_unassigned_snoc (rest : list jsstring) :
  Forall (fun k => k = UNASSIGNED) rest ->
  rest ++ [UNASSIGNED] = UNASSIGNED :: rest.
Proof.
  induction 1 as [|y rest -> _ IH]; simpl; [reflexivity|].
  rewrite IH. reflexivity.
Qed.

Lemma filter_unassigned (l : list jsstring) :
  Forall (fun k => k = UNASSIGNED) (List.filter isUnassigned l).
Proof.
  apply List.Forall_forall. intros k Hk. apply filter_In in Hk.
  apply str_eqb_eq, Hk.
Qed.

Lemma sorted_named (l : list jsstring) :
  Forall (fun k => isUnassigned k = false)
    (sort localeCompare (List.filter (fun k => negb (isUnassigned k)) l)).
Proof.
  apply List.Forall_forall. intros k Hk.
  apply (Permutation_in _ (sort_perm _ _)) in Hk.
  apply filter_In in Hk. apply negb_true_iff, Hk.
Qed.

(** The sort of the keys sorts the department names by the collation and
    puts the sentinel after them. *)
Lemma sort_keyOrder_split (l : list jsstring) :
  sort (keyOrder localeCompare) l
  = sort localeCompare (List.filter (fun k => negb (isUnassigned k)) l)
      ++ List.filter isUnassigned l.
Proof.
  induction l as [|x l IH]; [reflexivity|].
  cbn [sort List.filter]. rewrite IH.
  destruct (isUnassigned x) eqn:Ex; cbn [negb].
  - apply str_eqb_eq in Ex. subst x.
    rewrite sort_insert_unassigned, <- app_assoc.
    rewrite all_unassigned_snoc by apply filter_unassigned. reflexivity.
  - cbn [sort]. apply sort_insert_named;
      [exact Ex | apply sorted_named | apply filter_unassigned].
Qed.

Lemma filter_unassigned_keys (g : Groups) :
  List.NoDup (map fst g) ->
  List.filter isUnassigned (map fst g)
  = if groups_has g UNASSIGNED then [UNASSIGNED] else [].
Proof.
  induction g as [|[k ds] g IH]; [reflexivity|].
  cbn [map fst List.filter groups_has]. intros Hnd.
  apply List.NoDup_cons_iff in Hnd. destruct Hnd as [Hk Hnd].
  fold (isUnassigned k). destruct (isUnassigned k) eqn:Ek; cbn [orb].
  - apply str_eqb_eq in Ek. subst k.
    rewrite (IH Hnd). apply groups_has_false in Hk. rewrite Hk. reflexivity.
  - apply IH, Hnd.
Qed.

(** C4. The order of the columns of the board, for records whose
    department holds text and a collation that is a total preorder.  The
    ordered key list is a rearrangement of the group keys; it is the
    department names sorted by the collation, followed by the unassigned
    sentinel when there is an unassigned group, so that the sentinel is the
    last key whatever the other groups are. *)
Theorem sortedKeys_unassigned_last (filteredData : list record) :
  Forall (fun d => textual d.["114_相關負責部門"] = true) filteredData ->
  exists g columns named,
    groupByDept filteredData = Some g
    /\ renderKanban localeCompare filteredData = Some columns
    /\ map fst columns = sortedKeys localeCompare g
    /\ Permutation (sortedKeys localeCompare g) (map fst g)
    /\ sortedKeys localeCompare g
       = named ++ (if groups_has g UNASSIGNED then [UNASSIGNED] else [])
    /\ ~ In UNASSIGNED named
    /\ StronglySorted (collates localeCompare) named
    /\ (groups_has g UNASSIGNED = true
        <-> exists d, In d filteredData /\ deptKey d = Some UNASSIGNED).
Proof.
  intros Hall.
  destruct (groupByDept_grouped filteredData Hall) as [g [Eg Hg]].
  destruct Hg as [Hnd [_ [_ Hkeys]]].
  exists g. eexists.
  exists (sort localeCompare
            (List.filter (fun k => negb (isUnassigned k)) (map fst g))).
  split; [exact Eg|]. split.
  { unfold renderKanban. rewrite Eg. reflexivity. }
  split.
  { rewrite map_map. simpl. apply map_id. }
  split; [apply sort_perm|]. split.
  { unfold sortedKeys. rewrite sort_keyOrder_split.
    rewrite (filter_unassigned_keys g Hnd). reflexivity. }
  split.
  { intros Hin.
    pose proof (sorted_named (map fst g)) as Hn.
    rewrite List.Forall_forall in Hn. specialize (Hn _ Hin).
    discriminate. }
  split; [apply sort_sorted|].
  rewrite groups_has_spec. apply Hkeys.
Qed.

End ColumnOrder.

(** ** Further properties *)

(** The code-unit order is a total preorder. *)
Lemma unit_compare_total (a b : jsstring) :
  (unit_compare a b <= 0)%Z \/ (unit_compare b a <= 0)%Z.
Proof.
  revert b; induction a as [|x a IH]; intros [|y b]; simpl; try lia.
  destruct (N.ltb_spec x y), (N.ltb_spec y x); try lia. apply IH.
Qed.

Lemma unit_compare_trans (a b c : jsstring) :
  (unit_compare a b <= 0)%Z -> (unit_compare b c <= 0)%Z ->
  (unit_compare a c <= 0)%Z.
Proof.
  revert b c; induction a as [|x a IH]; intros [|y b] [|z c]; simpl;
    try lia.
  destruct (N.ltb_spec x y), (N.ltb_spec y x), (N.ltb_spec y z),
    (N.ltb_spec z y), (N.ltb_spec x z), (N.ltb_spec z x); try lia.
  apply IH.
Qed.

Lemma unit_compare_eq (a b : jsstring) : unit_compare a b = 0%Z -> a = b.
Proof.
  revert b; induction a as [|x a IH]; intros [|y b]; simpl;
    try reflexivity; try discriminate.
  destruct (N.ltb_spec x y); [discriminate|].
  destruct (N.ltb_spec y x); [discriminate|].
  intros E. f_equal; [lia | apply IH, E].
Qed.

(** *** Filters and stats *)

Lemma lfilter_all {A} (f : A -> bool) (l : list A) :
  (forall x, In x l -> f x = true) -> List.filter f l = l.
Proof.
  induction l as [|x l IH]; simpl; intros H; [reflexivity|].
  rewrite (H x (or_introl eq_refl)), IH; [reflexivity|].
  intros y Hy. apply H. right. exact Hy.
Qed.

Lemma lfilter_none {A} (f : A -> bool) (l : list A) :
  (forall x, In x l -> f x = false) -> List.filter f l = [].
Proof.
  induction l as [|x l IH]; simpl; intros H; [reflexivity|].
  rewrite (H x (or_introl eq_refl)). apply IH.
  intros y Hy. apply H. right. exact Hy.
Qed.

Lemma lfilter_comm {A} (f g : A -> bool) (l : list A) :
  List.filter g (List.filter f l) = List.filter f (List.filter g l).
Proof.
  induction l as [|x l IH]; simpl; [reflexivity|].
  destruct (f x) eqn:Ef, (g x) eqn:Eg; simpl; rewrite ?Ef, ?Eg, IH;
    reflexivity.
Qed.

Lemma lfilter_idem {A} (f : A -> bool) (l : list A) :
  List.filter f (List.filter f l) = List.filter f l.
Proof.
  apply lfilter_all. intros x Hx. apply filter_In in Hx. apply Hx.
Qed.

Lemma lfilter_length_le {A} (f : A -> bool) (l : list A) :
  length (List.filter f l) <= length l.
Proof.
  induction l as [|x l IH]; simpl; [lia|]. destruct (f x); simpl; lia.
Qed.

(** X1. Controls left blank filter nothing: with no face, status or
    department chosen and a search box that is empty or holds only
    whitespace, the filtered set is the whole record set. *)
Theorem applyFilters_blank_controls (toLowerCase : jsstring -> jsstring)
        (allData : list record) (c : Controls) :
  filterFace c = [] -> filterStatus c = [] -> filterDept c = [] ->
  trim (toLowerCase (searchInput c)) = [] ->
  applyFilters toLowerCase allData c = allData.
Proof.
  intros Hf Hs Hd Hq. apply lfilter_all. intros d _.
  apply keep_spec. unfold matchesCriteria, criterion, searchTrimmed.
  rewrite Hf, Hs, Hd, Hq. repeat split; congruence.
Qed.

(** X2. Filtering composes: narrowing a filtered set by second controls
    gives the same records in the same order whichever controls are
    applied first, and applying the same controls twice changes nothing. *)
Theorem applyFilters_compose (toLowerCase : jsstring -> jsstring)
        (allData : list record) (c1 c2 : Controls) :
  applyFilters toLowerCase (applyFilters toLowerCase allData c1) c2
  = applyFilters toLowerCase (applyFilters toLowerCase allData c2) c1
  /\ applyFilters toLowerCase (applyFilters toLowerCase allData c1) c1
     = applyFilters toLowerCase allData c1
  /\ (forall d,
        In d (applyFilters toLowerCase
                (applyFilters toLowerCase allData c1) c2)
        <-> In d allData
            /\ matchesCriteria toLowerCase c1 d
            /\ matchesCriteria toLowerCase c2 d).
Proof.
  unfold applyFilters. split; [apply lfilter_comm|].
  split; [apply lfilter_idem|].
  intros d. rewrite !filter_In, !keep_spec. tauto.
Qed.

Lemma status_filtered (toLowerCase : jsstring -> jsstring)
      (allData : list record) (c : Controls) (d : record) :
  filterStatus c <> [] ->
  In d (applyFilters toLowerCase allData c) ->
  d.["狀態標記"] = VStr (filterStatus c).
Proof.
  intros Hne Hin. apply filter_In in Hin. destruct Hin as [_ Hk].
  apply keep_spec in Hk. destruct Hk as [_ [Hs _]]. apply Hs, Hne.
Qed.

(** X3. The status filter and the stats bar agree: with New chosen every
    filtered record is counted as new and none as modified, and with
    Modified chosen every one is counted as modified and none as new. *)
Theorem status_filter_stats (toLowerCase : jsstring -> jsstring)
        (allData : list record) (c : Controls) :
  (filterStatus c = NEW_2026 ->
   stat_new (renderStats (applyFilters toLowerCase allData c))
   = stat_total (renderStats (applyFilters toLowerCase allData c))
   /\ stat_mod (renderStats (applyFilters toLowerCase allData c)) = 0)
  /\ (filterStatus c = MODIFIED_2026 ->
      stat_mod (renderStats (applyFilters toLowerCase allData c))
      = stat_total (renderStats (applyFilters toLowerCase allData c))
      /\ stat_new (renderStats (applyFilters toLowerCase allData c)) = 0).
Proof.
  cbn [stat_new stat_mod stat_total renderStats].
  split; intros E.
  - assert (H : forall d, In d (applyFilters toLowerCase allData c) ->
                          d.["狀態標記"] = VStr NEW_2026).
    { intros d Hd. rewrite <- E. apply (status_filtered _ _ _ _) in Hd;
        [exact Hd | rewrite E; discriminate]. }
    split.
    + rewrite lfilter_all; [reflexivity|].
      intros d Hd. rewrite (H d Hd). reflexivity.
    + rewrite lfilter_none; [reflexivity|].
      intros d Hd. rewrite (H d Hd). reflexivity.
  - assert (H : forall d, In d (applyFilters toLowerCase allData c) ->
                          d.["狀態標記"] = VStr MODIFIED_2026).
    { intros d Hd. rewrite <- E. apply (status_filtered _ _ _ _) in Hd;
        [exact Hd | rewrite E; discriminate]. }
    split.
    + rewrite lfilter_all; [reflexivity|].
      intros d Hd. rewrite (H d Hd). reflexivity.
    + rewrite lfilter_none; [reflexivity|].
      intros d Hd. rewrite (H d Hd). reflexivity.
Qed.

Lemma status_counts (l : list record) :
  length (List.filter (fun d => strict_eq_str d.["狀態標記"] NEW_2026) l)
  + length (List.filter
              (fun d => strict_eq_str d.["狀態標記"] MODIFIED_2026) l)
  <= length l
  /\ (length (List.filter (fun d => strict_eq_str d.["狀態標記"] NEW_2026) l)
      + length (List.filter
                  (fun d => strict_eq_str d.["狀態標記"] MODIFIED_2026) l)
      = length l
      <-> Forall statusCounted l).
Proof.
  induction l as [|d l [IHle IHeq]]; simpl.
  - split; [lia|]. split; [constructor | reflexivity].
  - pose proof (lfilter_length_le
                  (fun d => strict_eq_str d.["狀態標記"] NEW_2026) l) as Hn.
    pose proof (lfilter_length_le
                  (fun d => strict_eq_str d.["狀態標記"] MODIFIED_2026) l)
      as Hm.
    destruct (strict_eq_str d.["狀態標記"] NEW_2026) eqn:En.
    + apply strict_eq_str_spec in En.
      assert (Em : strict_eq_str d.["狀態標記"] MODIFIED_2026 = false)
        by (rewrite En; reflexivity).
      rewrite Em. simpl. split; [lia|]. split.
      * intros H. constructor; [left; exact En|]. apply IHeq. lia.
      * intros H. inversion H as [|? ? Hd Hl]; subst. apply IHeq in Hl. lia.
    + destruct (strict_eq_str d.["狀態標記"] MODIFIED_2026) eqn:Em; simpl.
      * split; [lia|]. split.
        -- intros H. constructor.
           ++ right. apply strict_eq_str_spec, Em.
           ++ apply IHeq. lia.
        -- intros H. inversion H as [|? ? Hd Hl]; subst.
           apply IHeq in Hl. lia.
      * split; [lia|]. split; [lia|].
        intros H. inversion H as [|? ? Hd Hl]; subst.
        apply strict_eq_str_false in En, Em. destruct Hd; contradiction.
Qed.

(** X4. The counters of the stats bar.  The new and the modified counts
    never add up to more than the total, and they add up to it exactly when
    every filtered record has one of the two status tags; the AI count is
    at most the total. *)
Theorem renderStats_bounds (filteredData : list record) :
  stat_total (renderStats filteredData) = length filteredData
  /\ stat_new (renderStats filteredData) + stat_mod (renderStats filteredData)
     <= stat_total (renderStats filteredData)
  /\ (stat_new (renderStats filteredData)
      + stat_mod (renderStats filteredData)
      = stat_total (renderStats filteredData)
      <-> Forall statusCounted filteredData)
  /\ stat_ai (renderStats filteredData) <= stat_total (renderStats filteredData).
Proof.
  cbn [stat_new stat_mod stat_total stat_ai renderStats].
  destruct (status_counts filteredData) as [Hle Heq].
  split; [reflexivity|]. split; [exact Hle|]. split; [exact Heq|].
  apply lfilter_length_le.
Qed.

(** *** Cards and the stats bar *)

Lemma shaped_spec (d : record) :
  shaped d = true
  <-> textual d.["評鑑指標"] = true
      /\ textual d.["114_自評得分"] = true
      /\ textual d.["114_相關負責部門"] = true.
Proof.
  unfold shaped. rewrite !andb_true_iff. tauto.
Qed.


Lemma mapM_shaped_cards (l : list record) :
  Forall (fun d => shaped d = true) l ->
  exists cards,
    mapM createCard l = Some cards
    /\ Forall2 (fun d c => createCard d = Some c) l cards.
Proof.
  intros H.
  assert (Hs : is_Some (mapM createCard l)).
  { apply mapM_is_Some. eapply List.Forall_impl; [|exact H].
    intros d Hd. apply shaped_spec in Hd. destruct Hd as [Ht [Hs _]].
    destruct (createCard_total d Ht Hs) as [sc [t [_ [_ E]]]].
    simpl. rewrite E. eauto. }
  destruct Hs as [cards E]. exists cards. split; [exact E|].
  apply mapM_Some_1, E.
Qed.





(** *** Department options and the board *)

Lemma set_add_text (names : list jsstring) (k : jsstring) :
  exists names',
    set_add (map VStr names) (VStr k) = map VStr names'
    /\ (forall y, In y names' <-> In y names \/ y = k)
    /\ (List.NoDup names -> List.NoDup names').
Proof.
  unfold set_add.
  assert (E : existsb (same_value (VStr k)) (map VStr names)
              = existsb (str_eqb k) names).
  { induction names as [|x names IH]; [reflexivity|].
    simpl. rewrite IH. reflexivity. }
  rewrite E. destruct (existsb (str_eqb k) names) eqn:Ex.
  - exists names. split; [reflexivity|].
    apply existsb_exists in Ex. destruct Ex as [z [Hz Ez]].
    apply str_eqb_eq in Ez. subst z. split; [|auto].
    intros y. split; [auto|]. intros [H | ->]; assumption.
  - exists (names ++ [k]). split; [rewrite map_app; reflexivity|]. split.
    + intros y. rewrite in_app_iff. simpl. split.
      * intros [H | [<- | []]]; auto.
      * intros [H | ->]; auto.
    + intros H.
      apply List.NoDup_app; [exact H | repeat constructor; intros [] |].
      intros y Hy [Ey | []]. subst y.
      assert (Ht : existsb (str_eqb k) names = true).
      { apply existsb_exists. exists k.
        split; [exact Hy | apply str_eqb_refl]. }
      congruence.
Qed.

Lemma collectDepts_from (rest seen : list record) (names : list jsstring) :
  Forall (fun d => textual d.["114_相關負責部門"] = true) rest ->
  collected names seen ->
  exists names',
    fold_left
      (fun depts d =>
         let dept := d.["114_相關負責部門"] in
         if truthy dept then set_add depts dept else depts)
      rest (map VStr names) = map VStr names'
    /\ collected names' (seen ++ rest).
Proof.
  intros H. revert seen names.
  induction H as [|d rest Hd _ IH]; intros seen names Hc.
  - exists names. rewrite app_nil_r. split; [reflexivity | exact Hc].
  - cbn [fold_left].
    replace (seen ++ d :: rest) with ((seen ++ [d]) ++ rest)
      by (rewrite <- app_assoc; reflexivity).
    destruct Hc as [Hnd Hin].
    destruct (textual_cases _ Hd) as [E | [x [k E]]].
    + rewrite E. apply IH. split; [exact Hnd|].
      intros k'. rewrite Hin. split.
      * intros [Hne [d' [Hd' Ed']]]. split; [exact Hne|].
        exists d'. rewrite in_app_iff. auto.
      * intros [Hne [d' [Hd' Ed']]]. split; [exact Hne|].
        apply in_app_iff in Hd'. destruct Hd' as [Hd' | [<- | []]]; [eauto|].
        rewrite Ed' in E. destruct k'; [congruence | discriminate].
    + rewrite E. cbn [truthy].
      destruct (set_add_text names (x :: k)) as [names' [Es [Hin' Hnd']]].
      rewrite Es. apply IH. split; [apply Hnd', Hnd|].
      intros k'. rewrite Hin', Hin. split.
      * intros [[Hne [d' [Hd' Ed']]] | ->].
        -- split; [exact Hne|]. exists d'. rewrite in_app_iff. auto.
        -- split; [discriminate|].
           exists d. rewrite in_app_iff. simpl. auto.
      * intros [Hne [d' [Hd' Ed']]]. apply in_app_iff in Hd'.
        destruct Hd' as [Hd' | [<- | []]].
        -- left. split; [exact Hne|]. eauto.
        -- right. congruence.
Qed.

Lemma collectDepts_spec (allData : list record) :
  Forall (fun d => textual d.["114_相關負責部門"] = true) allData ->
  exists names,
    collectDepts allData = map VStr names /\ collected names allData.
Proof.
  intros H. apply (collectDepts_from allData [] [] H).
  split; [constructor|]. intros k. simpl. split; [tauto|].
  intros [_ [d [[] _]]].
Qed.

Lemma sort_insert_map {A B} (f : A -> B) (cmp : B -> B -> Z) (x : A)
      (l : list A) :
  map f (sort_insert (fun a b => cmp (f a) (f b)) x l)
  = sort_insert cmp (f x) (map f l).
Proof.
  induction l as [|y l IH]; [reflexivity|].
  cbn [sort_insert map]. destruct (cmp (f x) (f y) <=? 0)%Z.
  - reflexivity.
  - cbn [map]. rewrite IH. reflexivity.
Qed.

Lemma sort_map {A B} (f : A -> B) (cmp : B -> B -> Z) (l : list A) :
  map f (sort (fun a b => cmp (f a) (f b)) l) = sort cmp (map f l).
Proof.
  induction l as [|x l IH]; [reflexivity|].
  cbn [sort map]. rewrite sort_insert_map, IH. reflexivity.
Qed.

Lemma populateDeptFilter_text (sel : list jsstring) (allData : list record)
      (names : list jsstring) :
  collectDepts allData = map VStr names ->
  populateDeptFilter sel allData = Some (sel ++ sort unit_compare names).
Proof.
  intros E. unfold populateDeptFilter. rewrite E.
  assert (Hc : forallb converts (map VStr names) = true).
  { apply forallb_forall. intros v Hv. apply in_map_iff in Hv.
    destruct Hv as [k [<- _]]. reflexivity. }
  rewrite Hc. unfold defaultOrder.
  rewrite (sort_map to_string unit_compare), map_map. cbn [to_string].
  rewrite map_id. reflexivity.
Qed.

Lemma sorted_strict (l : list jsstring) :
  List.NoDup l ->
  StronglySorted (collates unit_compare) l ->
  StronglySorted (fun a b => (unit_compare a b < 0)%Z) l.
Proof.
  intros Hnd Hs. induction Hs as [|x l Hs IH Hx]; [constructor|].
  apply List.NoDup_cons_iff in Hnd. destruct Hnd as [Hx' Hnd].
  constructor; [apply IH, Hnd|].
  rewrite List.Forall_forall in *. intros y Hy.
  specialize (Hx y Hy). unfold collates in Hx.
  destruct (Z.eq_dec (unit_compare x y) 0%Z) as [E | E]; [|lia].
  apply unit_compare_eq in E. subst y. contradiction.
Qed.

(** X7. The options of the department filter, for records whose department
    holds text.  The options the select had are kept, and after them comes
    one option per department that some loaded record has: no empty option,
    no option twice, in increasing code-unit order. *)
Theorem populateDeptFilter_options (sel : list jsstring)
        (allData : list record) :
  Forall (fun d => textual d.["114_相關負責部門"] = true) allData ->
  exists options,
    populateDeptFilter sel allData = Some (sel ++ options)
    /\ StronglySorted (fun a b => (unit_compare a b < 0)%Z) options
    /\ List.NoDup options
    /\ (forall k,
          In k options
          <-> k <> []
              /\ exists d, In d allData /\ d.["114_相關負責部門"] = VStr k).
Proof.
  intros Hall. destruct (collectDepts_spec _ Hall) as [depts [E [Hnd Hin]]].
  exists (sort unit_compare depts).
  split; [apply populateDeptFilter_text, E|].
  assert (Hnd' : List.NoDup (sort unit_compare depts)).
  { eapply Permutation_NoDup; [|exact Hnd].
    symmetry. apply sort_perm. }
  split.
  { apply sorted_strict; [exact Hnd'|].
    apply sort_sorted; [apply unit_compare_total|].
    intros a b c. apply unit_compare_trans. }
  split; [exact Hnd'|].
  intros k. rewrite <- Hin. split; apply Permutation_in.
  - apply sort_perm.
  - symmetry. apply sort_perm.
Qed.

(** X8. Every department the filter offers selects something, for loaded
    records whose department is a string or absent: an option that
    [populateDeptFilter] appends, chosen with the other controls blank,
    gives a filtered set that is not empty and holds exactly the loaded
    records of that department. *)
Theorem deptOption_selects (toLowerCase : jsstring -> jsstring)
        (allData : list record) (sel options : list jsstring)
        (c : Controls) :
  Forall (fun d => textual d.["114_相關負責部門"] = true) allData ->
  populateDeptFilter sel allData = Some (sel ++ options) ->
  In (filterDept c) options ->
  filterFace c = [] -> filterStatus c = [] ->
  trim (toLowerCase (searchInput c)) = [] ->
  applyFilters toLowerCase allData c <> []
  /\ (forall d,
        In d (applyFilters toLowerCase allData c)
        <-> In d allData /\ d.["114_相關負責部門"] = VStr (filterDept c)).
Proof.
  intros Hall E Hin Hf Hs Hq.
  destruct (collectDepts_spec _ Hall) as [depts [Ed [_ Hspec]]].
  rewrite (populateDeptFilter_text sel _ _ Ed) in E.
  injection E as E. apply app_inv_head in E. subst options.
  apply (Permutation_in _ (sort_perm unit_compare depts)) in Hin.
  apply Hspec in Hin. destruct Hin as [Hne [d0 [Hd0 Ed0]]].
  assert (Hiff : forall d,
             In d (applyFilters toLowerCase allData c)
             <-> In d allData
                 /\ d.["114_相關負責部門"] = VStr (filterDept c)).
  { intros d. unfold applyFilters. rewrite filter_In, keep_spec.
    unfold matchesCriteria, criterion, searchTrimmed.
    rewrite Hf, Hs, Hq. split.
    - intros [Hd [_ [_ [Hdept _]]]]. split; [exact Hd | apply Hdept, Hne].
    - intros [Hd Hdept]. split; [exact Hd|]. repeat split; congruence. }
  split; [|exact Hiff].
  intros En. assert (H : In d0 (applyFilters toLowerCase allData c))
    by (apply Hiff; auto).
  rewrite En in H. destruct H.
Qed.

Lemma group_same_key (k : jsstring) (l pre : list record) :
  (forall d, In d l -> deptKey d = Some k) ->
  fold_left
    (fun acc d => g ← acc; k ← deptKey d; Some (addToGroup g k d))
    l (Some [(k, pre)])
  = Some [(k, pre ++ l)].
Proof.
  revert pre; induction l as [|d l IH]; intros pre H; simpl.
  - rewrite app_nil_r. reflexivity.
  - rewrite (H d (or_introl eq_refl)). simpl.
    unfold addToGroup. simpl. rewrite str_eqb_refl. simpl.
    rewrite str_eqb_refl. rewrite IH.
    + rewrite <- app_assoc. reflexivity.
    + intros d' Hd'. apply H. right. exact Hd'.
Qed.

(** X9. The board of a set filtered by department has one column: with a
    department chosen, whatever the other controls, the board of the
    filtered set is empty when the set is, and otherwise is the single
    column of that department holding the whole filtered set in its order.
    The unassigned column never shows under a department filter. *)
Theorem dept_filter_single_column (toLowerCase : jsstring -> jsstring)
        (localeCompare : jsstring -> jsstring -> Z)
        (allData : list record) (c : Controls) :
  filterDept c <> [] ->
  renderKanban localeCompare (applyFilters toLowerCase allData c)
  = Some match applyFilters toLowerCase allData c with
         | [] => []
         | _ :: _ => [(filterDept c, applyFilters toLowerCase allData c)]
         end.
Proof.
  intros Hne.
  assert (H : forall d, In d (applyFilters toLowerCase allData c) ->
                        deptKey d = Some (filterDept c)).
  { intros d Hd. apply filter_In in Hd. destruct Hd as [_ Hk].
    apply keep_spec in Hk. destruct Hk as [_ [_ [Hd _]]].
    unfold deptKey. rewrite (Hd Hne).
    destruct (filterDept c); [congruence | reflexivity]. }
  destruct (applyFilters toLowerCase allData c) as [|d l] eqn:E;
    [reflexivity|].
  assert (Eg : groupByDept (d :: l) = Some [(filterDept c, d :: l)]).
  { unfold groupByDept. cbn [fold_left].
    replace (Some [] ≫= λ g : Groups,
               deptKey d ≫= λ k : jsstring, Some (addToGroup g k d))
      with (Some [(filterDept c, [d])]).
    - apply (group_same_key (filterDept c) l [d]).
      intros d' Hd'. apply H. right. exact Hd'.
    - rewrite (H d (or_introl eq_refl)). simpl.
      unfold addToGroup. simpl. rewrite str_eqb_refl. reflexivity. }
  unfold renderKanban. rewrite Eg. simpl. rewrite str_eqb_refl.
  reflexivity.
Qed.


Lemma withKey_shaped (k : jsstring) (l : list record) :
  Forall (fun d => shaped d = true) l ->
  Forall (fun d => shaped d = true) (withKey k l).
Proof.
  rewrite !List.Forall_forall. intros H d Hd.
  apply withKey_In in Hd. apply H, Hd.
Qed.

Lemma columns_of_keys (filteredData : list record) (g : Groups)
      (ks : list jsstring) :
  grouped g filteredData ->
  Forall (fun d => shaped d = true) filteredData ->
  (forall k, In k ks -> In k (map fst g)) ->
  exists cols,
    mapM (fun '(dept, items) => createColumn dept items)
      (map (fun k => (k, groups_get g k)) ks) = Some cols
    /\ Forall2 (columnOf filteredData) ks cols.
Proof.
  intros [Hnd [_ [Hget Hkeys]]] Hsh.
  induction ks as [|k ks IH]; intros Hin.
  - exists []. split; [reflexivity | constructor].
  - destruct IH as [cols [Em F]].
    { intros k' Hk'. apply Hin. right. exact Hk'. }
    destruct (mapM_shaped_cards _ (withKey_shaped k _ Hsh))
      as [cards [Ec _]].
    exists ({| col_title := k;
               col_color := pickColor k colorMap;
               col_count := length (withKey k filteredData);
               col_cards := cards |} :: cols).
    split.
    + cbn [map mapM]. rewrite Em. unfold createColumn.
      rewrite Hget, Ec. reflexivity.
    + constructor; [|exact F].
      unfold columnOf. cbn [col_title col_cards col_count].
      split; [reflexivity|]. split; [exact Ec|].
      split; [apply (length_mapM _ _ _ Ec)|]. split; [reflexivity|].
      assert (Hk : In k (map fst g)) by (apply Hin; left; reflexivity).
      apply Hkeys in Hk. destruct Hk as [d [Hd Ed]].
      assert (Hw : In d (withKey k filteredData))
        by (apply withKey_In; auto).
      destruct (withKey k filteredData); [destruct Hw | simpl; lia].
Qed.


Lemma board_columns (localeCompare : jsstring -> jsstring -> Z)
      (filteredData : list record) :
  Forall (fun d => shaped d = true) filteredData ->
  exists g cols,
    groupByDept filteredData = Some g
    /\ grouped g filteredData
    /\ renderKanbanColumns localeCompare filteredData = Some cols
    /\ Forall2 (columnOf filteredData) (sortedKeys localeCompare g) cols.
Proof.
  intros Hsh.
  assert (Hd : Forall (fun d => textual d.["114_相關負責部門"] = true)
                 filteredData).
  { eapply List.Forall_impl; [|exact Hsh].
    intros d H. apply shaped_spec in H. apply H. }
  destruct (groupByDept_grouped filteredData Hd) as [g [Eg Hg]].
  destruct (columns_of_keys filteredData g (sortedKeys localeCompare g) Hg Hsh)
    as [cols [Em F]].
  { intros k Hk. eapply Permutation_in; [apply sort_perm | exact Hk]. }
  exists g, cols. split; [exact Eg|]. split; [exact Hg|].
  split; [|exact F].
  unfold renderKanbanColumns, renderKanban. rewrite Eg. exact Em.
Qed.


Lemma pickColor_first (title : jsstring)
      (pre post : list (jsstring * jsstring)) (key color : jsstring) :
  is_substring key title ->
  (forall k c, In (k, c) pre -> ~ is_substring k title) ->
  pickColor title (pre ++ (key, color) :: post) = color.
Proof.
  intros Hk. induction pre as [|[k c] pre IH]; intros Hpre; simpl.
  - apply includes_spec in Hk. rewrite Hk. reflexivity.
  - destruct (includes title k) eqn:E.
    + apply includes_spec in E. exfalso.
      apply (Hpre k c); [left; reflexivity | exact E].
    + apply IH. intros k' c' H. apply (Hpre k' c'). right. exact H.
Qed.

Lemma pickColor_none (title : jsstring) (entries : list (jsstring * jsstring)) :
  (forall k c, In (k, c) entries -> ~ is_substring k title) ->
  pickColor title entries = utf16 "var(--accent-cyan)".
Proof.
  induction entries as [|[k c] entries IH]; intros H; [reflexivity|].
  cbn [pickColor]. destruct (includes title k) eqn:E.
  - apply includes_spec in E. exfalso.
    apply (H k c); [left; reflexivity | exact E].
  - apply IH. intros k' c' H'. apply (H k' c'). right. exact H'.
Qed.

(** X11. The accent of a column, for items of the documented shape: the
    colour of the first keyword of the colour map, in the order the map is
    written, that occurs in the title, whatever later keywords occur in it
    too.  The map is, in its order: 永續辦 to the environment colour, 董秘 to
    the governance colour, 財務 to blue, 人資 to the social colour, 法務 to
    orange and the unassigned sentinel to the muted colour; a title in
    which no keyword occurs gets the default cyan. *)
Theorem createColumn_accent (title : jsstring) (items : list record) :
  Forall (fun d => shaped d = true) items ->
  exists col,
    createColumn title items = Some col
    /\ (forall pre post key color,
          colorMap = pre ++ (key, color) :: post ->
          is_substring key title ->
          (forall k c, In (k, c) pre -> ~ is_substring k title) ->
          col_color col = color)
    /\ accentRule title [] (utf16 "永續辦") (utf16 "var(--env-color)") col
    /\ accentRule title [utf16 "永續辦"]
         (utf16 "董秘") (utf16 "var(--gov-color)") col
    /\ accentRule title [utf16 "永續辦"; utf16 "董秘"]
         (utf16 "財務") (utf16 "var(--accent-blue)") col
    /\ accentRule title [utf16 "永續辦"; utf16 "董秘"; utf16 "財務"]
         (utf16 "人資") (utf16 "var(--soc-color)") col
    /\ accentRule title
         [utf16 "永續辦"; utf16 "董秘"; utf16 "財務"; utf16 "人資"]
         (utf16 "法務") (utf16 "var(--accent-orange)") col
    /\ accentRule title
         [utf16 "永續辦"; utf16 "董秘"; utf16 "財務"; utf16 "人資";
          utf16 "法務"]
         (utf16 "待分配") (utf16 "var(--text-muted)") col
    /\ ((forall k,
           In k [utf16 "永續辦"; utf16 "董秘"; utf16 "財務"; utf16 "人資";
                 utf16 "法務"; utf16 "待分配"] ->
           ~ is_substring k title) ->
        col_color col = utf16 "var(--accent-cyan)").
Proof.
  intros Hsh. destruct (mapM_shaped_cards _ Hsh) as [cards [Ec _]].
  eexists. split.
  { unfold createColumn. rewrite Ec. reflexivity. }
  cbn [col_color].
  assert (Hrule : forall pre post key color,
             colorMap = pre ++ (key, color) :: post ->
             accentRule title (map fst pre) key color
               {| col_title := title;
                  col_color := pickColor title colorMap;
                  col_count := length items;
                  col_cards := cards |}).
  { intros pre post key color Em Hk Hpre. cbn [col_color]. rewrite Em.
    apply pickColor_first; [exact Hk|].
    intros k c Hin. apply Hpre. apply (in_map fst) in Hin. exact Hin. }
  split.
  { intros pre post key color Em Hk Hpre. rewrite Em.
    apply pickColor_first; assumption. }
  split; [exact (Hrule [] (List.tl colorMap) _ _ eq_refl)|].
  split; [exact (Hrule (firstn 1 colorMap) (skipn 2 colorMap) _ _ eq_refl)|].
  split; [exact (Hrule (firstn 2 colorMap) (skipn 3 colorMap) _ _ eq_refl)|].
  split; [exact (Hrule (firstn 3 colorMap) (skipn 4 colorMap) _ _ eq_refl)|].
  split; [exact (Hrule (firstn 4 colorMap) (skipn 5 colorMap) _ _ eq_refl)|].
  split; [exact (Hrule (firstn 5 colorMap) (skipn 6 colorMap) _ _ eq_refl)|].
  intros Hnone. apply pickColor_none.
  intros k c Hin. apply Hnone. apply (in_map fst) in Hin. exact Hin.
Qed.

(** *** Titles and scores across the views *)

Lemma textual_receiver (v : value) :
  textual v = true ->
  string_receiver (or_else v (VStr [])) = Some (fieldText v).
Proof.
  intros H. unfold fieldText.
  destruct (textual_cases _ H) as [E | [x [t E]]].
  - rewrite (or_else_absent _ _ E), E. reflexivity.
  - rewrite E. reflexivity.
Qed.

Lemma flatTitle_text (item : record) :
  textual item.["評鑑指標"] = true ->
  flatTitle item
  = Some (replace_unit NEWLINE SPACE (fieldText item.["評鑑指標"])).
Proof.
  intros H. unfold flatTitle. rewrite (textual_receiver _ H). reflexivity.
Qed.

Lemma replace_newline_free (t : jsstring) :
  ~ In NEWLINE (replace_unit NEWLINE SPACE t).
Proof.
  unfold replace_unit. induction t as [|x t IH]; simpl; [tauto|].
  rewrite in_app_iff. intros [H | H]; [|exact (IH H)].
  destruct (x =? NEWLINE)%N eqn:E.
  - destruct H as [H | []]. discriminate.
  - destruct H as [H | []]. apply N.eqb_neq in E. congruence.
Qed.

Lemma replace_newline_length (t : jsstring) :
  length (replace_unit NEWLINE SPACE t) = length t.
Proof.
  unfold replace_unit. induction t as [|x t IH]; simpl; [reflexivity|].
  rewrite length_app, IH. destruct (x =? NEWLINE)%N; reflexivity.
Qed.

Lemma tableRow_fields (item : record) (row : Row) :
  tableRow item = Some row ->
  flatTitle item = Some (row_title row)
  /\ row_score row
     = (if strict_eq_str item.["狀態標記"] NEW_2026 then utf16 "(新增)"
        else if strict_eq_num item.["114_得分數值"] 1 then utf16 "1分"
        else if strict_eq_num item.["114_得分數值"] 0 then utf16 "0分"
        else utf16 "--").
Proof.
  unfold tableRow. destruct (flatTitle item) as [t|]; [|discriminate].
  cbn [mbind option_bind]. intros E. injection E as <-.
  cbn [row_title row_score]. split; [reflexivity|].
  destruct (strict_eq_str item.["狀態標記"] NEW_2026); [reflexivity|].
  destruct (strict_eq_num item.["114_得分數值"] 1); [reflexivity|].
  destruct (strict_eq_num item.["114_得分數值"] 0); reflexivity.
Qed.

Lemma openModal_fields (item : record) (det : Detail) :
  openModal item = Some det ->
  exists t,
    flatTitle item = Some t
    /\ detail_title det = to_string item.["編號"] ++ utf16 " — " ++ t
    /\ detail_score det
       = (if strict_eq_str item.["狀態標記"] NEW_2026 then utf16 "(新增題)"
          else if strict_eq_num item.["114_得分數值"] 1 then utf16 "✓ 得分"
          else if strict_eq_num item.["114_得分數值"] 0
               then utf16 "✗ 未得分"
               else to_string (or_else item.["114_自評得分"] (VStr NA)))
    /\ (strict_eq_str item.["狀態標記"] NEW_2026 = true ->
        detail_selfEval det = None /\ detail_gaps det = None).
Proof.
  unfold openModal. destruct (flatTitle item) as [t|]; [|discriminate].
  cbn [mbind option_bind]. intros E. injection E as <-.
  exists t. cbn [detail_title detail_score detail_selfEval detail_gaps].
  split; [reflexivity|]. split; [reflexivity|]. split.
  - destruct (strict_eq_str item.["狀態標記"] NEW_2026); [reflexivity|].
    destruct (strict_eq_num item.["114_得分數值"] 1); [reflexivity|].
    destruct (strict_eq_num item.["114_得分數值"] 0); reflexivity.
  - intros ->. split; reflexivity.
Qed.

Lemma views_total (item : record) :
  textual item.["評鑑指標"] = true ->
  textual item.["114_自評得分"] = true ->
  exists card row det,
    createCard item = Some card /\ tableRow item = Some row
    /\ openModal item = Some det.
Proof.
  intros Ht Hs.
  destruct (createCard_total item Ht Hs) as [sc [t [_ [_ Ec]]]].
  destruct (tableRow_total item Ht) as [t' [row [_ [Er _]]]].
  destruct (openModal_total item Ht) as [det [Ed _]].
  eauto 10.
Qed.

Lemma createCard_title (item : record) (card : Card) :
  createCard item = Some card ->
  exists t sc,
    flatTitle item = Some t /\ cardScore item = Some sc
    /\ card_title card = firstn 100 t
    /\ card_score card
       = (if strict_eq_str item.["狀態標記"] NEW_2026 then utf16 "(新增)"
          else snd sc).
Proof.
  unfold createCard.
  destruct (cardScore item) as [sc|]; [|discriminate].
  destruct (flatTitle item) as [t|]; [|discriminate].
  cbn [mbind option_bind]. intros E. injection E as <-.
  exists t, sc. repeat split; reflexivity.
Qed.

Lemma replace_newline_map (t : jsstring) :
  replace_unit NEWLINE SPACE t
  = map (fun c => if (c =? NEWLINE)%N then 32%N else c) t.
Proof.
  unfold replace_unit. induction t as [|x t IH]; [reflexivity|].
  cbn [flat_map map]. rewrite IH. destruct (x =? NEWLINE)%N; reflexivity.
Qed.

(** X12. The title in the three views, for a record whose title and score
    text hold text.  The table row shows the title with every newline
    turned into a space and every other code unit kept: it has no newline
    and the length of the title.  The card shows its first 100 code units,
    hence the whole of it when it is no longer than that, and the overlay
    shows it whole after the id and a dash. *)
Theorem title_across_views (item : record) :
  textual item.["評鑑指標"] = true ->
  textual item.["114_自評得分"] = true ->
  exists card row det,
    createCard item = Some card
    /\ tableRow item = Some row
    /\ openModal item = Some det
    /\ row_title row
       = map (fun c => if (c =? NEWLINE)%N then 32%N else c)
             (fieldText item.["評鑑指標"])
    /\ ~ In NEWLINE (row_title row)
    /\ length (row_title row) = length (fieldText item.["評鑑指標"])
    /\ card_title card = firstn 100 (row_title row)
    /\ length (card_title card) <= 100
    /\ (length (fieldText item.["評鑑指標"]) <= 100 ->
        card_title card = row_title row)
    /\ detail_title det
       = to_string item.["編號"] ++ utf16 " — " ++ row_title row.
Proof.
  intros Ht Hs.
  destruct (views_total item Ht Hs) as [card [row [det [Ec [Er Ed]]]]].
  exists card, row, det.
  split; [exact Ec|]. split; [exact Er|]. split; [exact Ed|].
  pose proof (flatTitle_text item Ht) as Et.
  destruct (tableRow_fields _ _ Er) as [Etr _].
  destruct (createCard_title _ _ Ec) as [t [sc [Etc [_ [Ect _]]]]].
  destruct (openModal_fields _ _ Ed) as [t' [Etd [Edt _]]].
  rewrite Et in Etr, Etc, Etd.
  injection Etr as Etr. injection Etc as <-. injection Etd as <-.
  rewrite <- Etr.
  split; [apply replace_newline_map|].
  split; [apply replace_newline_free|].
  split; [apply replace_newline_length|].
  split; [exact Ect|].
  split; [rewrite Ect; apply firstn_le_length|].
  split; [|exact Edt].
  intros Hlen. rewrite Ect. apply firstn_all2.
  rewrite replace_newline_length. exact Hlen.
Qed.

(** X13. The score in the table and on the card, for a record whose title
    and score text hold text.  The two agree for a New record, for a
    numeric score of 1 or 0 and when there is no score text.  They differ
    for every other record with a score text: the card shows its first six
    code units, the table row shows the placeholder. *)
Theorem score_in_table_and_card (item : record) :
  textual item.["評鑑指標"] = true ->
  textual item.["114_自評得分"] = true ->
  exists card row,
    createCard item = Some card
    /\ tableRow item = Some row
    /\ (item.["狀態標記"] = VStr NEW_2026
        \/ item.["114_得分數值"] = VNum 1
        \/ item.["114_得分數值"] = VNum 0
        \/ absent item.["114_自評得分"] ->
        row_score row = card_score card)
    /\ (item.["狀態標記"] <> VStr NEW_2026 ->
        item.["114_得分數值"] <> VNum 1 ->
        item.["114_得分數值"] <> VNum 0 ->
        forall s,
          item.["114_自評得分"] = VStr s -> s <> [] ->
          row_score row = utf16 "--" /\ card_score card = firstn 6 s).
Proof.
  intros Ht Hs.
  destruct (views_total item Ht Hs) as [card [row [_ [Ec [Er _]]]]].
  exists card, row. split; [exact Ec|]. split; [exact Er|].
  destruct (tableRow_fields _ _ Er) as [_ Ers].
  destruct (createCard_title _ _ Ec) as [t [sc [_ [Esc [_ Ecs]]]]].
  rewrite Ers, Ecs. unfold cardScore in Esc. clear Ers Ecs Ec Er.
  split.
  - intros H.
    destruct (strict_eq_str item.["狀態標記"] NEW_2026) eqn:En;
      [reflexivity|].
    destruct (strict_eq_num item.["114_得分數值"] 1) eqn:E1;
      [injection Esc as <-; reflexivity|].
    destruct (strict_eq_num item.["114_得分數值"] 0) eqn:E0;
      [injection Esc as <-; reflexivity|].
    apply strict_eq_str_false in En. apply strict_eq_num_false in E1, E0.
    destruct H as [H | [H | [H | H]]]; try contradiction.
    rewrite (or_else_absent _ _ H) in Esc. injection Esc as <-.
    reflexivity.
  - intros Hn H1 H0 s Es Hne.
    apply strict_eq_str_false in Hn. apply strict_eq_num_false in H1, H0.
    rewrite Hn, H1, H0. rewrite H1, H0, Es in Esc.
    destruct s as [|x s]; [congruence|].
    injection Esc as <-. split; reflexivity.
Qed.

(** X14. The score in the overlay and on the card, for a record whose
    title and score text hold text.  A New record shows the new-item text
    in the overlay and neither its prior-year note nor its gap notes, even
    when it has them.  For another record without a numeric score of 1 or
    0 the overlay shows the whole score text and the card its first six
    code units; without a score text the overlay shows "N/A" where the card
    shows "--". *)
Theorem score_in_overlay_and_card (item : record) :
  textual item.["評鑑指標"] = true ->
  textual item.["114_自評得分"] = true ->
  exists card det,
    createCard item = Some card
    /\ openModal item = Some det
    /\ (item.["狀態標記"] = VStr NEW_2026 ->
        detail_score det = utf16 "(新增題)"
        /\ detail_selfEval det = None
        /\ detail_gaps det = None)
    /\ (item.["狀態標記"] <> VStr NEW_2026 ->
        item.["114_得分數值"] <> VNum 1 ->
        item.["114_得分數值"] <> VNum 0 ->
        (forall s,
           item.["114_自評得分"] = VStr s -> s <> [] ->
           detail_score det = s
           /\ card_score card = firstn 6 (detail_score det))
        /\ (absent item.["114_自評得分"] ->
            detail_score det = NA /\ card_score card = utf16 "--")).
Proof.
  intros Ht Hs.
  destruct (views_total item Ht Hs) as [card [_ [det [Ec [_ Ed]]]]].
  exists card, det. split; [exact Ec|]. split; [exact Ed|].
  destruct (openModal_fields _ _ Ed) as [t' [_ [_ [Eds Enew]]]].
  destruct (createCard_title _ _ Ec) as [t [sc [_ [Esc [_ Ecs]]]]].
  rewrite Eds, Ecs. unfold cardScore in Esc. clear Eds Ecs Ec Ed.
  split.
  - intros En. apply strict_eq_str_spec in En. rewrite En.
    split; [reflexivity | apply Enew, En].
  - intros Hn H1 H0.
    apply strict_eq_str_false in Hn. apply strict_eq_num_false in H1, H0.
    rewrite Hn, H1, H0. rewrite H1, H0 in Esc. split.
    + intros s Es Hne. rewrite Es in Esc |- *.
      destruct s as [|x s]; [congruence|].
      injection Esc as <-. split; reflexivity.
    + intros Ha. rewrite (or_else_absent _ (VStr []) Ha) in Esc.
      rewrite (or_else_absent _ (VStr NA) Ha).
      injection Esc as <-. split; reflexivity.
Qed.

(** *** The export read back *)

Lemma exportCSV_lines (filteredData : list record) :
  exportCSV filteredData
  = BOM ++ concat (map (fun r => r ++ [NEWLINE])
                       (csvHeader :: map csvRow filteredData)).
Proof.
  unfold exportCSV. rewrite fold_left_append, csv_rows_text.
  cbn [map concat]. fold csvHeader. rewrite <- !app_assoc. reflexivity.
Qed.

Lemma escapeUnit_newline_free (x : N) : ~ In NEWLINE (escapeUnit x).
Proof.
  unfold escapeUnit. destruct (x =? QUOTE)%N.
  - intros [H | [H | []]]; discriminate.
  - destruct (x =? NEWLINE)%N eqn:E.
    + intros [H | []]. discriminate.
    + intros [H | []]. apply N.eqb_neq in E. congruence.
Qed.

Lemma quotedCell_newline_free (text : jsstring) :
  ~ In NEWLINE (quotedCell text).
Proof.
  unfold quotedCell. simpl. intros [H | H]; [discriminate|].
  apply in_app_iff in H. destruct H as [H | [H | []]]; [|discriminate].
  apply in_flat_map in H. destruct H as [x [_ Hx]].
  exact (escapeUnit_newline_free x Hx).
Qed.

Lemma join_newline_free (cells : list jsstring) :
  Forall (fun c => ~ In NEWLINE c) cells ->
  ~ In NEWLINE (join_str COMMA cells).
Proof.
  induction 1 as [|c cells Hc _ IH]; [intros []|].
  destruct cells as [|c' cells]; [exact Hc|].
  change (join_str COMMA (c :: c' :: cells))
    with (c ++ COMMA ++ join_str COMMA (c' :: cells)).
  rewrite !in_app_iff. intros [H | [[H | []] | H]]; auto. discriminate.
Qed.

Lemma csvRow_newline_free (d : record) : ~ In NEWLINE (csvRow d).
Proof.
  apply join_newline_free, List.Forall_forall. intros c Hc.
  apply in_map_iff in Hc. destruct Hc as [h [<- _]].
  apply quotedCell_newline_free.
Qed.

Lemma csvHeader_newline_free : ~ In NEWLINE csvHeader.
Proof.
  apply join_newline_free. unfold headers. repeat constructor;
    vm_compute; intuition discriminate.
Qed.

Lemma count_newline_free (l : jsstring) :
  ~ In NEWLINE l -> count_occ N.eq_dec l NEWLINE = 0.
Proof. apply count_occ_not_In. Qed.

Lemma count_lines (lines : list jsstring) :
  Forall (fun l => ~ In NEWLINE l) lines ->
  count_occ N.eq_dec (concat (map (fun r => r ++ [NEWLINE]) lines)) NEWLINE
  = length lines.
Proof.
  induction 1 as [|l lines Hl _ IH]; [reflexivity|].
  cbn [map concat length]. rewrite !count_occ_app, IH.
  rewrite (count_newline_free l Hl). reflexivity.
Qed.

Lemma forallb_false {A} (f : A -> bool) (l : list A) :
  forallb f l = false <-> exists x, In x l /\ f x = false.
Proof.
  induction l as [|y l IH]; cbn [forallb].
  - split; [discriminate | intros [x [[] _]]].
  - rewrite andb_false_iff, IH. split.
    + intros [H | [x [Hx Hf]]]; [exists y | exists x]; simpl; auto.
    + intros [x [[<- | Hx] Hf]]; [left; exact Hf | right; eauto].
Qed.

Lemma exportConverts_spec (d : record) :
  Strict.exportConverts d = false
  <-> exists h, In h columnNames /\ converts d.[h] = false.
Proof.
  unfold Strict.exportConverts. change headers with columnNames.
  rewrite forallb_false. split; intros [h [Hh Hc]]; exists h;
    (split; [exact Hh|]); rewrite converts_or_else in *; exact Hc.
Qed.

(** X15. The lines of the export.  The export raises exactly when an
    exported field of a filtered record is an object with a [toString] key
    of its own, or an array holding one.  Otherwise it builds its text,
    and no line of it has a newline inside: the text is the byte-order
    mark and the lines, the header and one per filtered record, each
    ended by a newline, so that the number of newlines in it is the
    number of filtered records plus one. *)
Theorem exportCSV_line_count (filteredData : list record) :
  (Strict.exportCSV filteredData = None
   <-> exists d h,
         In d filteredData /\ In h columnNames /\ converts d.[h] = false)
  /\ (forall csv,
        Strict.exportCSV filteredData = Some csv ->
        csv = exportCSV filteredData
        /\ csv
           = BOM ++ concat (map (fun r => r ++ [NEWLINE])
                               (csvHeader :: map csvRow filteredData))
        /\ Forall (fun l => ~ In NEWLINE l)
             (csvHeader :: map csvRow filteredData)
        /\ count_occ N.eq_dec csv NEWLINE = S (length filteredData)).
Proof.
  assert (H : Forall (fun l => ~ In NEWLINE l)
                (csvHeader :: map csvRow filteredData)).
  { constructor; [apply csvHeader_newline_free|].
    apply List.Forall_forall. intros l Hl.
    apply in_map_iff in Hl. destruct Hl as [d [<- _]].
    apply csvRow_newline_free. }
  unfold Strict.exportCSV. split.
  - destruct (forallb Strict.exportConverts filteredData) eqn:E.
    + split; [discriminate|]. intros [d [h [Hd [Hh Hc]]]].
      rewrite forallb_forall in E. specialize (E d Hd).
      assert (Ef : Strict.exportConverts d = false)
        by (apply exportConverts_spec; eauto).
      congruence.
    + split; [|reflexivity]. intros _.
      apply forallb_false in E. destruct E as [d [Hd Hc]].
      apply exportConverts_spec in Hc. destruct Hc as [h [Hh Hc]]. eauto.
  - intros csv E.
    destruct (forallb Strict.exportConverts filteredData); [|discriminate].
    injection E as <-. split; [reflexivity|].
    split; [apply exportCSV_lines|]. split; [exact H|].
    rewrite exportCSV_lines, count_occ_app, (count_lines _ H).
    cbn [length]. rewrite length_map. reflexivity.
Qed.

Lemma readRow_cell (text cell rest : jsstring) :
  readRow InCell cell (flat_map escapeUnit text ++ QUOTE :: rest)
  = readRow QuoteSeen (cell ++ replace_unit NEWLINE SPACE text) rest.
Proof.
  revert cell; induction text as [|x text IH]; intros cell.
  - simpl. rewrite app_nil_r. reflexivity.
  - cbn [flat_map]. unfold replace_unit in *. cbn [flat_map].
    unfold escapeUnit at 1.
    destruct (x =? QUOTE)%N eqn:Eq.
    + apply N.eqb_eq in Eq. subst x. simpl.
      rewrite IH, <- app_assoc. reflexivity.
    + destruct (x =? NEWLINE)%N eqn:En.
      * simpl. rewrite IH, <- app_assoc. reflexivity.
      * simpl. rewrite Eq, IH, <- app_assoc. reflexivity.
Qed.

Lemma readRow_next (cell rest : jsstring) :
  readRow QuoteSeen cell (COMMA ++ rest)
  = cells ← readRow CellStart [] rest; Some (cell :: cells).
Proof. reflexivity. Qed.

Lemma readRow_cells (text : jsstring) (texts : list jsstring) :
  readRow CellStart [] (join_str COMMA (map quotedCell (text :: texts)))
  = Some (map (replace_unit NEWLINE SPACE) (text :: texts)).
Proof.
  revert text; induction texts as [|text' texts IH]; intros text.
  - cbn [map join_str]. unfold quotedCell.
    change (readRow InCell [] (flat_map escapeUnit text ++ [QUOTE])
            = Some [replace_unit NEWLINE SPACE text]).
    rewrite readRow_cell. reflexivity.
  - change (join_str COMMA (map quotedCell (text :: text' :: texts)))
      with (quotedCell text ++ COMMA
              ++ join_str COMMA (map quotedCell (text' :: texts))).
    set (next := join_str COMMA (map quotedCell (text' :: texts))) in *.
    unfold quotedCell.
    replace (([QUOTE] ++ flat_map escapeUnit text ++ [QUOTE]) ++ COMMA ++ next)
      with (QUOTE :: (flat_map escapeUnit text ++ QUOTE :: (COMMA ++ next)))
      by (simpl; rewrite <- app_assoc; reflexivity).
    change (readRow InCell []
              (flat_map escapeUnit text ++ QUOTE :: (COMMA ++ next))
            = Some (map (replace_unit NEWLINE SPACE) (text :: text' :: texts))).
    rewrite readRow_cell, readRow_next. subst next. rewrite IH.
    reflexivity.
Qed.

(** X16. A row of the export reads back.  The export of one record is the
    header line and the row of the record; a reader of quoted,
    comma-separated cells splits that row into eight cells, and each cell
    is the text of its field with the newlines turned into spaces, whatever
    quotes and commas the text holds. *)
Theorem exportCSV_row_reads_back (d : record) :
  exportCSV [d]
  = BOM ++ csvHeader ++ [NEWLINE]
      ++ join_str COMMA (map (csvCell d) headers) ++ [NEWLINE]
  /\ readRow CellStart [] (join_str COMMA (map (csvCell d) headers))
     = Some (map (fun h => replace_unit NEWLINE SPACE (fieldText d.[h]))
                 headers)
  /\ length (map (fun h => replace_unit NEWLINE SPACE (fieldText d.[h]))
                 headers) = 8.
Proof.
  split; [|split; [|reflexivity]].
  - unfold exportCSV. cbn [fold_left]. fold csvHeader.
    rewrite <- !app_assoc. reflexivity.
  - rewrite (map_ext _ _ (csvCell_spec d)).
    exact (readRow_cells (fieldText d.["編號"])
             (map (fun h => fieldText d.[h]) (List.tl headers))).
Qed.

(** *** The view controller *)

Lemma sublist_shaped (l1 l2 : list record) :
  sublist l1 l2 ->
  Forall (fun d => shaped d = true) l2 ->
  Forall (fun d => shaped d = true) l1.
Proof.
  induction 1 as [|x l1 l2 _ IH|x l1 l2 _ IH]; intros H.
  - constructor.
  - inversion H; subst. constructor; auto.
  - inversion H; subst. auto.
Qed.

Lemma renderTable_total (filteredData : list record) :
  Forall (fun d => shaped d = true) filteredData ->
  exists rows, renderTable filteredData = Some rows.
Proof.
  intros H. unfold renderTable.
  assert (Hs : is_Some (mapM tableRow filteredData)).
  { apply mapM_is_Some. eapply List.Forall_impl; [|exact H].
    intros d Hd. apply shaped_spec in Hd. destruct Hd as [Ht _].
    destruct (tableRow_total d Ht) as [t [row [_ [E _]]]].
    simpl. rewrite E. eauto. }
  destruct Hs as [rows E]. eauto.
Qed.

Lemma renderKanbanColumns_total (localeCompare : jsstring -> jsstring -> Z)
      (filteredData : list record) :
  Forall (fun d => shaped d = true) filteredData ->
  exists cols, renderKanbanColumns localeCompare filteredData = Some cols.
Proof.
  intros H. destruct (board_columns localeCompare _ H)
    as [g [cols [_ [_ [E _]]]]].
  eauto.
Qed.

Lemma openModal_shaped (item : record) :
  shaped item = true -> exists det, openModal item = Some det.
Proof.
  intros H. apply shaped_spec in H. destruct H as [Ht _].
  destruct (openModal_total item Ht) as [det [E _]]. eauto.
Qed.

(** *** The handlers and their exceptions *)

Lemma plain_shaped (l : list record) :
  Forall plain l -> Forall (fun d => shaped d = true) l.
Proof. apply List.Forall_impl. intros d [H _]. exact H. Qed.

Lemma sublist_plain (l1 l2 : list record) :
  sublist l1 l2 -> Forall plain l2 -> Forall plain l1.
Proof.
  induction 1 as [|x l1 l2 _ IH|x l1 l2 _ IH]; intros H.
  - constructor.
  - inversion H; subst. constructor; auto.
  - inversion H; subst. auto.
Qed.

Lemma plain_cardConverts (d : record) :
  plain d -> Strict.cardConverts d = true.
Proof.
  intros [_ [H _]]. unfold Strict.cardConverts.
  rewrite !converts_or_else, !H. reflexivity.
Qed.

Lemma plain_rowConverts (d : record) :
  plain d -> Strict.rowConverts d = true.
Proof.
  intros [_ [H _]]. unfold Strict.rowConverts.
  rewrite !converts_or_else, !H. reflexivity.
Qed.

Lemma plain_detailConverts (d : record) :
  plain d -> Strict.detailConverts d = true.
Proof. intros [_ [H _]]. apply fields_detailConverts, H. Qed.

Lemma plain_openModal (d : record) :
  plain d -> Strict.openModal d = openModal d.
Proof.
  intros Hp. unfold Strict.openModal.
  rewrite (plain_detailConverts d Hp).
  destruct Hp as [_ [_ Ha]].
  rewrite aiSection_returns
    by (apply List.Forall_forall; intros k _; apply Ha).
  destruct (openModal d); reflexivity.
Qed.

Lemma plain_keep (toLowerCase : jsstring -> jsstring) (c : Controls)
      (d : record) :
  plain d -> Strict.keep toLowerCase c d = Some (keep toLowerCase c d).
Proof.
  intros [_ [H _]]. unfold Strict.keep, keep.
  destruct (truthy (VStr (filterFace c))
            && negb (strict_eq_str d.["構面"] (filterFace c)));
    [reflexivity|].
  destruct (truthy (VStr (filterStatus c))
            && negb (strict_eq_str d.["狀態標記"] (filterStatus c)));
    [reflexivity|].
  destruct (truthy (VStr (filterDept c))
            && negb (strict_eq_str d.["114_相關負責部門"] (filterDept c)));
    [reflexivity|].
  destruct (truthy (VStr (trim (toLowerCase (searchInput c)))));
    [|reflexivity].
  unfold Strict.haystack.
  assert (E : forallb converts
                (List.filter truthy
                   [d.["編號"]; d.["評鑑指標"]; d.["指標說明"];
                    d.["114_自評來源及說明"]; d.["114_相關負責部門"]])
              = true).
  { apply forallb_forall. intros v Hv. apply filter_In in Hv.
    destruct Hv as [Hv _].
    repeat (destruct Hv as [<- | Hv]; [apply H|]). destruct Hv. }
  rewrite E. reflexivity.
Qed.

Lemma plain_applyFilters (toLowerCase : jsstring -> jsstring)
      (allData : list record) (c : Controls) :
  Forall plain allData ->
  Strict.applyFilters toLowerCase allData c
  = Some (applyFilters toLowerCase allData c).
Proof.
  intros H. unfold Strict.applyFilters, applyFilters.
  apply filterM_total. intros d Hd. apply plain_keep.
  rewrite List.Forall_forall in H. apply H, Hd.
Qed.

Lemma plain_viewConverts (view : View) (l : list record) :
  Forall plain l -> Strict.viewConverts view l = true.
Proof.
  intros H. rewrite List.Forall_forall in H.
  destruct view; cbn [Strict.viewConverts]; apply forallb_forall;
    intros d Hd; [apply plain_cardConverts | apply plain_rowConverts];
    apply H, Hd.
Qed.

(** When the filter with its exceptions returns, it returns the filtered
    set. *)
Lemma applyFilters_returns (toLowerCase : jsstring -> jsstring)
      (allData kept : list record) (c : Controls) :
  Strict.applyFilters toLowerCase allData c = Some kept ->
  kept = applyFilters toLowerCase allData c.
Proof.
  unfold Strict.applyFilters, applyFilters. revert kept.
  induction allData as [|d l IH]; intros kept E.
  - injection E as <-. reflexivity.
  - cbn [filterM List.filter] in *.
    destruct (Strict.keep toLowerCase c d) as [b|] eqn:Ek; [|discriminate].
    cbn [mbind option_bind] in E.
    destruct (filterM (Strict.keep toLowerCase c) l) as [kept'|];
      [|discriminate].
    cbn [mbind option_bind] in E. injection E as <-.
    rewrite <- (IH kept' eq_refl).
    assert (Eb : b = keep toLowerCase c d).
    { revert Ek. unfold Strict.keep, keep, Strict.haystack.
      destruct (truthy (VStr (filterFace c))
                && negb (strict_eq_str d.["構面"] (filterFace c)));
        [congruence|].
      destruct (truthy (VStr (filterStatus c))
                && negb (strict_eq_str d.["狀態標記"] (filterStatus c)));
        [congruence|].
      destruct (truthy (VStr (filterDept c))
                && negb (strict_eq_str d.["114_相關負責部門"]
                           (filterDept c)));
        [congruence|].
      destruct (truthy (VStr (trim (toLowerCase (searchInput c)))));
        [|congruence].
      destruct (forallb converts _); cbn [mbind option_bind];
        [congruence | discriminate]. }
    rewrite <- Eb. reflexivity.
Qed.

(** On a page of plain records no conversion of a handler raises: the
    handler with its exceptions is the handler. *)
Lemma plain_step (toLowerCase : jsstring -> jsstring)
      (localeCompare : jsstring -> jsstring -> Z) (s : UI) (ev : Event) :
  Forall plain (ui_allData s) ->
  sublist (ui_filteredData s) (ui_allData s) ->
  (forall item, ev = ClickCard item -> In item (ui_allData s)) ->
  Strict.step toLowerCase localeCompare s ev
  = step toLowerCase localeCompare s ev.
Proof.
  intros Hp Hsub Hc.
  pose proof (sublist_plain _ _ Hsub Hp) as Hf.
  destruct ev as [c| | | |item| |bg|key]; cbn [Strict.step];
    try reflexivity.
  - rewrite (plain_applyFilters _ _ _ Hp). cbn [mbind option_bind].
    rewrite plain_viewConverts; [reflexivity|].
    apply (sublist_plain _ _ (lfilter_sublist _ _) Hp).
  - rewrite (plain_viewConverts _ _ Hf). reflexivity.
  - rewrite (plain_viewConverts _ _ Hf). reflexivity.
  - assert (Hi : plain item).
    { rewrite List.Forall_forall in Hp. apply Hp, (Hc item eq_refl). }
    rewrite (plain_openModal _ Hi). cbn [step]. unfold openModalStep.
    destruct (openModal item); reflexivity.
Qed.

Section ControllerFacts.

Variable toLowerCase : jsstring -> jsstring.
Variable localeCompare : jsstring -> jsstring -> Z.

Lemma filtered_shaped (s : UI) :
  Forall (fun d => shaped d = true) (ui_allData s) ->
  Forall (fun d => shaped d = true)
    (applyFilters toLowerCase (ui_allData s) (ui_controls s)).
Proof.
  apply sublist_shaped, lfilter_sublist.
Qed.

Ltac render_view Hfd :=
  cbn [renderViewStep];
  first
    [ progress unfold renderKanbanStep;
      let cols := fresh "cols" in
      let Ec := fresh "Ec" in
      destruct (renderKanbanColumns_total localeCompare _ Hfd) as [cols Ec];
      cbn [ui_filteredData] in *; rewrite Ec
    | progress unfold renderTableStep;
      let rows := fresh "rows" in
      let Er := fresh "Er" in
      destruct (renderTable_total _ Hfd) as [rows Er];
      cbn [ui_filteredData] in *; rewrite Er ];
  eexists; split; [reflexivity|]; cbn.

Lemma filters_render (s : UI) :
  Forall (fun d => shaped d = true) (ui_allData s) ->
  exists s',
    step toLowerCase localeCompare s FiltersChanged = Some s'
    /\ ui_filteredData s'
       = applyFilters toLowerCase (ui_allData s) (ui_controls s)
    /\ inSync localeCompare s'
    /\ (ui_currentView s = Kanban -> ui_tableBody s' = ui_tableBody s)
    /\ (ui_currentView s = Table -> ui_board s' = ui_board s)
    /\ ui_currentView s' = ui_currentView s
    /\ ui_allData s' = ui_allData s
    /\ ui_controls s' = ui_controls s
    /\ ui_modalHidden s' = ui_modalHidden s
    /\ ui_modalBody s' = ui_modalBody s.
Proof.
  intros Hsh. pose proof (filtered_shaped s Hsh) as Hfd.
  cbn [step]. unfold applyFiltersStep.
  destruct (ui_currentView s) eqn:Ev; render_view Hfd;
    unfold inSync; cbn;
    repeat split; try reflexivity; try discriminate;
    try apply lfilter_sublist; eauto.
Qed.

(** X17. A filter change renders the current view only.  For loaded
    records that are plain (the documented shape, and no field and no
    property of the AI suggestion an object with a [toString] key of its
    own or an array holding one), the handler of a filter change raises
    no exception: it sets the filtered set to the loaded records that
    match the controls, shows its counts in the stats bar and renders it
    in the current view; the other view keeps what it held, and neither
    the view mode nor the overlay changes. *)
Theorem filters_changed_renders_current_view (s : UI) :
  Forall plain (ui_allData s) ->
  exists s',
    Strict.step toLowerCase localeCompare s FiltersChanged = Some s'
    /\ ui_filteredData s'
       = applyFilters toLowerCase (ui_allData s) (ui_controls s)
    /\ inSync localeCompare s'
    /\ (ui_currentView s = Kanban -> ui_tableBody s' = ui_tableBody s)
    /\ (ui_currentView s = Table -> ui_board s' = ui_board s)
    /\ ui_currentView s' = ui_currentView s
    /\ ui_allData s' = ui_allData s
    /\ ui_controls s' = ui_controls s
    /\ ui_modalHidden s' = ui_modalHidden s
    /\ ui_modalBody s' = ui_modalBody s.
Proof.
  intros Hp.
  destruct (filters_render s (plain_shaped _ Hp)) as [s' [E H]].
  exists s'. split; [|exact H].
  cbn [Strict.step]. rewrite (plain_applyFilters _ _ _ Hp).
  cbn [mbind option_bind]. rewrite plain_viewConverts; [exact E|].
  apply (sublist_plain _ _ (lfilter_sublist _ _) Hp).
Qed.


Lemma step_invariant (s : UI) (ev : Event) :
  Forall (fun d => shaped d = true) (ui_allData s) ->
  inSync localeCompare s ->
  viewShown s ->
  modalConsistent s ->
  (forall item, ev = ClickCard item -> In item (ui_allData s)) ->
  exists s',
    step toLowerCase localeCompare s ev = Some s'
    /\ inSync localeCompare s'
    /\ viewShown s'
    /\ modalConsistent s'
    /\ ui_allData s' = ui_allData s.
Proof.
  intros Hsh Hin Hv Hm Hc.
  pose proof (filtered_shaped s Hsh) as Hfd.
  assert (Hfs : Forall (fun d => shaped d = true) (ui_filteredData s)).
  { destruct Hin as [Hsub _]. exact (sublist_shaped _ _ Hsub Hsh). }
  destruct ev as [c| | | |item| |bg|key]; cbn [step].
  - eexists. split; [reflexivity|].
    split; [exact Hin | split; [exact Hv | split; [exact Hm|reflexivity]]].
  - unfold applyFiltersStep. destruct Hv as [V1 [V2 [V3 V4]]].
    destruct (ui_currentView s) eqn:Ev; render_view Hfd;
      unfold inSync, viewShown; cbn; rewrite ?Ev;
      repeat split; try assumption; try apply lfilter_sublist; eauto.
  - unfold switchView. destruct Hin as [I1 [I2 _]].
    render_view Hfs. unfold inSync, viewShown. cbn.
    repeat split; try assumption; eauto.
  - unfold switchView. destruct Hin as [I1 [I2 _]].
    render_view Hfs. unfold inSync, viewShown. cbn.
    repeat split; try assumption; eauto.
  - assert (Hi : shaped item = true).
    { rewrite List.Forall_forall in Hsh. apply Hsh, (Hc item eq_refl). }
    destruct (openModal_shaped item Hi) as [det Ed].
    unfold openModalStep. rewrite Ed. eexists. split; [reflexivity|].
    split; [exact Hin | split; [exact Hv | split; [|reflexivity]]].
    right. split; reflexivity.
  - eexists. split; [reflexivity|].
    split; [exact Hin | split; [exact Hv | split; [|reflexivity]]].
    left. split; reflexivity.
  - destruct bg; eexists; (split; [reflexivity|]).
    + split; [exact Hin | split; [exact Hv | split; [|reflexivity]]].
      left. split; reflexivity.
    + split; [exact Hin | split; [exact Hv | split; [exact Hm|reflexivity]]].
  - destruct (str_eqb key (utf16 "Escape")); eexists;
      (split; [reflexivity|]).
    + split; [exact Hin | split; [exact Hv | split; [|reflexivity]]].
      left. split; reflexivity.
    + split; [exact Hin | split; [exact Hv | split; [exact Hm|reflexivity]]].
Qed.

(** X19. Whatever the user does, the page shows the filtered set.  From a
    page whose loaded records are plain, whose current view and stats bar
    show the filtered set, whose visible view is the current one and which
    scrolls exactly when the overlay is hidden, every sequence of control
    edits, filter runs, view switches, clicks on cards of loaded records,
    and closing clicks and keys runs without an exception, leaves the
    loaded records as they were and ends in a page with the same four
    properties. *)
Theorem run_keeps_page_in_sync (evs : list Event) (s : UI) :
  Forall plain (ui_allData s) ->
  inSync localeCompare s ->
  viewShown s ->
  modalConsistent s ->
  clicksWithin (ui_allData s) evs ->
  exists s',
    Strict.run toLowerCase localeCompare s evs = Some s'
    /\ inSync localeCompare s'
    /\ viewShown s'
    /\ modalConsistent s'
    /\ ui_allData s' = ui_allData s.
Proof.
  revert s. induction evs as [|ev evs IH]; intros s Hp Hin Hv Hm Hc.
  - exists s. split; [reflexivity|].
    split; [exact Hin | split; [exact Hv | split; [exact Hm|reflexivity]]].
  - assert (Hce : forall item, ev = ClickCard item -> In item (ui_allData s)).
    { intros item ->. apply Hc. left. reflexivity. }
    destruct (step_invariant s ev (plain_shaped _ Hp) Hin Hv Hm Hce)
      as [s1 [E1 [Hin1 [Hv1 [Hm1 Ea]]]]].
    destruct (IH s1) as [s' [E' [Hin' [Hv' [Hm' Ea']]]]];
      try assumption.
    + rewrite Ea. exact Hp.
    + rewrite Ea. intros item Hi. apply Hc. right. exact Hi.
    + exists s'. cbn [Strict.run].
      rewrite (plain_step _ _ s ev Hp (proj1 Hin) Hce), E1.
      cbn [mbind option_bind].
      split; [exact E'|].
      split; [exact Hin' | split; [exact Hv' | split; [exact Hm'|]]].
      congruence.
Qed.


(** X21. A failed load.  When the first file answers [ok] with a body that
    cannot be read, or does not answer [ok] and the second file cannot be
    read, the loader writes its notice to the board and loads nothing; the
    filter run that follows on a fresh page then renders the empty board
    over the notice: the page ends with no column, no notice, and a stats
    bar of zeros. *)
Theorem init_failed_load (primary fallback : Fetch) (s : UI) :
  loadFails primary fallback ->
  freshPage s ->
  exists loaded s',
    loadDataStep primary fallback s = Some loaded
    /\ ui_board loaded = BoardNotice LOAD_FAILED
    /\ ui_allData loaded = []
    /\ ui_deptOptions loaded = ui_deptOptions s
    /\ init toLowerCase localeCompare primary fallback s = Some s'
    /\ ui_board s' = BoardColumns []
    /\ ui_allData s' = []
    /\ ui_filteredData s' = []
    /\ ui_stats s' = renderStats [].
Proof.
  intros Hf [Ea [Ef Ev]].
  assert (E : exists t,
             loadDataStep primary fallback s = Some t
             /\ ui_board t = BoardNotice LOAD_FAILED
             /\ ui_allData t = ui_allData s
             /\ ui_deptOptions t = ui_deptOptions s
             /\ ui_currentView t = ui_currentView s).
  { unfold loadDataStep.
    destruct Hf as [-> | [[-> | [j ->]] [-> | [ok ->]]]]; cbn;
      eexists; repeat split; reflexivity. }
  destruct E as [t [Et [Eb [Eat [Eo Evt]]]]].
  exists t. unfold init. rewrite Et. cbn [mbind option_bind].
  unfold applyFiltersStep. rewrite Evt, Ev, Eat, Ea.
  cbn. eexists. repeat split; try assumption; reflexivity.
Qed.

(** X22. A successful load.  When the loader is handed an array of
    objects (the body of the first file if it answers [ok], else the body
    of the second file whatever its [ok] flag) in which no id is an object
    with a [toString] key of its own, or an array holding one, and whose
    entries with an indicator code are plain, the start of the page raises
    no exception and ends with exactly these entries loaded, in their
    order, one option per department appended to the select in code-unit
    order, and the records matching the controls counted in the stats bar
    and rendered on the board. *)
Theorem init_loaded (primary fallback : Fetch) (payload : list record)
        (s : UI) :
  loadReads primary fallback payload ->
  Forall (fun d => converts d.["編號"] = true) payload ->
  (forall d, In d payload -> carriesCode (VObj d) = true -> plain d) ->
  freshPage s ->
  exists loaded names s',
    loadRecords payload = Some loaded
    /\ loaded = List.filter (fun d => carriesCode (VObj d)) payload
    /\ collectDepts loaded = map VStr names
    /\ Strict.init toLowerCase localeCompare primary fallback s = Some s'
    /\ ui_allData s' = loaded
    /\ ui_deptOptions s' = ui_deptOptions s ++ sort unit_compare names
    /\ ui_filteredData s'
       = applyFilters toLowerCase loaded (ui_controls s)
    /\ inSync localeCompare s'
    /\ ui_currentView s' = Kanban
    /\ ui_controls s' = ui_controls s.
Proof.
  intros Hr Hid Hpl [Ea [Ef Ev]].
  set (loaded := List.filter (fun d => carriesCode (VObj d)) payload).
  assert (El : loadRecords payload = Some loaded).
  { apply filterM_total. intros d Hd. apply isIndicator_spec.
    rewrite List.Forall_forall in Hid. exact (Hid d Hd). }
  assert (Hp : Forall plain loaded).
  { apply List.Forall_forall. intros d Hd. apply filter_In in Hd.
    destruct Hd as [Hd Hc]. exact (Hpl d Hd Hc). }
  assert (Hd : Forall (fun d => textual d.["114_相關負責部門"] = true)
                      loaded).
  { eapply List.Forall_impl; [|exact (plain_shaped _ Hp)].
    intros d Hd. apply shaped_spec in Hd. tauto. }
  destruct (collectDepts_spec _ Hd) as [names [Ed _]].
  exists loaded, names.
  assert (Eok : exists ok,
             fetchData primary fallback = Response ok (Some payload)).
  { destruct Hr as [-> | [[-> | [j ->]] [ok ->]]]; cbn; eauto. }
  destruct Eok as [ok Eok].
  set (s1 := {| ui_allData := loaded;
                ui_filteredData := ui_filteredData s;
                ui_currentView := ui_currentView s;
                ui_controls := ui_controls s;
                ui_deptOptions := ui_deptOptions s ++ sort unit_compare names;
                ui_stats := renderStats (ui_filteredData s);
                ui_board := ui_board s;
                ui_tableBody := ui_tableBody s;
                ui_btnKanbanActive := ui_btnKanbanActive s;
                ui_btnTableActive := ui_btnTableActive s;
                ui_kanbanHidden := ui_kanbanHidden s;
                ui_tableHidden := ui_tableHidden s;
                ui_modalHidden := ui_modalHidden s;
                ui_modalBody := ui_modalBody s;
                ui_bodyOverflow := ui_bodyOverflow s |}).
  assert (E1 : loadDataStep primary fallback s = Some s1).
  { unfold loadDataStep. rewrite Eok, El.
    rewrite (populateDeptFilter_text _ _ _ Ed). reflexivity. }
  destruct (filters_render s1 (plain_shaped _ Hp))
    as [s' [Es [Efd [Hi [_ [_ [Ev' [Ea' [Ec _]]]]]]]]].
  assert (E : Strict.step toLowerCase localeCompare s1 FiltersChanged
              = Some s').
  { rewrite (plain_step toLowerCase localeCompare s1 FiltersChanged Hp);
      [exact Es | | discriminate].
    cbn [s1 ui_filteredData ui_allData]. rewrite Ef. apply sublist_nil_l. }
  exists s'. split; [exact El|]. split; [reflexivity|].
  split; [exact Ed|].
  split; [unfold Strict.init; rewrite E1; exact E|].
  split; [exact Ea'|].
  split.
  { cbn [step] in Es. unfold applyFiltersStep in Es.
    cbn [s1 ui_currentView ui_allData ui_controls ui_deptOptions] in Es.
    rewrite Ev in Es. cbn [renderViewStep] in Es.
    unfold renderKanbanStep in Es. cbn [ui_filteredData] in Es.
    destruct (renderKanbanColumns localeCompare
                (applyFilters toLowerCase loaded (ui_controls s)));
      [|discriminate].
    cbn [mbind option_bind] in Es. injection Es as <-. reflexivity. }
  split; [exact Efd|]. split; [exact Hi|].
  split; [rewrite Ev'; exact Ev | exact Ec].
Qed.

End ControllerFacts.

(** *** Debounce *)

Lemma debounceRun_app {A} (timer : option A)
      (evs1 evs2 : list (DebounceEvent A)) :
  debounceRun timer (evs1 ++ evs2)
  = (fst (debounceRun timer evs1)
       ++ fst (debounceRun (snd (debounceRun timer evs1)) evs2),
     snd (debounceRun (snd (debounceRun timer evs1)) evs2)).
Proof.
  revert timer. induction evs1 as [|ev evs1 IH]; intros timer.
  - simpl. destruct (debounceRun timer evs2). reflexivity.
  - cbn [app debounceRun]. destruct (debounceStep timer ev) as [c t].
    rewrite IH. destruct (debounceRun t evs1) as [c1 t1].
    cbn [fst snd]. rewrite app_assoc. reflexivity.
Qed.

Lemma debounceRun_invokes {A} (timer : option A) (burst : list A) :
  fst (debounceRun timer (map Invoke burst)) = [].
Proof.
  revert timer. induction burst as [|a burst IH]; intros timer.
  - reflexivity.
  - cbn [map debounceRun debounceStep].
    specialize (IH (Some a)).
    destruct (debounceRun (Some a) (map Invoke burst)) as [c t].
    cbn [fst] in *. rewrite IH. reflexivity.
Qed.

(** X23. Debouncing.  While calls of the debounced function keep coming
    before the timer runs, the wrapped function is not called; when the
    timer runs after a burst of calls, the wrapped function is called
    once, with the arguments of the last call of the burst, whatever
    timer was pending before the burst. *)
Theorem debounce_burst {A} (timer : option A) (burst : list A)
        (final : A) :
  fst (debounceRun timer (map Invoke burst)) = []
  /\ debounceRun timer (map Invoke burst ++ [Invoke final; Elapse])
     = ([final], None).
Proof.
  split; [apply debounceRun_invokes|].
  rewrite debounceRun_app, debounceRun_invokes. reflexivity.
Qed.

(** ** The program on concrete records *)

(** The fields of a record, and the properties of an object, convert
    when the values it holds do. *)
Lemma fields_convert (d : record) :
  Forall (fun kv => converts (snd kv) = true) (map_to_list d) ->
  forall k, converts d.[k] = true.
Proof.
  intros H k. unfold get. destruct (d !! k) as [v|] eqn:E; [|reflexivity].
  rewrite List.Forall_forall in H.
  apply (H (k, v)). apply list_elem_of_In, elem_of_map_to_list, E.
Qed.

Lemma props_convert (o : gmap string value) :
  Forall (fun kv => converts (snd kv) = true) (map_to_list o) ->
  forall k, converts (prop (VObj o) k) = true.
Proof. exact (fields_convert o). Qed.

(** The CSV text of one record: no department, a quote and a newline in
    the title. *)
Example exportCSV_sampleModified :
  exportCSV [sampleModified]
  = BOM ++ csvHeader ++ [NEWLINE]
      ++ [QUOTE] ++ utf16 "G-12" ++ [QUOTE] ++ COMMA
      ++ [QUOTE] ++ MODIFIED_2026 ++ [QUOTE] ++ COMMA
      ++ [QUOTE; QUOTE] ++ COMMA
      ++ [QUOTE] ++ utf16 "Board" ++ [QUOTE; QUOTE] ++ utf16 "size rule"
      ++ [QUOTE] ++ COMMA
      ++ [QUOTE; QUOTE] ++ COMMA
      ++ [QUOTE] ++ utf16 "partial credit" ++ [QUOTE] ++ COMMA
      ++ [QUOTE; QUOTE] ++ COMMA
      ++ [QUOTE; QUOTE] ++ [NEWLINE].
Proof. vm_compute. reflexivity. Qed.

(** The columns of three records, each with the ids of its cards. *)
Example renderKanban_samples :
  option_map
    (map (fun '(dept, items) => (dept, map (fun d => d.["編號"]) items)))
    (renderKanban unit_compare [sampleModified; sampleNew; sampleRaw])
  = Some [(utf16 "人資", [VStr (utf16 "S-3")]);
          (utf16 "永續辦", [VStr (utf16 "E-1")]);
          (UNASSIGNED, [VStr (utf16 "G-12")])].
Proof. vm_compute. reflexivity. Qed.

(** C1, as stated, fails: the search is trimmed.  With " E-1" typed in the
    search box the record E-1 is kept, although the lower-cased search
    text, with its space, occurs nowhere in the record's text. *)
Lemma applyFilters_search_as_stated_counterexample :
  In sampleNew (applyFilters ascii_lower [sampleNew] searchLeadingSpace)
  /\ ~ searchStated ascii_lower searchLeadingSpace sampleNew.
Proof.
  split.
  - apply filter_In. split; [left; reflexivity | vm_compute; reflexivity].
  - intros H. unfold searchStated in H.
    assert (Hne : searchInput searchLeadingSpace <> []) by discriminate.
    apply H, includes_spec in Hne. vm_compute in Hne. discriminate.
Qed.


(** C3, as stated, fails: a suggestion that is only a raw response carries
    no error and no parse-error marker, and the overlay shows the five
    structured items, all "N/A", not the raw text; and a suggestion whose
    assignment is an object with a [toString] key of its own makes the
    template of the section raise. *)
Lemma openModal_raw_response_counterexample :
  carries sampleRaw.["ai_suggestion"] "raw_response"
  /\ (exists det,
        openModal sampleRaw = Some det
        /\ detail_ai det = AIStructured NA NA (Plain NA) NA NA)
  /\ Strict.aiSection (VObj {[ "分派建議" := sampleOverride ]}) = None.
Proof.
  split; [reflexivity|]. split; [|reflexivity].
  eexists. split; reflexivity.
Qed.

(** C5, as stated, fails: the table row of a record with no face shows an
    empty face label, not the governance label. *)
Lemma tableRow_absent_face_counterexample :
  sampleModified !! "構面" = None
  /\ exists row,
       tableRow sampleModified = Some row
       /\ row_faceLabel row = []
       /\ row_faceLabel row <> utf16 "治理".
Proof.
  split; [reflexivity|]. eexists. split; [reflexivity|].
  split; [reflexivity | discriminate].
Qed.

(** The badge of the New record, scored 0. *)
Lemma createCard_score_badge_witness :
  textual sampleNew.["評鑑指標"] = true
  /\ textual sampleNew.["114_自評得分"] = true
  /\ exists card,
       createCard sampleNew = Some card
       /\ card_score card = utf16 "(新增)".
Proof.
  split; [reflexivity|]. split; [reflexivity|].
  destruct (createCard_score_badge sampleNew eq_refl eq_refl)
    as [card [E [Hnew _]]].
  exists card. split; [exact E|]. apply Hnew. reflexivity.
Defined.

(** The flag of a record whose suggestion carries no marker. *)
Lemma createCard_ai_flag_witness :
  textual sampleRaw.["評鑑指標"] = true
  /\ textual sampleRaw.["114_自評得分"] = true
  /\ exists card, createCard sampleRaw = Some card /\ card_ai card = true.
Proof.
  split; [reflexivity|]. split; [reflexivity|].
  destruct (createCard_ai_flag sampleRaw eq_refl eq_refl)
    as [card [E [Hai _]]].
  exists card. split; [exact E|]. apply Hai.
  repeat split; discriminate.
Defined.

(** The card and the overlay of a record with no face. *)
Lemma face_fallback_by_view_witness :
  textual sampleModified.["評鑑指標"] = true
  /\ textual sampleModified.["114_自評得分"] = true
  /\ sampleModified.["構面"] <> VStr FACE_E
  /\ sampleModified.["構面"] <> VStr FACE_S
  /\ (exists card,
        createCard sampleModified = Some card
        /\ card_faceClass card = utf16 "gov")
  /\ exists det,
       openModal sampleModified = Some det
       /\ detail_face det = utf16 "公司治理面 (G)".
Proof.
  split; [reflexivity|]. split; [reflexivity|].
  split; [discriminate|]. split; [discriminate|].
  destruct (face_fallback_by_view sampleModified eq_refl eq_refl)
    as [Hc [Hd _]]; try discriminate.
  split; assumption.
Defined.

(** The overlay of a record with a structured suggestion: the alternate
    key is read, the absent items show "N/A", the actions are bullets. *)
Lemma openModal_ai_branches_witness :
  textual sampleStructured.["評鑑指標"] = true
  /\ subItemsConvert sampleStructured.["ai_suggestion"]
  /\ exists det section,
       openModal sampleStructured = Some det
       /\ Strict.aiSection sampleStructured.["ai_suggestion"] = Some section
       /\ detail_ai det = section
       /\ section
          = AIStructured (utf16 "Disclose") NA
              (Bullets [utf16 "Measure"; utf16 "Report"]) NA (utf16 "HR").
Proof.
  assert (Hc : subItemsConvert sampleStructured.["ai_suggestion"]).
  { repeat constructor. }
  split; [reflexivity|]. split; [exact Hc|].
  destruct (openModal_ai_branches sampleStructured eq_refl Hc)
    as [det [section [E [Es [Ed [_ [_ [Hst _]]]]]]]].
  exists det, section. split; [exact E|]. split; [exact Es|].
  split; [exact Ed|].
  destruct Hst as [actions [-> [Hb _]]]; try discriminate.
  rewrite (Hb [VStr (utf16 "Measure"); VStr (utf16 "Report")] eq_refl).
  reflexivity.
Defined.


(** The groups of three records. *)
Lemma groupByDept_partition_witness :
  Forall (fun d => textual d.["114_相關負責部門"] = true)
    [sampleModified; sampleNew; sampleRaw]
  /\ exists g,
       groupByDept [sampleModified; sampleNew; sampleRaw] = Some g
       /\ memberCount g = 3.
Proof.
  assert (H : Forall (fun d => textual d.["114_相關負責部門"] = true)
                [sampleModified; sampleNew; sampleRaw]).
  { repeat constructor. }
  split; [exact H|].
  destruct (groupByDept_partition _ H) as [g [E [Hc _]]].
  exists g. split; [exact E | exact Hc].
Defined.

(** The column order of three records under the code-unit order. *)
Lemma sortedKeys_unassigned_last_witness :
  Forall (fun d => textual d.["114_相關負責部門"] = true)
    [sampleModified; sampleNew; sampleRaw]
  /\ exists g named,
       groupByDept [sampleModified; sampleNew; sampleRaw] = Some g
       /\ sortedKeys unit_compare g
          = named ++ (if groups_has g UNASSIGNED then [UNASSIGNED] else [])
       /\ StronglySorted (collates unit_compare) named.
Proof.
  assert (H : Forall (fun d => textual d.["114_相關負責部門"] = true)
                [sampleModified; sampleNew; sampleRaw]).
  { repeat constructor. }
  split; [exact H|].
  destruct (sortedKeys_unassigned_last unit_compare
              unit_compare_total unit_compare_trans _ H)
    as [g [columns [named [E [_ [_ [_ [Es [_ [Hs _]]]]]]]]]].
  exists g, named. split; [exact E|]. split; [exact Es | exact Hs].
Defined.

(** The stats bar and the card of the record that failed to parse. *)
Lemma stats_count_ignores_parse_error_witness :
  In sampleModified (List.filter countsAI [sampleNew; sampleModified])
  /\ 1 <= stat_ai (renderStats [sampleNew; sampleModified])
  /\ exists card,
       createCard sampleModified = Some card /\ card_ai card = false.
Proof.
  destruct (stats_count_ignores_parse_error [sampleNew; sampleModified])
    as [_ [_ H]].
  apply (H sampleModified); [right; left| | |]; reflexivity.
Defined.

(** A record of the documented shape with a question type that does not
    convert: its card, its row, its overlay and its export raise. *)
Example views_raise_on_own_toString :
  shaped sampleOddType = true
  /\ Strict.createCard sampleOddType = None
  /\ Strict.tableRow sampleOddType = None
  /\ Strict.openModal sampleOddType = None
  /\ Strict.exportCSV [sampleOddType] = None
  /\ Strict.step ascii_lower unit_compare
       (pageWith [sampleOddType] [sampleOddType]) ClickKanban = None.
Proof. repeat split. Qed.

(** The loader drops a section header, a bare string and an entry with no
    id. *)
Example loadData_drops_headers :
  option_map (map idOf) (loadData samplePayload)
  = Some [VStr (utf16 "E-1"); VStr (utf16 "S-3")].
Proof. vm_compute. reflexivity. Qed.

(** An id that is an array of one string is read as that string. *)
Example loadData_array_id :
  option_map (map idOf)
    (loadData [VObj {[ "編號" := VArr [VStr (utf16 "G-7")] ]}])
  = Some [VArr [VStr (utf16 "G-7")]].
Proof. vm_compute. reflexivity. Qed.

(** C8, as stated, fails: on a parsed array with a [null] entry, or with
    an id that is an object with a [toString] key of its own, the callback
    of the filter raises; the loader catches the exception and the record
    set is left holding the whole parsed array, the section header
    included. *)
Lemma loadData_raising_entry_counterexample :
  loadData [VObj sampleHeader; VNull] = None
  /\ In (VObj sampleHeader) (loadedData [VObj sampleHeader; VNull])
  /\ ~ indicatorCode (to_string (idOf (VObj sampleHeader)))
  /\ loadData [VObj sampleHeader; VObj {[ "編號" := sampleOverride ]}] = None
  /\ In (VObj sampleHeader)
       (loadedData [VObj sampleHeader; VObj {[ "編號" := sampleOverride ]}]).
Proof.
  split; [reflexivity|]. split; [left; reflexivity|].
  split; [|split; [reflexivity | left; reflexivity]].
  intros H. apply indicator_code_test_spec in H.
  vm_compute in H. discriminate.
Qed.

(** The loader on the sample array. *)
Lemma loadData_keeps_indicator_codes_witness :
  Forall (fun d => testable d = true) samplePayload
  /\ exists kept,
       loadData samplePayload = Some kept
       /\ loadedData samplePayload = kept
       /\ kept = [VObj sampleNew; VObj sampleRaw].
Proof.
  assert (H : Forall (fun d => testable d = true) samplePayload).
  { repeat constructor. }
  split; [exact H|].
  destruct (loadData_keeps_indicator_codes samplePayload H)
    as [kept [E [El _]]].
  exists kept. split; [exact E|]. split; [exact El|].
  assert (E' : loadData samplePayload
               = Some [VObj sampleNew; VObj sampleRaw]) by reflexivity.
  congruence.
Defined.

(** The face filter with a search in capitals. *)
Example applyFilters_face_and_search :
  map (fun d => d.["編號"])
    (applyFilters ascii_lower [sampleNew; sampleModified; sampleRaw]
       {| filterFace := FACE_S; filterStatus := []; filterDept := [];
          searchInput := utf16 "TRAINING " |})
  = [VStr (utf16 "S-3")].
Proof. vm_compute. reflexivity. Qed.

(** A New record scored 0 reads "(新增)", in the fail style. *)
Example createCard_sampleNew :
  createCard sampleNew
  = Some {| card_id := utf16 "E-1";
            card_faceClass := utf16 "env";
            card_badge := utf16 "NEW";
            card_title := utf16 "Energy policy";
            card_type := [];
            card_scoreClass := utf16 "fail";
            card_score := utf16 "(新增)";
            card_ai := false |}.
Proof. vm_compute. reflexivity. Qed.

(** A score text is cut to six code units. *)
Example createCard_sampleModified :
  createCard sampleModified
  = Some {| card_id := utf16 "G-12";
            card_faceClass := utf16 "gov";
            card_badge := utf16 "MOD";
            card_title := utf16 "Board" ++ [QUOTE] ++ utf16 "size rule";
            card_type := [];
            card_scoreClass := utf16 "pass";
            card_score := utf16 "partia";
            card_ai := false |}.
Proof. vm_compute. reflexivity. Qed.

Example renderStats_samples :
  renderStats [sampleNew; sampleModified; sampleRaw]
  = {| stat_total := 3; stat_new := 1; stat_mod := 2; stat_ai := 2 |}.
Proof. vm_compute. reflexivity. Qed.

(** A title that is a number has no [replace]: the card is not built. *)
Example createCard_numeric_title :
  createCard {[ "編號" := VStr (utf16 "E-2"); "評鑑指標" := VNum 7 ]} = None.
Proof. vm_compute. reflexivity. Qed.

(** *** The further properties on the sample records *)


Lemma sampleRecords_plain : Forall plain sampleRecords.
Proof.
  repeat constructor;
    try (apply fields_convert; vm_compute; repeat constructor);
    try (intros k; reflexivity);
    apply props_convert; vm_compute; repeat constructor.
Qed.

(** Two spaces in the search box filter nothing. *)
Lemma applyFilters_blank_controls_witness :
  filterFace blankControls = []
  /\ filterStatus blankControls = []
  /\ filterDept blankControls = []
  /\ trim (ascii_lower (searchInput blankControls)) = []
  /\ applyFilters ascii_lower sampleRecords blankControls = sampleRecords.
Proof.
  repeat (split; [reflexivity|]).
  apply (applyFilters_blank_controls ascii_lower); reflexivity.
Defined.



(** The options of three records, one without a department. *)
Lemma populateDeptFilter_options_witness :
  Forall (fun d => textual d.["114_相關負責部門"] = true) sampleRecords
  /\ exists options,
       populateDeptFilter [[]] sampleRecords = Some ([[]] ++ options)
       /\ List.NoDup options.
Proof.
  assert (H : Forall (fun d => textual d.["114_相關負責部門"] = true)
                sampleRecords).
  { repeat constructor. }
  split; [exact H|].
  destruct (populateDeptFilter_options [[]] _ H) as [options [E [_ [N _]]]].
  exists options. split; [exact E | exact N].
Defined.

(** The department of [sampleRaw] selects it. *)
Lemma deptOption_selects_witness :
  Forall (fun d => textual d.["114_相關負責部門"] = true) sampleRecords
  /\ populateDeptFilter [[]] sampleRecords
     = Some ([[]] ++ [utf16 "人資"; utf16 "永續辦"])
  /\ In (filterDept deptControls) [utf16 "人資"; utf16 "永續辦"]
  /\ filterFace deptControls = []
  /\ filterStatus deptControls = []
  /\ trim (ascii_lower (searchInput deptControls)) = []
  /\ applyFilters ascii_lower sampleRecords deptControls <> [].
Proof.
  assert (H : Forall (fun d => textual d.["114_相關負責部門"] = true)
                sampleRecords).
  { repeat constructor. }
  split; [exact H|].
  split; [reflexivity|]. split; [left; reflexivity|].
  repeat (split; [reflexivity|]).
  apply (deptOption_selects ascii_lower sampleRecords [[]]
           [utf16 "人資"; utf16 "永續辦"] deptControls);
    [exact H | reflexivity | left; reflexivity | reflexivity ..].
Defined.

(** A department that is a number is offered under its string form, and
    that option selects nothing; one that is an object with a [toString]
    key of its own makes the options raise. *)
Example populateDeptFilter_number :
  populateDeptFilter [[]]
    [ {[ "114_相關負責部門" := VNum 5 ]};
      {[ "114_相關負責部門" := VStr (utf16 "HR") ]} ]
  = Some [[]; utf16 "5"; utf16 "HR"]
  /\ applyFilters ascii_lower
       [ {[ "114_相關負責部門" := VNum 5 ]};
         {[ "114_相關負責部門" := VStr (utf16 "HR") ]} ]
       {| filterFace := []; filterStatus := []; filterDept := utf16 "5";
          searchInput := [] |}
     = []
  /\ populateDeptFilter [[]] [ {[ "114_相關負責部門" := sampleOverride ]} ]
     = None.
Proof. vm_compute. repeat split. Qed.

(** The board under the department filter. *)
Lemma dept_filter_single_column_witness :
  filterDept deptControls <> []
  /\ renderKanban unit_compare
       (applyFilters ascii_lower sampleRecords deptControls)
     = Some match applyFilters ascii_lower sampleRecords deptControls with
            | [] => []
            | _ :: _ =>
              [(filterDept deptControls,
                applyFilters ascii_lower sampleRecords deptControls)]
            end.
Proof.
  split; [discriminate|].
  apply dept_filter_single_column. discriminate.
Defined.


(** A column whose title holds the fourth and the fifth keyword: the
    fourth gives the accent. *)
Lemma createColumn_accent_witness :
  Forall (fun d => shaped d = true) [sampleRaw]
  /\ is_substring (utf16 "人資") (utf16 "人資暨法務部")
  /\ is_substring (utf16 "法務") (utf16 "人資暨法務部")
  /\ exists col,
       createColumn (utf16 "人資暨法務部") [sampleRaw] = Some col
       /\ col_color col = utf16 "var(--soc-color)".
Proof.
  assert (H : Forall (fun d => shaped d = true) [sampleRaw]).
  { repeat constructor. }
  split; [exact H|].
  assert (H4 : is_substring (utf16 "人資") (utf16 "人資暨法務部")).
  { apply includes_spec. reflexivity. }
  split; [exact H4|]. split; [apply includes_spec; reflexivity|].
  destruct (createColumn_accent (utf16 "人資暨法務部") _ H)
    as [col [E [_ [_ [_ [_ [Hr _]]]]]]].
  exists col. split; [exact E|]. apply Hr; [exact H4|].
  intros k Hin Hs. apply includes_spec in Hs.
  repeat (destruct Hin as [Hin | Hin];
          [subst k; vm_compute in Hs; discriminate|]).
  destruct Hin.
Defined.

(** The title of [sampleModified], which has a newline. *)
Lemma title_across_views_witness :
  textual sampleModified.["評鑑指標"] = true
  /\ textual sampleModified.["114_自評得分"] = true
  /\ exists card row,
       createCard sampleModified = Some card
       /\ tableRow sampleModified = Some row
       /\ row_title row = utf16 "Board" ++ [QUOTE] ++ utf16 "size rule"
       /\ card_title card = firstn 100 (row_title row).
Proof.
  split; [reflexivity|]. split; [reflexivity|].
  destruct (title_across_views sampleModified eq_refl eq_refl)
    as [card [row [det [Ec [Er [_ [Em [_ [_ [Ht _]]]]]]]]]].
  exists card, row. split; [exact Ec|]. split; [exact Er|].
  split; [rewrite Em; reflexivity | exact Ht].
Defined.

(** The score text of [sampleModified] in the table and on the card. *)
Lemma score_in_table_and_card_witness :
  textual sampleModified.["評鑑指標"] = true
  /\ textual sampleModified.["114_自評得分"] = true
  /\ exists card row,
       createCard sampleModified = Some card
       /\ tableRow sampleModified = Some row
       /\ row_score row = utf16 "--"
       /\ card_score card = firstn 6 (utf16 "partial credit").
Proof.
  split; [reflexivity|]. split; [reflexivity|].
  destruct (score_in_table_and_card sampleModified eq_refl eq_refl)
    as [card [row [Ec [Er [_ H]]]]].
  exists card, row. split; [exact Ec|]. split; [exact Er|].
  apply H; [discriminate | discriminate | discriminate | reflexivity
            | discriminate].
Defined.

(** The score text of [sampleModified] in the overlay and on the card. *)
Lemma score_in_overlay_and_card_witness :
  textual sampleModified.["評鑑指標"] = true
  /\ textual sampleModified.["114_自評得分"] = true
  /\ exists card det,
       createCard sampleModified = Some card
       /\ openModal sampleModified = Some det
       /\ detail_score det = utf16 "partial credit"
       /\ card_score card = firstn 6 (detail_score det).
Proof.
  split; [reflexivity|]. split; [reflexivity|].
  destruct (score_in_overlay_and_card sampleModified eq_refl eq_refl)
    as [card [det [Ec [Ed [_ H]]]]].
  exists card, det. split; [exact Ec|]. split; [exact Ed|].
  destruct H as [H _]; [discriminate | discriminate | discriminate|].
  apply H; [reflexivity | discriminate].
Defined.

(** The filters run on the loaded records. *)
Lemma filters_changed_renders_current_view_witness :
  Forall plain (ui_allData (pageWith sampleRecords []))
  /\ exists s',
       Strict.step ascii_lower unit_compare (pageWith sampleRecords [])
         FiltersChanged = Some s'
       /\ ui_filteredData s'
          = applyFilters ascii_lower sampleRecords blankControls
       /\ inSync unit_compare s'.
Proof.
  split; [exact sampleRecords_plain|].
  destruct (filters_changed_renders_current_view ascii_lower unit_compare
              (pageWith sampleRecords []) sampleRecords_plain)
    as [s' [E [Ef [Hs _]]]].
  exists s'. split; [exact E|]. split; [exact Ef | exact Hs].
Defined.


(** A session on the loaded records. *)
Lemma run_keeps_page_in_sync_witness :
  Forall plain (ui_allData (pageWith sampleRecords []))
  /\ inSync unit_compare (pageWith sampleRecords [])
  /\ viewShown (pageWith sampleRecords [])
  /\ modalConsistent (pageWith sampleRecords [])
  /\ clicksWithin (ui_allData (pageWith sampleRecords [])) sampleSession
  /\ exists s',
       Strict.run ascii_lower unit_compare (pageWith sampleRecords [])
         sampleSession = Some s'
       /\ inSync unit_compare s'
       /\ ui_allData s' = sampleRecords.
Proof.
  assert (Hi : inSync unit_compare (pageWith sampleRecords [])).
  { split; [apply sublist_nil_l|]. split; [reflexivity|].
    exists []. split; reflexivity. }
  assert (Hv : viewShown (pageWith sampleRecords [])).
  { repeat split. }
  assert (Hm : modalConsistent (pageWith sampleRecords [])).
  { left. split; reflexivity. }
  assert (Hc : clicksWithin (ui_allData (pageWith sampleRecords []))
                 sampleSession).
  { intros item Hin.
    repeat (destruct Hin as [Hin | Hin]; [try discriminate Hin|]).
    - inversion Hin. right. left. reflexivity.
    - destruct Hin. }
  split; [exact sampleRecords_plain|]. split; [exact Hi|].
  split; [exact Hv|]. split; [exact Hm|]. split; [exact Hc|].
  destruct (run_keeps_page_in_sync ascii_lower unit_compare sampleSession
              (pageWith sampleRecords []) sampleRecords_plain Hi Hv Hm Hc)
    as [s' [E [Hs [_ [_ Ea]]]]].
  exists s'. split; [exact E|]. split; [exact Hs | exact Ea].
Defined.


(** The first file answers with an unreadable body: the second file,
    though readable, is not used, and the board ends empty. *)
Lemma init_failed_load_witness :
  loadFails (Response true None) (Response true (Some sampleRecords))
  /\ freshPage samplePage
  /\ exists loaded s',
       loadDataStep (Response true None)
         (Response true (Some sampleRecords)) samplePage = Some loaded
       /\ ui_board loaded = BoardNotice LOAD_FAILED
       /\ init ascii_lower unit_compare (Response true None)
            (Response true (Some sampleRecords)) samplePage = Some s'
       /\ ui_board s' = BoardColumns []
       /\ ui_allData s' = [].
Proof.
  assert (Hf : loadFails (Response true None)
                 (Response true (Some sampleRecords))).
  { left. reflexivity. }
  assert (Hp : freshPage samplePage).
  { repeat split. }
  split; [exact Hf|]. split; [exact Hp|].
  destruct (init_failed_load ascii_lower unit_compare _ _ samplePage Hf Hp)
    as [loaded [s' [El [Eb [_ [_ [Ei [Eb' [Ea _]]]]]]]]].
  exists loaded, s'. repeat split; assumption.
Defined.

(** The first file is missing and the second answers without [ok]: its
    body is loaded, the section header left out. *)
Lemma init_loaded_witness :
  loadReads FetchRejected
    (Response false (Some (sampleHeader :: sampleRecords)))
    (sampleHeader :: sampleRecords)
  /\ Forall (fun d => converts d.["編號"] = true)
       (sampleHeader :: sampleRecords)
  /\ (forall d,
        In d (sampleHeader :: sampleRecords) ->
        carriesCode (VObj d) = true -> plain d)
  /\ freshPage samplePage
  /\ exists s',
       Strict.init ascii_lower unit_compare FetchRejected
         (Response false (Some (sampleHeader :: sampleRecords))) samplePage
       = Some s'
       /\ ui_allData s' = sampleRecords
       /\ inSync unit_compare s'.
Proof.
  assert (Hr : loadReads FetchRejected
                 (Response false (Some (sampleHeader :: sampleRecords)))
                 (sampleHeader :: sampleRecords)).
  { right. split; [left; reflexivity|]. exists false. reflexivity. }
  assert (Hid : Forall (fun d => converts d.["編號"] = true)
                  (sampleHeader :: sampleRecords)).
  { repeat constructor. }
  assert (Hpl : forall d,
             In d (sampleHeader :: sampleRecords) ->
             carriesCode (VObj d) = true -> plain d).
  { intros d [<- | Hd]; [discriminate|]. intros _.
    pose proof sampleRecords_plain as H.
    rewrite List.Forall_forall in H. apply H, Hd. }
  assert (Hp : freshPage samplePage).
  { repeat split. }
  split; [exact Hr|]. split; [exact Hid|]. split; [exact Hpl|].
  split; [exact Hp|].
  destruct (init_loaded ascii_lower unit_compare _ _
              (sampleHeader :: sampleRecords) samplePage Hr Hid Hpl Hp)
    as [loaded [names [s' [_ [El [_ [Ei [Ea [_ [_ [Hi _]]]]]]]]]]].
  exists s'. split; [exact Ei|]. split; [|exact Hi].
  rewrite Ea, El. reflexivity.
Defined.
